(** * Feedback dashboard backend: a shallow embedding of [server.js] and
    [sheetsClient.js]

    The server is an Express application in front of a Google spreadsheet.
    The embedding keeps the layering of the source:

    - [JS]: the handful of JavaScript string primitives the code relies on
      (truthiness, [||] defaults, [trim], [startsWith], [padStart], the
      order of [sort], [toLowerCase], the names every object inherits);
    - [Json]: JSON values, used for response bodies and for the comment
      list kept inside one cell;
    - [Eff]: the effects of an [async] function as a state-and-exception
      monad over a [world] made of the remote sheet, the console and the
      schedule of remote failures;
    - [SheetsClient]: the methods of the [SheetsClient] class;
    - [Server]: the helper functions and route handlers of [server.js];
    - [ServerV2]: the earlier variant of the server where it differs;
    - [TelegramReply]: the texts of a reply to the bot and
      [addCommentToFeedback];
    - [TelegramServer]: the variant of the server with the Telegram bot,
      its webhook and its routes;
    - [JsonText], [Samples]: a JSON reader and printer and sample data,
      to run the examples;
    - [Spec]: the vocabulary of the statements.

    The theorems follow, one group for each part of the server, and the
    file ends with the theorems applied to sample inputs.

    Strings are Rocq [string]s: the bytes of the UTF-8 encoding of the
    JavaScript string.  [trim] strips the white space of the language,
    of one, two or three bytes; [sort] orders by the UTF-16 code units
    of the decoded text, as the default comparison does; an object used
    as a counter or as a table also answers for the names it inherits
    from [Object.prototype].  A [request] is a request that [cors()] and
    [express.json()] have passed on; an [arrival] is a request as it
    reaches the server. *)

From Stdlib Require Import String Ascii ZArith Bool Lia DecimalString.
From Stdlib Require DecimalNat DecimalFacts.
From stdpp Require Import strings gmap list sorting.

Set Warnings "-register-all".

Local Open Scope string_scope.
Local Open Scope list_scope.

(** ** JavaScript string primitives *)

Module JS.

(** A string used as a condition: only the empty string is falsy. *)
Definition truthy (s : string) : bool := negb (String.eqb s "").

(** [o || d] for a property that is a string when present. *)
Definition or_else (o : option string) (d : string) : string :=
  match o with
  | Some s => if truthy s then s else d
  | None => d
  end.

(** [s.startsWith(p)] and [s.endsWith(p)]. *)
Definition startsWith (p s : string) : bool := String.prefix p s.

Definition endsWith (p s : string) : bool :=
  String.prefix (String.rev p) (String.rev s).

(** The white space of the language, which [trim] strips and [\s]
    matches: the code points U+0009 to U+000D, U+0020, U+00A0, U+1680,
    U+2000 to U+200A, U+2028, U+2029, U+202F, U+205F, U+3000 and U+FEFF.
    In UTF-8 each of them takes one, two or three bytes. *)
Definition space1 (a : ascii) : bool :=
  let x := nat_of_ascii a in
  (Nat.leb 9 x && Nat.leb x 13) || Nat.eqb x 32.

Definition space2 (a b : ascii) : bool :=
  Nat.eqb (nat_of_ascii a) 194 && Nat.eqb (nat_of_ascii b) 160.

Definition space3 (a b c : ascii) : bool :=
  let x := nat_of_ascii a in
  let y := nat_of_ascii b in
  let z := nat_of_ascii c in
  (Nat.eqb x 225 && Nat.eqb y 154 && Nat.eqb z 128)
  || (Nat.eqb x 226 && Nat.eqb y 128
      && ((Nat.leb 128 z && Nat.leb z 138) || Nat.eqb z 168 || Nat.eqb z 169
          || Nat.eqb z 175))
  || (Nat.eqb x 226 && Nat.eqb y 129 && Nat.eqb z 159)
  || (Nat.eqb x 227 && Nat.eqb y 128 && Nat.eqb z 128)
  || (Nat.eqb x 239 && Nat.eqb y 187 && Nat.eqb z 191).

(** [s.trimStart()]. *)
Fixpoint trimStart (s : string) : string :=
  match s with
  | EmptyString => EmptyString
  | String a s1 =>
      if space1 a then trimStart s1
      else
        match s1 with
        | EmptyString => s
        | String b s2 =>
            if space2 a b then trimStart s2
            else
              match s2 with
              | EmptyString => s
              | String c s3 => if space3 a b c then trimStart s3 else s
              end
        end
  end.

(** The same from the end, on the bytes in reverse order: in UTF-8 the
    bytes of one of these characters at the end of a text are that
    character. *)
Fixpoint trimStart_reversed (s : string) : string :=
  match s with
  | EmptyString => EmptyString
  | String c s1 =>
      if space1 c then trimStart_reversed s1
      else
        match s1 with
        | EmptyString => s
        | String b s2 =>
            if space2 b c then trimStart_reversed s2
            else
              match s2 with
              | EmptyString => s
              | String a s3 =>
                  if space3 a b c then trimStart_reversed s3 else s
              end
        end
  end.

(** [s.trimEnd()]. *)
Definition trimEnd (s : string) : string :=
  String.rev (trimStart_reversed (String.rev s)).

(** [s.trim()]. *)
Definition trim (s : string) : string := trimEnd (trimStart s).

(** The UTF-16 code units of a text, which is how the language sees a
    string: a character outside the basic plane is a pair of
    surrogates. *)
Fixpoint code_units (s : string) : list N :=
  match s with
  | EmptyString => []
  | String a s1 =>
      let x := N_of_ascii a in
      if (x <? 128)%N then x :: code_units s1
      else
        match s1 with
        | EmptyString => [65533%N]
        | String b s2 =>
            let y := N.land (N_of_ascii b) 63 in
            if (x <? 224)%N then
              (N.land x 31 * 64 + y)%N :: code_units s2
            else
              match s2 with
              | EmptyString => [65533%N]
              | String c s3 =>
                  let z := N.land (N_of_ascii c) 63 in
                  if (x <? 240)%N then
                    (N.land x 15 * 4096 + y * 64 + z)%N :: code_units s3
                  else
                    match s3 with
                    | EmptyString => [65533%N]
                    | String d s4 =>
                        let t := N.land (N_of_ascii d) 63 in
                        let point :=
                          (N.land x 7 * 262144 + y * 4096 + z * 64 + t)%N in
                        let above := (point - 65536)%N in
                        (55296 + above / 1024)%N
                        :: (56320 + above mod 1024)%N
                        :: code_units s4
                    end
              end
        end
  end.

(** [a <= b] for strings: the order of the code units, a prefix
    first. *)
Fixpoint units_le (a b : list N) : bool :=
  match a, b with
  | [], _ => true
  | _ :: _, [] => false
  | x :: a', y :: b' =>
      if (x <? y)%N then true
      else if (y <? x)%N then false
      else units_le a' b'
  end.

Definition le (a b : string) : Prop :=
  Is_true (units_le (code_units a) (code_units b)).

#[global] Instance le_dec (a b : string) : Decision (le a b) :=
  Is_true_dec _.

(** [s.substring(n)]. *)
Definition substring_from (n : nat) (s : string) : string :=
  String.substring n (String.length s - n) s.

Definition lower (a : ascii) : ascii :=
  let n := nat_of_ascii a in
  if Nat.leb 65 n && Nat.leb n 90 then ascii_of_nat (n + 32) else a.

(** The letters A to Z lowered. *)
Fixpoint lower_ascii (s : string) : string :=
  match s with
  | String a s' => String (lower a) (lower_ascii s')
  | EmptyString => EmptyString
  end.

(** The lower case of a letter of two bytes: Latin-1 (U+00C0 to U+00DE
    without the sign U+00D7), Latin Extended-A (U+0100 to U+017F, where
    the capital is the even or the odd one of a pair, İ becomes i with a
    dot above and Ÿ becomes ÿ), and Ơ and Ư. *)
Definition lower2 (x y : nat) : option (list nat) :=
  if Nat.eqb x 195 then
    if Nat.leb 128 y && Nat.leb y 158 && negb (Nat.eqb y 151)
    then Some [x; y + 32] else None
  else if Nat.eqb x 196 then
    if Nat.eqb y 176 then Some [105; 204; 135]
    else if Nat.eqb y 191 then Some [197; 128]
    else if (Nat.leb y 183 && Nat.even y) || (Nat.leb 185 y && Nat.odd y)
    then Some [x; y + 1] else None
  else if Nat.eqb x 197 then
    if Nat.eqb y 184 then Some [195; 191]
    else if (Nat.leb y 135 && Nat.odd y)
            || (Nat.leb 138 y && Nat.leb y 182 && Nat.even y)
            || (Nat.leb 185 y && Nat.leb y 189 && Nat.odd y)
    then Some [x; y + 1] else None
  else if Nat.eqb x 198 then
    if Nat.eqb y 160 || Nat.eqb y 175 then Some [x; y + 1] else None
  else None.

(** The lower case of a letter of three bytes: Latin Extended Additional
    (U+1E00 to U+1EFF), where the capital is the even one of a pair,
    except between U+1E96 and U+1E9F, where only ẞ has a lower case. *)
Definition lower3 (x y z : nat) : option (list nat) :=
  if Nat.eqb x 225 && Nat.leb 184 y && Nat.leb y 187 then
    if Nat.eqb y 186 && Nat.leb 150 z && Nat.leb z 159 then
      if Nat.eqb z 158 then Some [195; 159] else None
    else if Nat.even z then Some [x; y; z + 1] else None
  else None.

Fixpoint of_bytes (bytes : list nat) (rest : string) : string :=
  match bytes with
  | [] => rest
  | b :: bytes' => String (ascii_of_nat b) (of_bytes bytes' rest)
  end.

(** [s.toLowerCase()] on the letters of the Latin script up to U+017F,
    on Ơ and Ư and on those between U+1E00 and U+1EFF, which are the
    letters of Vietnamese and of the languages of western Europe; every
    other character is kept.  The server compares a lowered text with
    "done" and with the keys of [hostMap] only, all written in these
    letters, and no character outside them has a lower case in them. *)
Fixpoint toLowerCase (s : string) : string :=
  match s with
  | EmptyString => EmptyString
  | String a s1 =>
      match s1 with
      | EmptyString => String (lower a) EmptyString
      | String b s2 =>
          match lower2 (nat_of_ascii a) (nat_of_ascii b) with
          | Some bytes => of_bytes bytes (toLowerCase s2)
          | None =>
              match s2 with
              | EmptyString => String (lower a) (toLowerCase s1)
              | String c s3 =>
                  match lower3 (nat_of_ascii a) (nat_of_ascii b)
                          (nat_of_ascii c) with
                  | Some bytes => of_bytes bytes (toLowerCase s3)
                  | None => String (lower a) (toLowerCase s1)
                  end
              end
          end
      end
  end.

(** A regular expression with the flag [i] and without the flag [u]
    compares a character of its pattern with a character of the text
    after both went through the upper case mapping, which is not applied
    where it would turn a character outside ASCII into one inside.  For a
    pattern of ASCII characters this is equality up to the case of the
    letters A to Z. *)
Definition ignore_case (s : string) : string := lower_ascii s.

(** The line feed of a template literal. *)
Definition nl : string := String (ascii_of_nat 10) EmptyString.

(** [n.toString()] for a non-negative integer. *)
Definition toString (n : nat) : string :=
  NilZero.string_of_uint (Nat.to_uint n).

(** The same for a number kept in binary, such as [Date.now()]. *)
Definition toString_N (n : N) : string :=
  NilZero.string_of_uint (N.to_uint n).

Fixpoint repeat_char (c : ascii) (n : nat) : string :=
  match n with
  | O => EmptyString
  | S n' => String c (repeat_char c n')
  end.

(** [s.padStart(len, c)] for a one-character filler. *)
Definition padStart (len : nat) (c : ascii) (s : string) : string :=
  repeat_char c (len - String.length s) ++ s.

(** The names that every object inherits from [Object.prototype].  An
    object literal used as a table answers a lookup of one of them with
    the inherited member, which is not a string. *)
Definition Object_prototype : list string :=
  [ "constructor"; "__defineGetter__"; "__defineSetter__"; "hasOwnProperty";
    "__lookupGetter__"; "__lookupSetter__"; "isPrototypeOf";
    "propertyIsEnumerable"; "toString"; "valueOf"; "__proto__";
    "toLocaleString" ].

Definition inherited (k : string) : bool :=
  bool_decide (k ∈ Object_prototype).

(** The text of the inherited member [name] where it is used as a
    string: [__proto__] is [Object.prototype] itself, [constructor] is
    the function [Object], and each other name is a function of that
    name. *)
Definition member_text (name : string) : string :=
  if String.eqb name "__proto__" then "[object Object]"
  else
    "function "
    ++ (if String.eqb name "constructor" then "Object" else name)
    ++ "() { [native code] }".

(** The double quote, for the messages that quote a value. *)
Definition dquote : string := String (ascii_of_nat 34) EmptyString.

End JS.

(** ** JSON values *)

Module Json.

Inductive json : Type :=
| JNull
| JBool (b : bool)
| JNum (n : Z)
| JStr (s : string)
| JArr (items : list json)
| JObj (fields : list (string * json)).

End Json.

Export Json.

(** ** Effects: the remote sheet, the console and remote failures *)

Module Eff.

(** A message sent through the Telegram bot API. *)
Record telegram_message : Type := mkTelegramMessage {
  tg_chat : string;
  tg_text : string
}.

(** What the getters of a [Date] return. *)
Record date : Type := mkDate {
  getFullYear : nat;
  getMonth : nat;
  getDate : nat;
  getHours : nat;
  getMinutes : nat;
  getSeconds : nat
}.

(** A reading of the system clock: [Date.now()], the wall-clock time of
    that instant in the time zone of the server, and its wall-clock time
    in Asia/Ho_Chi_Minh, which is what
    [new Date(now.toLocaleString('en-US', { timeZone: 'Asia/Ho_Chi_Minh' }))]
    holds. *)
Record instant : Type := mkInstant {
  epoch_ms : N;
  localTime : date;
  vnTime : date
}.

(** The state an [async] handler runs against.  [sheet] holds the rows of
    the "Feedback" tab from row 1 on, each row a list of cell values.
    [faults] schedules the outcome of the coming remote calls: [Some e]
    makes the next call reject with an error whose message is [e], [None]
    lets it succeed; once the schedule is used up every call succeeds.
    [uuids] are the values [crypto.randomUUID()] is going to return. *)
Record world : Type := mkWorld {
  sheet : list (list string);
  faults : list (option string);
  console : list string;
  outbox : list telegram_message;
  clock : instant;
  uuids : list string
}.

Inductive result (A : Type) : Type :=
| Returned (a : A)
| Thrown (message : string).
Arguments Returned {A} a.
Arguments Thrown {A} message.

Definition M (A : Type) : Type := world -> result A * world.

Definition ret {A} (a : A) : M A := fun w => (Returned a, w).

Definition bind {A B} (m : M A) (k : A -> M B) : M B :=
  fun w =>
    match m w with
    | (Returned a, w') => k a w'
    | (Thrown e, w') => (Thrown e, w')
    end.

(** [throw new Error(e)]. *)
Definition throw {A} (e : string) : M A := fun w => (Thrown e, w).

(** [try { m } catch (error) { handler error.message }]. *)
Definition try_catch {A} (m : M A) (handler : string -> M A) : M A :=
  fun w =>
    match m w with
    | (Returned a, w') => (Returned a, w')
    | (Thrown e, w') => handler e w'
    end.

Definition get_sheet : M (list (list string)) :=
  fun w => (Returned (sheet w), w).

Definition put_sheet (s : list (list string)) : M unit :=
  fun w => (Returned tt,
            mkWorld s (faults w) (console w) (outbox w) (clock w) (uuids w)).

(** [console.error], [console.warn] and [console.log]: one line each. *)
Definition console_log (line : string) : M unit :=
  fun w => (Returned tt,
            mkWorld (sheet w) (faults w) (console w ++ [line]) (outbox w)
              (clock w) (uuids w)).

(** [new Date()]. *)
Definition new_Date : M instant := fun w => (Returned (clock w), w).

(** [crypto.randomUUID()]. *)
Definition randomUUID : M string :=
  fun w =>
    match uuids w with
    | u :: rest =>
        (Returned u,
         mkWorld (sheet w) (faults w) (console w) (outbox w) (clock w) rest)
    | [] => (Returned "", w)
    end.

(** A message handed to the Telegram bot API. *)
Definition deliver (chat text : string) : M unit :=
  fun w =>
    (Returned tt,
     mkWorld (sheet w) (faults w) (console w)
       (outbox w ++ [mkTelegramMessage chat text]) (clock w) (uuids w)).

(** One request to a remote service: it takes the next scheduled
    outcome. *)
Definition remote_call : M unit :=
  fun w =>
    match faults w with
    | Some e :: rest =>
        (Thrown e,
         mkWorld (sheet w) rest (console w) (outbox w) (clock w) (uuids w))
    | None :: rest =>
        (Returned tt,
         mkWorld (sheet w) rest (console w) (outbox w) (clock w) (uuids w))
    | [] => (Returned tt, w)
    end.

(** [for (const x of xs) { await body x }]. *)
Fixpoint for_of {A} (xs : list A) (body : A -> M unit) : M unit :=
  match xs with
  | [] => ret tt
  | x :: xs' => bind (body x) (fun _ => for_of xs' body)
  end.

End Eff.

Export Eff.

Notation "x <- m ;; k" := (Eff.bind m (fun x => k))
  (at level 100, m at next level, right associativity).
Notation "m ;;; k" := (Eff.bind m (fun _ => k))
  (at level 100, right associativity).

(** ** [sheetsClient.js]

    The spreadsheet service is a table of strings.  It keeps the values
    as they are sent; a read of the tab gives its rows from row 1 on;
    [append] adds a row below the last one; an update writes the values
    it is given from the first cell of its range on.  An update that
    sends more values than its range has columns is answered as the
    service decides, see [Service].  Row numbers start at 1. *)

Module SheetsClient.

(** One element of [rows] as built by [getAllData]. *)
Record row : Type := mkRow {
  rowNumber : nat;
  deadline : string;
  host : string;
  shop : string;
  link : string;
  stage : string;
  tags : string;
  devNote : string;
  imageNote : string;
  note : string;
  time : string;
  message : string;
  messageId : string;
  imageId : string;
  id : string
}.

(** [row[i] || '']. *)
Definition cell (r : list string) (i : nat) : string :=
  JS.or_else (r !! i) "".

(** The object literal of the [map] callback. *)
Definition to_row (index : nat) (r : list string) : row :=
  {| rowNumber := index + 3;
     deadline := cell r 0;
     host := cell r 1;
     shop := cell r 2;
     link := cell r 3;
     stage := cell r 4;
     tags := cell r 5;
     devNote := cell r 6;
     imageNote := cell r 7;
     note := cell r 8;
     time := cell r 9;
     message := cell r 10;
     messageId := cell r 11;
     imageId := cell r 12;
     id := cell r 13 |}.

(** The [filter] callback: [row.shop || row.host]. *)
Definition kept (r : row) : bool := JS.truthy (shop r) || JS.truthy (host r).

(** The pure part of [getAllData], from the values of the sheet. *)
Definition all_data (data : list (list string))
  : list string * list row :=
  if Nat.ltb (length data) 3 then ([], [])
  else (default [] (data !! 0),
        filter (fun r => Is_true (kept r)) (imap to_row (drop 2 data))).

(** A method body wrapped in the class's [try]/[catch]: the error is
    written to the console and thrown again. *)
Definition logged {A} (name : string) (m : M A) : M A :=
  try_catch m
    (fun e => console_log ("SheetsClient: " ++ name ++ " Error: " ++ e) ;;;
              throw e).

Definition getAllData : M (list string * list row) :=
  logged "getAllData"
    (remote_call ;;;
     data <- get_sheet ;;
     ret (all_data data)).

(** The rows of the sheet are numbered from 1.  A request that names
    row 0 is one that the service refuses: it cannot parse a range such
    as [F0], and the row has no index to delete.  [e] stands for the
    message of the error it answers with. *)
Definition named_row (rowNumber : nat) (e : string) : M unit :=
  if Nat.eqb rowNumber 0 then throw e else ret tt.

(** [getRow]: the cells A..N of one row, [[]] when the row is empty. *)
Definition getRow (rowNumber : nat) : M (list string) :=
  logged "getRow"
    (remote_call ;;;
     named_row rowNumber "Unable to parse range: Feedback!A0:N0" ;;;
     data <- get_sheet ;;
     ret (take 14 (default [] (data !! (rowNumber - 1))))).

(** [appendRow]: the values go below the last row of the table. *)
Definition appendRow (rowArray : list string) : M bool :=
  logged "appendRow"
    (remote_call ;;;
     data <- get_sheet ;;
     put_sheet (data ++ [rowArray]) ;;;
     ret true).

(** Overwrite the first cells of [old] by [new], keeping the rest. *)
Definition overwrite (new old : list string) : list string :=
  new ++ drop (length new) old.

(** Row [r] (1-based) of the sheet after applying [f] to it; rows that
    did not exist yet are created empty. *)
Definition alter_row (f : list string -> list string) (r : nat)
    (data : list (list string)) : list (list string) :=
  let padded := data ++ replicate (r - length data) [] in
  alter f (r - 1) padded.

(** Cell [c] (0-based) of a row set to [v]; missing cells to its left
    are created empty. *)
Definition set_nth (c : nat) (v : string) (cells : list string)
  : list string :=
  <[c := v]> (cells ++ replicate (S c - length cells) "").

(** What [spreadsheets.values.update] answers to a request that sends
    more values for a row than its range has columns is decided by the
    spreadsheet service, not by this repository.  The service documents
    that it refuses such a request ("Requested writing within range ...,
    but tried writing to column [O]") and writes nothing;
    [too_wide rowNumber] is then [Some] of the message of that error for
    the range of row [rowNumber].  [None] stands for a service that
    writes all the values it is sent. *)
Class Service : Type := {
  too_wide : nat -> option string
}.

(** The answer to an update of the range [A{rowNumber}:N{rowNumber}], 14
    columns wide, with the values [rowArray]. *)
Definition refusal `{Service} (rowNumber : nat) (rowArray : list string)
  : option string :=
  if Nat.ltb 14 (length rowArray) then too_wide rowNumber else None.

Definition updateRow `{Service} (rowNumber : nat) (rowArray : list string)
  : M bool :=
  logged "updateRow"
    (remote_call ;;;
     named_row rowNumber "Unable to parse range: Feedback!A0:N0" ;;;
     match refusal rowNumber rowArray with
     | Some e => throw e
     | None =>
         data <- get_sheet ;;
         put_sheet (alter_row (overwrite rowArray) rowNumber data) ;;;
         ret true
     end).

(** The column letters the server uses. *)
Definition column (colLetter : string) : nat :=
  match colLetter with
  | String a EmptyString => nat_of_ascii a - 65
  | _ => 0
  end.

Definition updateCell (rowNumber : nat) (colLetter : string)
    (value : string) : M bool :=
  logged "updateCell"
    (remote_call ;;;
     named_row rowNumber
       ("Unable to parse range: Feedback!" ++ colLetter ++ "0") ;;;
     data <- get_sheet ;;
     put_sheet (alter_row (set_nth (column colLetter) value) rowNumber data) ;;;
     ret true).

(** [deleteRow]: one request for the sheet id, one for the deletion. *)
Definition deleteRow (rowNumber : nat) : M bool :=
  logged "deleteRow"
    (remote_call ;;;
     remote_call ;;;
     named_row rowNumber
       "Invalid requests[0].deleteDimension: startIndex must be at least 0" ;;;
     data <- get_sheet ;;
     put_sheet (take (rowNumber - 1) data ++ drop rowNumber data) ;;;
     ret true).

End SheetsClient.

(** ** [server.js]: timestamps and the feedback actions *)

Module Feedback.

(** [req.body.feedback]: every property is optional. *)
Record t : Type := mk {
  deadline : option string;
  host : option string;
  shop : option string;
  link : option string;
  stage : option string;
  tags : option string;
  devNote : option string;
  note : option string
}.

End Feedback.

(** What a helper function returns and [res.json] sends. *)
Module Reply.

(** [stats] and [filterOptions] of the dashboard.  [byHost] and
    [byStage] hold the keys of [stats.byHost] and [stats.byStage] whose
    value is a number; [byHostText] and [byStageText] hold the keys of
    the same two objects whose value is a text, see [Server.count]. *)
Record dashboard : Type := mkDashboard {
  pending : nat;
  done : nat;
  byHost : gmap string nat;
  byStage : gmap string nat;
  byHostText : gmap string nat;
  byStageText : gmap string nat;
  hosts : list string;
  stages : list string;
  feedback : list SheetsClient.row
}.

Inductive reply : Type :=
| Status (success : bool) (message : string)
    (* { success, message } *)
| DashboardData (d : dashboard)
    (* { success: true, stats, filterOptions, feedback } *)
| CommentList (message : option string) (comments : list json)
    (* { success: true, message?, comments } *)
| Ack
    (* { ok: true } *)
| Data (j : json).
    (* any other body *)

Record response : Type := mkResponse {
  status : nat;
  body : reply
}.

(** [res.json(b)]: status 200 unless [res.status] was called. *)
Definition json_response (b : reply) : response := mkResponse 200 b.

End Reply.

Export Reply.

Module Server.

Import SheetsClient.

(** [x.toString().padStart(2, '0')]. *)
Definition pad2 (x : nat) : string := JS.padStart 2 "0"%char (JS.toString x).

(** The template [`${h}:${min}:${s} ${d}/${m}/${y}`] with the six
    constants computed as in the source. *)
Definition timestamp (vnTime : date) : string :=
  let d := pad2 (getDate vnTime) in
  let m := pad2 (getMonth vnTime + 1) in
  let y := JS.toString (getFullYear vnTime) in
  let h := pad2 (getHours vnTime) in
  let min := pad2 (getMinutes vnTime) in
  let s := pad2 (getSeconds vnTime) in
  h ++ ":" ++ min ++ ":" ++ s ++ " " ++ d ++ "/" ++ m ++ "/" ++ y.

(** The comment variant [`${h}:${min} ${d}/${m}/${y}`]. *)
Definition comment_timestamp (vnTime : date) : string :=
  let d := pad2 (getDate vnTime) in
  let m := pad2 (getMonth vnTime + 1) in
  let y := JS.toString (getFullYear vnTime) in
  let h := pad2 (getHours vnTime) in
  let min := pad2 (getMinutes vnTime) in
  h ++ ":" ++ min ++ " " ++ d ++ "/" ++ m ++ "/" ++ y.

(** The array [row] of [createFeedback], columns A to O:
    A: ID, B: Deadline, C: Host, D: Shop, E: Link, F: Stage, G: Tags,
    H: Dev_note, I: Image_note, J: Note, K: Time, L: Message,
    M: MessageID, N: ImageID, O: UpdatedAt. *)
Definition feedback_row (now : instant) (feedback : Feedback.t)
  : list string :=
  let timestamp := timestamp (vnTime now) in
  [ JS.toString_N (epoch_ms now);
    JS.or_else (Feedback.deadline feedback) "";
    JS.or_else (Feedback.host feedback) "";
    JS.or_else (Feedback.shop feedback) "";
    JS.or_else (Feedback.link feedback) "";
    JS.or_else (Feedback.stage feedback) "Feedback";
    JS.or_else (Feedback.tags feedback) "";
    JS.or_else (Feedback.devNote feedback) "";
    "";
    JS.or_else (Feedback.note feedback) "";
    timestamp;
    JS.or_else (Feedback.note feedback) "";
    "";
    "";
    timestamp ].

Definition createFeedback (feedback : option Feedback.t) : M reply :=
  match feedback with
  | None => throw "No feedback data"
  | Some feedback =>
      now <- new_Date ;;
      success <- appendRow (feedback_row now feedback) ;;
      if (success : bool)
      then ret (Status true "Đã tạo feedback thành công!")
      else throw "Failed to append row"
  end.

(** [req.body.updates]: a property that is absent is [undefined]. *)
Record updates : Type := mkUpdates {
  u_deadline : option string;
  u_host : option string;
  u_shop : option string;
  u_link : option string;
  u_stage : option string;
  u_tags : option string;
  u_devNote : option string;
  u_note : option string;
  u_message : option string
}.

(** [if (u !== undefined) newRow[i] = u]. *)
Definition assign (i : nat) (u : option string) (newRow : list string)
  : list string :=
  match u with
  | Some v => <[i := v]> newRow
  | None => newRow
  end.

(** [while (newRow.length < 15) newRow.push('')]. *)
Definition pad15 (newRow : list string) : list string :=
  newRow ++ replicate (15 - length newRow) "".

Definition merged_row (now : instant) (currentRowRaw : list string)
    (u : updates) : list string :=
  let newRow := pad15 currentRowRaw in
  let newRow := assign 1 (u_deadline u) newRow in
  let newRow := assign 2 (u_host u) newRow in
  let newRow := assign 3 (u_shop u) newRow in
  let newRow := assign 4 (u_link u) newRow in
  let newRow := assign 5 (u_stage u) newRow in
  let newRow := assign 6 (u_tags u) newRow in
  let newRow := assign 7 (u_devNote u) newRow in
  let newRow := assign 9 (u_note u) newRow in
  let newRow := assign 11 (u_message u) newRow in
  <[14 := timestamp (vnTime now)]> newRow.

(** A row number is falsy when it is absent or 0; both are [0] here.
    [getRow] always returns an array, so the test [!currentRowRaw] never
    throws. *)
Definition updateFeedback `{Service} (rowNumber : nat) (u : option updates)
  : M reply :=
  if Nat.eqb rowNumber 0 then throw "Missing rowNumber"
  else
    currentRowRaw <- getRow rowNumber ;;
    match u with
    | None =>
        throw "Cannot read properties of undefined (reading 'deadline')"
    | Some u =>
        now <- new_Date ;;
        updateRow rowNumber (merged_row now currentRowRaw u) ;;;
        ret (Status true "Cập nhật thành công!")
    end.

Definition updateStage (rowNumber : nat) (newStage : string) : M reply :=
  now <- new_Date ;;
  let timestamp := timestamp (vnTime now) in
  updateCell rowNumber "F" newStage ;;;
  updateCell rowNumber "O" timestamp ;;;
  ret (Status true
         ("Đã cập nhật Stage thành " ++ JS.dquote ++ newStage
          ++ JS.dquote)).

Definition deleteFeedback (rowNumber : nat) : M reply :=
  if Nat.eqb rowNumber 0 then throw "Missing rowNumber"
  else
    deleteRow rowNumber ;;;
    ret (Status true "Đã xóa feedback!").

(** [rowNumbers] is [None] when it is absent or not an array. *)
Definition bulkUpdateStage (rowNumbers : option (list nat))
    (newStage : string) : M reply :=
  match rowNumbers with
  | None | Some [] => throw "Missing or invalid rowNumbers"
  | Some rowNumbers =>
      if negb (JS.truthy newStage) then throw "Missing newStage"
      else
        now <- new_Date ;;
        let timestamp := timestamp (vnTime now) in
        for_of rowNumbers (fun rowNumber =>
          updateCell rowNumber "F" newStage ;;;
          updateCell rowNumber "O" timestamp ;;;
          ret tt) ;;;
        ret (Status true
               ("Đã cập nhật " ++ JS.toString (length rowNumbers)
                ++ " mục thành " ++ JS.dquote ++ newStage ++ JS.dquote))
  end.

(** [[...rowNumbers].sort((a, b) => b - a)]. *)
Definition sort_descending (rowNumbers : list nat) : list nat :=
  merge_sort (flip Nat.le) rowNumbers.

Definition bulkDelete (rowNumbers : option (list nat)) : M reply :=
  match rowNumbers with
  | None | Some [] => throw "Missing or invalid rowNumbers"
  | Some rowNumbers =>
      for_of (sort_descending rowNumbers) (fun rowNumber =>
        deleteRow rowNumber ;;; ret tt) ;;;
      ret (Status true
             ("Đã xóa " ++ JS.toString (length rowNumbers) ++ " mục"))
  end.

(** *** The dashboard *)

(** An object literal [{}] used as a counter.  [numbers] holds the keys
    whose value is a number.  [texts] holds the keys whose value is a
    text: for a key [k] that the object inherits as a function,
    [stats[k] || 0] is that function, so [(stats[k] || 0) + 1] is the
    text of the function followed by "1", and every further round
    appends another "1"; [texts] holds the number of these "1"s. *)
Record counter : Type := mkCounter {
  numbers : gmap string nat;
  texts : gmap string nat
}.

(** [n + 1] at key [k], from 0 when the key is new. *)
Definition bump (k : string) (stats : gmap string nat) : gmap string nat :=
  <[k := default 0 (stats !! k) + 1]> stats.

(** [stats[k] = (stats[k] || 0) + 1]. *)
Definition count (k : string) (stats : counter) : counter :=
  if JS.inherited k then
    if String.eqb k "__proto__" then stats
    else mkCounter (numbers stats) (bump k (texts stats))
  else mkCounter (bump k (numbers stats)) (texts stats).

(** The four accumulators of [getDashboardData]. *)
Record tally : Type := mkTally {
  hostStats : counter;
  stageStats : counter;
  pendingFeedback : nat;
  doneFeedback : nat
}.

(** The body of the [forEach] callback. *)
Definition count_row (t : tally) (row : row) : tally :=
  {| hostStats :=
       if JS.truthy (host row) then count (host row) (hostStats t)
       else hostStats t;
     stageStats :=
       if JS.truthy (stage row) then count (stage row) (stageStats t)
       else stageStats t;
     pendingFeedback :=
       if String.eqb (stage row) "Feedback" then S (pendingFeedback t)
       else pendingFeedback t;
     doneFeedback :=
       if String.eqb (stage row) "Done" then S (doneFeedback t)
       else doneFeedback t |}.

(** [new Set(xs)] spread into an array: the first occurrence of each
    value, in order. *)
Definition Set_of (xs : list string) : list string :=
  fold_left (fun seen x => if decide (x ∈ seen) then seen else seen ++ [x])
    xs [].

(** [xs.sort()]: the default order, which compares the code units, and
    keeps the order of equal elements. *)
Definition sort (xs : list string) : list string :=
  merge_sort JS.le xs.

(** [[...new Set(rows.map(f).filter(Boolean))].sort()]. *)
Definition options (f : row -> string) (rows : list row) : list string :=
  sort (Set_of (filter (fun x => Is_true (JS.truthy x)) (map f rows))).

Definition dashboard_of (rows : list row) : dashboard :=
  let t :=
    fold_left count_row rows (mkTally (mkCounter ∅ ∅) (mkCounter ∅ ∅) 0 0) in
  {| pending := pendingFeedback t;
     done := doneFeedback t;
     byHost := numbers (hostStats t);
     byStage := numbers (stageStats t);
     byHostText := texts (hostStats t);
     byStageText := texts (stageStats t);
     hosts := options host rows;
     stages := options stage rows;
     feedback := rows |}.

Definition getDashboardData : M reply :=
  data <- getAllData ;;
  let rows := snd data in
  ret (DashboardData (dashboard_of rows)).

(** *** Comments *)

(** [JSON.parse] and [JSON.stringify] are the runtime's; [JSON_parse]
    is [None] where [JSON.parse] throws. *)
Class JSON : Type := {
  JSON_parse : string -> option json;
  JSON_stringify : json -> string
}.

(** [{ text, time, author }]. *)
Definition comment (text time author : string) : json :=
  JObj [("text", JStr text); ("time", JStr time); ("author", JStr author)].

Section Comments.

Context `{JSON}.

(** [currentContent.trim().startsWith('[') &&
    currentContent.trim().endsWith(']')]. *)
Definition bracketed (currentContent : string) : bool :=
  JS.startsWith "[" (JS.trim currentContent)
  && JS.endsWith "]" (JS.trim currentContent).

(** The [try] block around [JSON.parse]. *)
Definition parsed (currentContent : string) : list json :=
  match JSON_parse currentContent with
  | Some (JArr comments) => comments
  | Some _ => []
  | None => []
  end.

(** The comments held by a cell, as [addComment] and [getComments]
    read them. *)
Definition comments_of (currentContent : string) : list json :=
  if JS.truthy currentContent then
    if bracketed currentContent then parsed currentContent
    else [comment currentContent "Note cũ" "System"]
  else [].

(** The same as [deleteComment] reads them: no legacy branch. *)
Definition json_comments_of (currentContent : string) : list json :=
  if JS.truthy currentContent then
    if bracketed currentContent then parsed currentContent
    else []
  else [].

Definition addComment (rowNumber : nat) (commentText : string) : M reply :=
  if Nat.eqb rowNumber 0 then throw "Missing rowNumber"
  else if negb (JS.truthy commentText)
          || negb (JS.truthy (JS.trim commentText))
  then throw "Missing comment text"
  else
    currentRow <- getRow rowNumber ;;
    let currentContent := cell currentRow 7 in
    let comments := comments_of currentContent in
    now <- new_Date ;;
    let timestamp := comment_timestamp (vnTime now) in
    let comments :=
      comments ++ [comment (JS.trim commentText) timestamp "User"] in
    updateCell rowNumber "H" (JSON_stringify (JArr comments)) ;;;
    ret (CommentList (Some "Đã thêm comment!") comments).

Definition getComments (rowNumber : nat) : M reply :=
  if Nat.eqb rowNumber 0 then throw "Missing rowNumber"
  else
    currentRow <- getRow rowNumber ;;
    let currentContent := cell currentRow 7 in
    ret (CommentList None (comments_of currentContent)).

(** [commentIndex] is [None] when it is [undefined] or [null]. *)
Definition deleteComment (rowNumber : nat) (commentIndex : option Z)
  : M reply :=
  if Nat.eqb rowNumber 0 then throw "Missing rowNumber"
  else
    match commentIndex with
    | None => throw "Missing commentIndex"
    | Some commentIndex =>
        currentRow <- getRow rowNumber ;;
        let currentContent := cell currentRow 7 in
        let comments := json_comments_of currentContent in
        if (0 <=? commentIndex)%Z
           && (commentIndex <? Z.of_nat (length comments))%Z
        then
          let comments := delete (Z.to_nat commentIndex) comments in
          updateCell rowNumber "H" (JSON_stringify (JArr comments)) ;;;
          ret (CommentList (Some "Deleted comment!") comments)
        else ret (Status false "Invalid comment index")
    end.

End Comments.

(** *** The routes *)

(** The guide and history actions work on other tabs of the
    spreadsheet.  They are taken as an interface: each is some action
    that returns a body or throws. *)
Class Guides : Type := {
  getGuidesData : M reply;
  getHistory : M reply;
  createGuide : option json -> M reply;
  updateGuide : nat -> option json -> M reply;
  deleteGuide : nat -> M reply
}.

(** What [getFile] of the Telegram bot API answers, after
    [response.json()]; [file_path] is [None] when [data.result] is
    missing. *)
Record file_info : Type := mkFileInfo {
  ok : bool;
  description : option string;
  file_path : option string
}.

(** The requests to the Telegram bot API that return data. *)
Class Telegram : Type := {
  getFile : string -> string -> M file_info
}.

(** Fetching a file from the file server of Telegram and storing it in
    the R2 bucket.  [download url] is [fetch(url)] followed by reading
    the body: [None] when the response is not [ok], the bytes
    otherwise.  [putObject bucket key body contentType] is
    [s3Client.send(new PutObjectCommand(...))]; the account and the
    credentials of the client are those of the environment. *)
Class Storage : Type := {
  download : string -> M (option string);
  putObject : string -> string -> string -> string -> M unit
}.

(** [req.body] as the [/api/exec] handler reads it.  An absent string is
    the empty string, an absent row number is 0. *)
Module Body.
Record t : Type := mk {
  action : option string;
  feedback : option Feedback.t;
  rowNumber : nat;
  updates : option updates;
  newStage : string;
  rowNumbers : option (list nat);
  commentText : string;
  commentIndex : option Z;
  guide : option json;
  guide_updates : option json
}.
End Body.

(** [process.env]. *)
Record process_env : Type := mkEnv {
  API_KEY : option string;
  TELEGRAM_BOT_TOKEN : option string;
  TELEGRAM_IMAGE_BOT_TOKEN : option string;
  TELEGRAM_GROUP_CHAT_ID : option string;
  CLOUDFLARE_R2_BUCKET_NAME : option string;
  CLOUDFLARE_CDN_URL : option string
}.

(** [req.method]. *)
Inductive verb : Type :=
| GET
| POST
| HEAD
| OPTIONS
| OTHER (name : string).

Record request : Type := mkRequest {
  method : verb;
  path : string;
  x_api_key : option string;
  body : Body.t;
  query_action : option string;
  query_fileId : option string
}.

(** A value that may be [undefined], used as a condition. *)
Definition defined_truthy (o : option string) : bool :=
  match o with
  | Some s => JS.truthy s
  | None => false
  end.

(** [case 'name':] of a [switch] on a value that may be [undefined]. *)
Definition is_case (action : option string) (name : string) : bool :=
  match action with
  | Some a => String.eqb a name
  | None => false
  end.

(** ['...' + action]. *)
Definition shown (action : option string) : string :=
  default "undefined" action.

Section Routes.

Context `{JSON} `{Guides} `{Telegram} `{Service}.

(** The [switch] of [app.post('/api/exec')]. *)
Definition post_switch (b : Body.t) : M reply :=
  let action := Body.action b in
  if is_case action "getDashboardData" then getDashboardData
  else if is_case action "getGuidesData" then getGuidesData
  else if is_case action "createFeedback" then
    createFeedback (Body.feedback b)
  else if is_case action "updateFeedback" then
    updateFeedback (Body.rowNumber b) (Body.updates b)
  else if is_case action "updateStage" then
    updateStage (Body.rowNumber b) (Body.newStage b)
  else if is_case action "deleteFeedback" then
    deleteFeedback (Body.rowNumber b)
  else if is_case action "bulkUpdateStage" then
    bulkUpdateStage (Body.rowNumbers b) (Body.newStage b)
  else if is_case action "bulkDelete" then
    bulkDelete (Body.rowNumbers b)
  else if is_case action "addComment" then
    addComment (Body.rowNumber b) (Body.commentText b)
  else if is_case action "getComments" then
    getComments (Body.rowNumber b)
  else if is_case action "createGuide" then
    createGuide (Body.guide b)
  else if is_case action "updateGuide" then
    updateGuide (Body.rowNumber b) (Body.guide_updates b)
  else if is_case action "deleteGuide" then
    deleteGuide (Body.rowNumber b)
  else if is_case action "deleteComment" then
    deleteComment (Body.rowNumber b) (Body.commentIndex b)
  else ret (Status false ("Unknown action: " ++ shown action)).

(** The [catch] clause shared by both [/api/exec] handlers. *)
Definition api_catch (e : string) : M response :=
  console_log ("API Error: " ++ e) ;;;
  ret (json_response (Status false e)).

(** The [try] block of [app.post('/api/exec', ...)]. *)
Definition post_try (req : request) : M response :=
  result <- post_switch (body req) ;;
  ret (json_response result).

(** [app.post('/api/exec', ...)]. *)
Definition post_exec (req : request) : M response :=
  try_catch (post_try req) api_catch.

(** The [switch] of [app.get('/api/exec')]. *)
Definition get_switch (action : option string) : M reply :=
  if is_case action "getDashboardData" then getDashboardData
  else if is_case action "getGuidesData" then getGuidesData
  else if is_case action "getHistory" then getHistory
  else ret (Status false ("Unknown action or use POST: " ++ shown action)).

(** The [try] block of [app.get('/api/exec', ...)]. *)
Definition get_try (req : request) : M response :=
  result <- get_switch (query_action req) ;;
  ret (json_response result).

(** [app.get('/api/exec', ...)]. *)
Definition get_exec (req : request) : M response :=
  try_catch (get_try req) api_catch.

(** The [try] block of the image proxy. *)
Definition telegram_image_try (botToken fileId : string) : M response :=
  data <- getFile botToken fileId ;;
  if negb (ok data) then
    ret (json_response
           (Status false ("Failed to get file from Telegram: "
                          ++ JS.or_else (description data) "Unknown error")))
  else
    match file_path data with
    | None =>
        throw "Cannot read properties of undefined (reading 'file_path')"
    | Some filePath =>
        let fileUrl :=
          ("https://api.telegram.org/file/bot" ++ botToken ++ "/"
           ++ filePath)%string in
        ret (json_response
               (Data (JObj [("success", JBool true);
                            ("url", JStr fileUrl);
                            ("fileId", JStr fileId)])))
    end.

(** [app.get('/api/telegram-image', ...)], given the token to use. *)
Definition telegram_image (botToken : option string) (req : request)
  : M response :=
  if negb (defined_truthy (query_fileId req)) then
    ret (json_response (Status false "Missing fileId parameter"))
  else if negb (defined_truthy botToken) then
    ret (json_response (Status false "Telegram bot token not configured"))
  else
    try_catch
      (telegram_image_try (default "" botToken)
         (default "" (query_fileId req)))
      (fun e =>
         console_log ("Telegram API Error: " ++ e) ;;;
         ret (json_response (Status false e))).

(** The API key middleware.  [None] stands for [next()]. *)
Definition api_key_middleware (env : process_env) (req : request)
  : M (option response) :=
  let apiKey := x_api_key req in
  let validKey := API_KEY env in
  if negb (defined_truthy validKey) then
    console_log "API_KEY not set in .env! Securing is disabled." ;;;
    ret None
  else if negb (bool_decide (apiKey = validKey)) then
    ret (Some (mkResponse 403
                 (Status false "Forbidden: Invalid API Key")))
  else ret None.

(** [app.use('/api', ...)] applies to [/api] and to what lies below.
    Express compiles the mount path to [/^\/api\/?(?=\/|$)/i]. *)
Definition under_api (path : string) : bool :=
  String.eqb (JS.ignore_case path) "/api"
  || JS.startsWith "/api/" (JS.ignore_case path).

(** [app.get(route, ...)] and [app.post(route, ...)] apply to the paths
    that match the route.  Express compiles a route such as [/api/exec]
    to [/^\/api\/exec\/?$/i]: the case of the letters does not count,
    and one more "/" may follow. *)
Definition at_route (route path : string) : bool :=
  String.eqb (JS.ignore_case path) route
  || String.eqb (JS.ignore_case path) (route ++ "/").

(** The route table, in registration order.  [None] means that no
    route matched and the request is left to Express.  A route
    registered with [app.get] also serves HEAD. *)
Definition routes (env : process_env) (req : request)
  : M (option response) :=
  match method req with
  | POST =>
      if at_route "/api/exec" (path req)
      then r <- post_exec req ;; ret (Some r)
      else ret None
  | GET | HEAD =>
      if at_route "/api/exec" (path req)
      then r <- get_exec req ;; ret (Some r)
      else if at_route "/api/telegram-image" (path req)
      then r <- telegram_image (TELEGRAM_BOT_TOKEN env) req ;; ret (Some r)
      else ret None
  | OPTIONS | OTHER _ => ret None
  end.

(** What the application does with a request that [cors()] and
    [express.json()] have passed on: the middleware, then the routes. *)
Definition app (env : process_env) (req : request) : M (option response) :=
  verdict <- (if under_api (path req) then api_key_middleware env req
              else ret None) ;;
  match verdict with
  | Some refusal => ret (Some refusal)
  | None => routes env req
  end.

(** A request as it arrives.  [express.json()] reads the body of a
    request that has one: it parses a JSON text into [req.body] and
    leaves [req.body] empty for any other content; it refuses a body
    that is declared as JSON and is not a JSON object or array (status
    400), one above the limit of 10mb (status 413), one in a charset or
    an encoding it does not know (status 415).  [refused] is [None] when
    the body is accepted, and else the status and the text of the
    error. *)
Record arrival : Type := mkArrival {
  accepted : request;
  refused : option (nat * string)
}.

(** What the client gets back. *)
Inductive outcome : Type :=
| Preflight
    (* status 204 and no body, from [cors()] *)
| Refused (status : nat)
    (* the error page of Express with this status *)
| Answered (r : response)
    (* what a handler or the key check sent *)
| NotFound.
    (* no route matched: status 404 from Express *)

Definition delivered (r : option response) : outcome :=
  match r with
  | Some r => Answered r
  | None => NotFound
  end.

(** The whole stack, in registration order: [cors()] answers every
    OPTIONS request by itself; [express.json()] hands the error of a
    refused body to the error handler of Express, which writes it to
    the console and answers with its status; then come the key check and
    the routes. *)
Definition server (env : process_env) (a : arrival) : M outcome :=
  match method (accepted a) with
  | OPTIONS => ret Preflight
  | _ =>
      match refused a with
      | Some (status, e) => console_log e ;;; ret (Refused status)
      | None => r <- app env (accepted a) ;; ret (delivered r)
      end
  end.

End Routes.

End Server.

(** ** The earlier server: the sheet laid out as [sheetsClient.js] reads it *)

Module ServerV2.

Import SheetsClient.

(** The template of the timestamp is the same; the [Date] it is taken
    from is [now] itself, in the time zone of the server. *)
Definition timestamp (now : date) : string := Server.timestamp now.

(** The array [row] of [createFeedback], columns A to O:
    A: Deadline, B: Host, C: Shop, D: Link, E: Stage, F: Tags,
    G: Dev_note, H: Image_note, I: Note, J: Time, K: Message,
    L: MessageID, M: ImageID, N: ID, O: UpdatedAt. *)
Definition feedback_row (now : instant) (uuid : string)
    (feedback : Feedback.t) : list string :=
  let timestamp := timestamp (localTime now) in
  [ JS.or_else (Feedback.deadline feedback) "";
    JS.or_else (Feedback.host feedback) "";
    JS.or_else (Feedback.shop feedback) "";
    JS.or_else (Feedback.link feedback) "";
    JS.or_else (Feedback.stage feedback) "Feedback";
    JS.or_else (Feedback.tags feedback) "";
    JS.or_else (Feedback.devNote feedback) "";
    "";
    JS.or_else (Feedback.note feedback) "";
    timestamp;
    JS.or_else (Feedback.note feedback) "";
    "";
    "";
    uuid;
    timestamp ].

Definition createFeedback (feedback : option Feedback.t) : M reply :=
  match feedback with
  | None => throw "No feedback data"
  | Some feedback =>
      now <- new_Date ;;
      uuid <- randomUUID ;;
      success <- appendRow (feedback_row now uuid feedback) ;;
      if (success : bool)
      then ret (Status true "Đã tạo feedback thành công!")
      else throw "Failed to append row"
  end.

Definition getDashboardData : M reply := Server.getDashboardData.

(** [updateStage] of this variant: the stage is column E, and the
    timestamp is taken from [now] itself. *)
Definition updateStage (rowNumber : nat) (newStage : string) : M reply :=
  now <- new_Date ;;
  let timestamp := timestamp (localTime now) in
  updateCell rowNumber "E" newStage ;;;
  updateCell rowNumber "O" timestamp ;;;
  ret (Status true
         ("Đã cập nhật Stage thành " ++ JS.dquote ++ newStage
          ++ JS.dquote)).

End ServerV2.

(** ** The server with the Telegram bot: the texts of a reply

    How the webhook reads the row number off the message that is replied
    to, how it takes the word "done" off a reply, and
    [addCommentToFeedback], which stores the text of the reply. *)

Module TelegramReply.

Import SheetsClient.
Import Server.

(** [\d]. *)
Definition is_digit (c : ascii) : bool :=
  let n := nat_of_ascii c in Nat.leb 48 n && Nat.leb n 57.

(** The longest run of digits that [s] starts with. *)
Fixpoint digits_of (s : string) : string :=
  match s with
  | String c s' => if is_digit c then String c (digits_of s') else EmptyString
  | EmptyString => EmptyString
  end.

(** [originalText.match(/#(\d+)/)]: group 1 of the leftmost match. *)
Fixpoint match_row_id (originalText : string) : option string :=
  match originalText with
  | EmptyString => None
  | String c s' =>
      if Ascii.eqb c "#" then
        match digits_of s' with
        | EmptyString => match_row_id s'
        | digits => Some digits
        end
      else match_row_id s'
  end.

(** [parseInt] on a run of digits. *)
Definition parseInt (digits : string) : nat :=
  match NilEmpty.uint_of_string digits with
  | Some d => Nat.of_uint d
  | None => 0
  end.

(** [parseInt(match[1])] when [match] is not [null]. *)
Definition replied_row (originalText : string) : option nat :=
  parseInt <$> match_row_id originalText.

(** [lowerText === 'done' || lowerText.startsWith('done ') ||
    lowerText.startsWith('done-') || lowerText.startsWith('done:')]. *)
Definition says_done (replyText : string) : bool :=
  let lowerText := JS.toLowerCase replyText in
  String.eqb lowerText "done"
  || JS.startsWith "done " lowerText
  || JS.startsWith "done-" lowerText
  || JS.startsWith "done:" lowerText.

(** A match of [[\s\-:]*] at the start of a text, taken off. *)
Fixpoint skip_separators (s : string) : string :=
  match s with
  | EmptyString => EmptyString
  | String a s1 =>
      if JS.space1 a || Ascii.eqb a "-" || Ascii.eqb a ":"
      then skip_separators s1
      else
        match s1 with
        | EmptyString => s
        | String b s2 =>
            if JS.space2 a b then skip_separators s2
            else
              match s2 with
              | EmptyString => s
              | String c s3 =>
                  if JS.space3 a b c then skip_separators s3 else s
              end
        end
  end.

(** [replyText.replace(/^done[\s\-:]*/i, '')]. *)
Definition without_done (replyText : string) : string :=
  if String.eqb (JS.ignore_case (String.substring 0 4 replyText)) "done"
  then skip_separators (JS.substring_from 4 replyText)
  else replyText.

(** [filePath.split('.').pop()]: what follows the last "." of the path,
    the whole path when it has none. *)
Fixpoint has_dot (s : string) : bool :=
  match s with
  | EmptyString => false
  | String c s' => Ascii.eqb c "." || has_dot s'
  end.

Fixpoint after_last_dot (s : string) : string :=
  match s with
  | EmptyString => EmptyString
  | String c s' =>
      if has_dot s' then after_last_dot s'
      else if Ascii.eqb c "." then s'
      else s
  end.

Section Reply.

Context `{JSON}.

(** [addCommentToFeedback]: the text is stored as it is, under the
    author "Telegram". *)
Definition addCommentToFeedback (rowNumber : nat) (commentText : string)
  : M unit :=
  currentRow <- getRow rowNumber ;;
  let currentContent := cell currentRow 7 in
  let comments := comments_of currentContent in
  now <- new_Date ;;
  let timestamp := comment_timestamp (vnTime now) in
  let comments := comments ++ [comment commentText timestamp "Telegram"] in
  updateCell rowNumber "H" (JSON_stringify (JArr comments)) ;;;
  ret tt.

End Reply.

End TelegramReply.

(** ** The server with the Telegram bot *)

Module TelegramServer.

Import SheetsClient.
Import Server.

(** [TELEGRAM_ID_TO_HOST]. *)
Definition TELEGRAM_ID_TO_HOST : list (string * string) :=
  [ ("814408956", "Quốc");
    ("852487488", "Taiz");
    ("642649821", "Lâm");
    ("801593125", "Nghĩa") ].

(** [hostMap] of the [//] command. *)
Definition hostMap : list (string * string) :=
  [ ("quoc", "Quốc"); ("quốc", "Quốc");
    ("taiz", "Taiz"); ("tai", "Taiz"); ("tài", "Taiz");
    ("lam", "Lâm"); ("lâm", "Lâm");
    ("nghia", "Nghĩa"); ("nghĩa", "Nghĩa");
    ("tuan", "Tuan"); ("tuấn", "Tuan") ].

(** [table[key]] on an object literal. *)
Fixpoint property (key : string) (table : list (string * string))
  : option string :=
  match table with
  | [] => None
  | (k, v) :: table' =>
      if String.eqb key k then Some v else property key table'
  end.

(** [message.chat] and [message.from] of an incoming message. *)
Record chat : Type := mkChat {
  chat_id : string;
  chat_type : string;
  chat_title : option string
}.

Record user : Type := mkUser {
  user_id : string;
  username : option string;
  first_name : option string
}.

(** [message.reply_to_message], [message.document] and an element of
    [message.photo]. *)
Record replied : Type := mkReplied {
  replied_text : option string
}.

Record document : Type := mkDocument {
  mime_type : option string;
  document_file_id : option string
}.

Record photo_size : Type := mkPhotoSize {
  photo_file_id : option string
}.

(** [update.message]. *)
Record message : Type := mkMessage {
  msg_chat : option chat;
  msg_from : option user;
  msg_text : option string;
  msg_reply_to_message : option replied;
  msg_caption : option string;
  msg_document : option document;
  msg_photo : option (list photo_size)
}.

(** The value of [table[key]] for a table of host names: the host of an
    own key, or the member that every object inherits under that
    name. *)
Inductive host_value : Type :=
| HostName (host : string)
| Member (name : string).

(** The value in a template literal. *)
Definition host_text (h : host_value) : string :=
  match h with
  | HostName host => host
  | Member name => JS.member_text name
  end.

(** [r.host === h]: a host is a string and so never equal to a
    member. *)
Definition is_host (h : host_value) (host : string) : bool :=
  match h with
  | HostName name => String.eqb host name
  | Member _ => false
  end.

(** [req.body] as the webhook reads it. *)
Record update : Type := mkUpdate {
  update_message : option message
}.

(** What [setWebhook] answers after [response.json()]. *)
Record bot_reply : Type := mkBotReply {
  reply_ok : bool;
  reply_description : option string;
  reply_json : json
}.

(** The other requests to the bot API that return data. *)
Class BotAdmin : Type := {
  setWebhook : string -> string -> M bot_reply;
  getWebhookInfo : string -> M json
}.

Section Bot.

Context `{JSON} `{Telegram} `{Storage}.

Variable env : process_env.

(** [sendTelegramMessage]: it never throws. *)
Definition sendTelegramMessage (chatId text : string) : M unit :=
  if negb (defined_truthy (TELEGRAM_BOT_TOKEN env)) then
    console_log "TELEGRAM_BOT_TOKEN not configured"
  else
    try_catch
      (remote_call ;;; deliver chatId text)
      (fun e => console_log ("Failed to send Telegram message: " ++ e)).

(** [notifyHostFeedbackCount]: it never throws either. *)
Definition notifyHostFeedbackCount (host : string) : M unit :=
  if negb (defined_truthy (TELEGRAM_GROUP_CHAT_ID env)) then
    console_log "TELEGRAM_GROUP_CHAT_ID not configured"
  else
    try_catch
      (data <- getAllData ;;
       let rows := snd data in
       let feedbackCount :=
         length (filter (fun r => Is_true
                   (String.eqb (SheetsClient.host r) host
                    && String.eqb (stage r) "Feedback")) rows) in
       if Nat.ltb 0 feedbackCount then
         sendTelegramMessage (default "" (TELEGRAM_GROUP_CHAT_ID env))
           ("📬 " ++ host ++ " có " ++ JS.toString feedbackCount
            ++ " feedback")
       else ret tt)
      (fun e => console_log ("Failed to notify group: " ++ e)).

(** [updateStage] of this variant reads the row first and notifies
    the host when the stage becomes "Feedback". *)
Definition updateStage (rowNumber : nat) (newStage : string) : M reply :=
  currentRow <- getRow rowNumber ;;
  let host := default "" (currentRow !! 2) in
  now <- new_Date ;;
  let timestamp := timestamp (vnTime now) in
  updateCell rowNumber "F" newStage ;;;
  updateCell rowNumber "O" timestamp ;;;
  (if String.eqb newStage "Feedback" && JS.truthy host then
     console_log ("[Notification] Stage changed to Feedback for host: "
                  ++ host) ;;;
     notifyHostFeedbackCount host
   else ret tt) ;;;
  ret (Status true
         ("Đã cập nhật Stage thành " ++ JS.dquote ++ newStage
          ++ JS.dquote)).

(** One feedback as the [//] command lists it. *)
Definition feedback_message (fb : row) : string :=
  let shop := JS.or_else (Some (SheetsClient.shop fb)) "N/A" in
  let note :=
    JS.or_else (Some (JS.or_else (Some (SheetsClient.note fb))
                        (SheetsClient.message fb))) "" in
  let fileStatus :=
    if JS.truthy (link fb)
    then ("[File Feedback](" ++ link fb ++ ")")%string
    else "KHÔNG có file" in
  let shopLink := ("[" ++ shop ++ "](https://" ++ shop ++ ")")%string in
  let msg :=
    ("• ID: #" ++ JS.toString (rowNumber fb) ++ JS.nl
     ++ "• Shop: " ++ shopLink ++ JS.nl
     ++ "• File: " ++ fileStatus)%string in
  if JS.truthy note then (msg ++ JS.nl ++ "• Note: " ++ note)%string
  else msg.

(** [table[key]], where the own values of [table] are not empty. *)
Definition lookup_host (key : string) (table : list (string * string))
  : option host_value :=
  match property key table with
  | Some host => Some (HostName host)
  | None => if JS.inherited key then Some (Member key) else None
  end.

(** The [//] and [// <Host>] command. *)
Definition list_feedbacks (chatId userId text : string) : M response :=
  match lookup_host userId TELEGRAM_ID_TO_HOST with
  | None =>
      sendTelegramMessage chatId
        ("⚠️ Chưa được đăng ký trong hệ thống" ++ JS.nl ++ JS.nl
         ++ "🆔 User ID của bạn: `" ++ userId ++ "`" ++ JS.nl ++ JS.nl
         ++ "Gửi ID này cho admin để được thêm vào.") ;;;
      ret (json_response Ack)
  | Some currentUserHost =>
      let targetHost :=
        if JS.startsWith "// " text then
          let requestedHost := JS.trim (JS.substring_from 3 text) in
          default (HostName requestedHost)
            (lookup_host (JS.toLowerCase requestedHost) hostMap)
        else currentUserHost in
      data <- getAllData ;;
      let rows := snd data in
      let userFeedbacks :=
        filter (fun r => Is_true
                  (is_host targetHost (SheetsClient.host r)
                   && String.eqb (stage r) "Feedback")) rows in
      if Nat.eqb (length userFeedbacks) 0 then
        sendTelegramMessage chatId
          ("✅ Không có feedback nào cho " ++ host_text targetHost) ;;;
        ret (json_response Ack)
      else
        for_of userFeedbacks (fun fb =>
          sendTelegramMessage chatId (feedback_message fb)) ;;;
        ret (json_response Ack)
  end.

(** [uploadTelegramPhotoToR2]: it never throws; what it returns is the
    URL of the copy or a text that starts with "Error: ".  [fileId] is
    [None] when the property is missing. *)
Definition uploadTelegramPhotoToR2 (fileId : option string) : M string :=
  if negb (defined_truthy (TELEGRAM_BOT_TOKEN env)) then
    ret "Error: Bot token not configured"
  else
    let botToken := default "" (TELEGRAM_BOT_TOKEN env) in
    try_catch
      (fileData <- getFile botToken (shown fileId) ;;
       if negb (ok fileData) || negb (defined_truthy (file_path fileData))
       then ret "Error: Could not get file from Telegram"
       else
         let filePath := default "" (file_path fileData) in
         let fileUrl :=
           ("https://api.telegram.org/file/bot" ++ botToken ++ "/"
            ++ filePath)%string in
         downloaded <- download fileUrl ;;
         match downloaded with
         | None => ret "Error: Could not download file"
         | Some buffer =>
             let ext :=
               JS.or_else (Some (TelegramReply.after_last_dot filePath))
                 "jpg" in
             now <- new_Date ;;
             uuid <- randomUUID ;;
             let filename :=
               ("telegram/" ++ JS.toString_N (epoch_ms now) ++ "-" ++ uuid
                ++ "." ++ ext)%string in
             match CLOUDFLARE_R2_BUCKET_NAME env with
             | None =>
                 throw "Cannot read properties of undefined (reading 'trim')"
             | Some bucket =>
                 putObject (JS.trim bucket) filename buffer
                   ("image/" ++ ext) ;;;
                 ret (shown (CLOUDFLARE_CDN_URL env) ++ "/" ++ filename)%string
             end
         end)
      (fun e =>
         console_log ("Failed to upload to R2: " ++ e) ;;;
         ret ("Error: " ++ e)%string).

(** The picture of a reply, if it has one: a document whose type is an
    image, else the last and largest of its photos.  The result is the
    [file_id] to upload. *)
Definition picture (message : message) : option (option string) :=
  match msg_document message with
  | Some doc =>
      if defined_truthy (mime_type doc)
         && JS.startsWith "image/" (default "" (mime_type doc))
      then Some (document_file_id doc)
      else
        match msg_photo message with
        | Some photos => photo_file_id <$> last photos
        | None => None
        end
  | None =>
      match msg_photo message with
      | Some photos => photo_file_id <$> last photos
      | None => None
      end
  end.

(** The [try] block of the branch for a reply to the message of the
    feedback in row [rowNumber]. *)
Definition reply_try (chatId userId firstName text : string)
    (message : message) (rowNumber : nat) : M unit :=
  let replyText :=
    if JS.truthy text then text else JS.or_else (msg_caption message) "" in
  if TelegramReply.says_done replyText then
    now <- new_Date ;;
    let timestamp := timestamp (vnTime now) in
    updateCell rowNumber "F" "Done" ;;;
    updateCell rowNumber "O" timestamp ;;;
    let extraText := JS.trim (TelegramReply.without_done replyText) in
    commentText <-
      match picture message with
      | Some fileId =>
          photoUrl <- uploadTelegramPhotoToR2 fileId ;;
          ret ("[Telegram] " ++ firstName ++ ": "
               ++ JS.or_else (Some extraText) "Done" ++ JS.nl ++ photoUrl)%string
      | None =>
          if JS.truthy extraText
          then ret ("[Telegram] " ++ firstName ++ ": " ++ extraText)%string
          else ret ""
      end ;;
    (if JS.truthy commentText
     then TelegramReply.addCommentToFeedback rowNumber commentText
     else ret tt) ;;;
    sendTelegramMessage chatId
      ("✅ #" ++ JS.toString rowNumber ++ " → Done!") ;;;
    data <- getAllData ;;
    let rows := snd data in
    let remainingFeedbacks :=
      filter (fun r => Is_true
                (match property userId TELEGRAM_ID_TO_HOST with
                 | Some host => String.eqb (SheetsClient.host r) host
                 | None => false
                 end
                 && String.eqb (stage r) "Feedback")) rows in
    if Nat.ltb 0 (length remainingFeedbacks) then
      sendTelegramMessage chatId
        ("📋 Còn " ++ JS.toString (length remainingFeedbacks)
         ++ " feedback:") ;;;
      for_of remainingFeedbacks (fun fb =>
        sendTelegramMessage chatId (feedback_message fb))
    else
      sendTelegramMessage chatId "🎉 Không còn feedback nào!"
  else
    let commentText :=
      ("[Telegram] " ++ firstName ++ ": " ++ replyText)%string in
    commentText <-
      match picture message with
      | Some fileId =>
          photoUrl <- uploadTelegramPhotoToR2 fileId ;;
          ret (commentText ++ JS.nl ++ photoUrl)%string
      | None => ret commentText
      end ;;
    TelegramReply.addCommentToFeedback rowNumber commentText.

(** The branch for a reply: an error of its [try] block is sent to the
    chat and not written to the console. *)
Definition reply_branch (chatId userId firstName text : string)
    (message : message) (rowNumber : nat) : M response :=
  try_catch (reply_try chatId userId firstName text message rowNumber)
    (fun e => sendTelegramMessage chatId ("❌ Lỗi: " ++ e)) ;;;
  ret (json_response Ack).

(** The row that a message replies to: [message.reply_to_message] is
    there and its text holds [#] and digits. *)
Definition replied_to (message : message) : option nat :=
  match msg_reply_to_message message with
  | Some original =>
      TelegramReply.replied_row (JS.or_else (replied_text original) "")
  | None => None
  end.

(** The [try] block of the webhook. *)
Definition webhook_try (u : update) : M response :=
  match update_message u with
  | None => ret (json_response Ack)
  | Some message =>
      match msg_chat message, msg_from message with
      | None, _ | _, None =>
          throw "Cannot read properties of undefined (reading 'id')"
      | Some chat, Some from =>
          let chatId := chat_id chat in
          let userId := user_id from in
          let text := JS.trim (JS.or_else (msg_text message) "") in
          let username := JS.or_else (username from) "" in
          let firstName := JS.or_else (first_name from) "User" in
          if String.eqb text "/myid" then
            sendTelegramMessage chatId
              ("🆔 *Thông tin của bạn:*" ++ JS.nl ++ JS.nl
               ++ "• User ID: `" ++ userId ++ "`" ++ JS.nl
               ++ "• Chat ID: `" ++ chatId ++ "`" ++ JS.nl
               ++ "• Username: @" ++ username) ;;;
            ret (json_response Ack)
          else if String.eqb text "/groupid" then
            let chatType := chat_type chat in
            let chatTitle := JS.or_else (chat_title chat) "N/A" in
            sendTelegramMessage chatId
              ("🆔 *Thông tin chat:*" ++ JS.nl ++ JS.nl
               ++ "• Chat ID: `" ++ chatId ++ "`" ++ JS.nl
               ++ "• Type: " ++ chatType ++ JS.nl
               ++ "• Title: " ++ chatTitle ++ JS.nl ++ JS.nl
               ++ (if negb (String.eqb chatType "private")
                   then "✅ Đây là Group ID, copy vào .env!"
                   else "⚠️ Đây là chat riêng, không phải group")) ;;;
            ret (json_response Ack)
          else if String.eqb text "//" || JS.startsWith "// " text then
            list_feedbacks chatId userId text
          else
            match replied_to message with
            | Some rowNumber =>
                reply_branch chatId userId firstName text message rowNumber
            | None =>
                if String.eqb text "/start" then
                  sendTelegramMessage chatId
                    ("👋 Xin chào " ++ firstName ++ "!" ++ JS.nl ++ JS.nl
                     ++ "🔹 Gõ // để xem feedback của bạn" ++ JS.nl
                     ++ "🔹 Gõ /help để xem hướng dẫn") ;;;
                  ret (json_response Ack)
                else if String.eqb text "/help" then
                  sendTelegramMessage chatId
                    ("📚 *Hướng dẫn sử dụng Bot*" ++ JS.nl ++ JS.nl
                     ++ "`//` - Xem danh sách feedback của bạn" ++ JS.nl
                     ++ "`/start` - Bắt đầu" ++ JS.nl
                     ++ "`/help` - Xem hướng dẫn") ;;;
                  ret (json_response Ack)
                else ret (json_response Ack)
            end
      end
  end.

(** [app.post('/api/telegram-webhook', ...)]: the [catch] clause
    always answers ok to Telegram. *)
Definition telegram_webhook (u : update) : M response :=
  try_catch (webhook_try u)
    (fun e =>
       console_log ("Telegram webhook error: " ++ e) ;;;
       ret (json_response Ack)).

End Bot.

(** A request as this variant reads it: the webhook takes [req.body]
    as an update, the setup route reads [req.query.url]. *)
Record request : Type := mkRequest {
  base : Server.request;
  update_of : update;
  query_url : option string
}.

(** [req.path] inside [app.use('/api', ...)]: the path below the mount
    point.  Express takes off what the mount path matched, which is
    [/api] and the "/" after it when that one is followed by another "/"
    or by nothing, and puts a "/" in front of what is left when it is
    empty. *)
Definition mounted_path (path : string) : string :=
  let rest := JS.substring_from 4 path in
  let rest :=
    if JS.startsWith "//" rest || String.eqb rest "/"
    then JS.substring_from 1 rest
    else rest in
  if String.eqb rest "" then "/" else rest.

Section Routes.

Context `{JSON} `{Guides} `{Telegram} `{Storage} `{BotAdmin} `{Service}.

Variable env : process_env.

(** The API key middleware of this variant. *)
Definition api_key_middleware (req : Server.request)
  : M (option response) :=
  if JS.startsWith "/telegram-" (mounted_path (path req)) then ret None
  else
    let apiKey := x_api_key req in
    let validKey := API_KEY env in
    if negb (defined_truthy validKey) then
      console_log "API_KEY not set in .env! Securing is disabled." ;;;
      ret None
    else if negb (bool_decide (apiKey = validKey)) then
      ret (Some (mkResponse 403
                   (Status false "Forbidden: Invalid API Key")))
    else ret None.

(** The [try] block of the setup route. *)
Definition telegram_setup_try (botToken webhookUrl : string) : M response :=
  result <- setWebhook botToken webhookUrl ;;
  if reply_ok result then
    ret (json_response
           (Data (JObj [("success", JBool true);
                        ("message",
                         JStr ("Webhook đã được thiết lập: " ++ webhookUrl));
                        ("result", reply_json result)])))
  else
    ret (json_response
           (Data (JObj [("success", JBool false);
                        ("message",
                         JStr (JS.or_else (reply_description result)
                                 "Failed to set webhook"));
                        ("result", reply_json result)]))).

(** [app.get('/api/telegram-setup', ...)]. *)
Definition telegram_setup (req : request) : M response :=
  if negb (defined_truthy (TELEGRAM_BOT_TOKEN env)) then
    ret (json_response (Status false "TELEGRAM_BOT_TOKEN not configured"))
  else
    let webhookUrl :=
      JS.or_else (query_url req)
        "https://api-feedback.f1genz.dev/api/telegram-webhook" in
    try_catch
      (telegram_setup_try (default "" (TELEGRAM_BOT_TOKEN env)) webhookUrl)
      (fun e => ret (json_response (Status false e))).

(** The [try] block of the info route; [getWebhookInfo] gives
    [result.result]. *)
Definition telegram_info_try (botToken : string) : M response :=
  info <- getWebhookInfo botToken ;;
  ret (json_response
         (Data (JObj [("success", JBool true); ("webhookInfo", info)]))).

(** [app.get('/api/telegram-info', ...)]. *)
Definition telegram_info (req : request) : M response :=
  if negb (defined_truthy (TELEGRAM_BOT_TOKEN env)) then
    ret (json_response (Status false "TELEGRAM_BOT_TOKEN not configured"))
  else
    try_catch
      (telegram_info_try (default "" (TELEGRAM_BOT_TOKEN env)))
      (fun e => ret (json_response (Status false e))).

(** The [switch] of [/api/exec]: the same cases, with the
    [updateStage] of this variant. *)
Definition post_switch (b : Body.t) : M reply :=
  if is_case (Body.action b) "updateStage" then
    updateStage env (Body.rowNumber b) (Body.newStage b)
  else Server.post_switch b.

Definition post_try (req : Server.request) : M response :=
  result <- post_switch (body req) ;;
  ret (json_response result).

Definition post_exec (req : Server.request) : M response :=
  try_catch (post_try req) api_catch.

(** The routes registered after the middleware, in order. *)
Definition routes (req : request) : M (option response) :=
  let r := base req in
  match method r with
  | GET | HEAD =>
      if at_route "/api/telegram-setup" (path r)
      then a <- telegram_setup req ;; ret (Some a)
      else if at_route "/api/telegram-info" (path r)
      then a <- telegram_info req ;; ret (Some a)
      else if at_route "/api/exec" (path r)
      then a <- get_exec r ;; ret (Some a)
      else if at_route "/api/telegram-image" (path r)
      then
        a <- telegram_image
               (if defined_truthy (TELEGRAM_IMAGE_BOT_TOKEN env)
                then TELEGRAM_IMAGE_BOT_TOKEN env
                else TELEGRAM_BOT_TOKEN env) r ;;
        ret (Some a)
      else ret None
  | POST =>
      if at_route "/api/exec" (path r)
      then a <- post_exec r ;; ret (Some a)
      else ret None
  | OPTIONS | OTHER _ => ret None
  end.

(** The middleware, then the routes registered after it. *)
Definition guarded (req : request) : M (option response) :=
  verdict <- (if under_api (path (base req))
              then api_key_middleware (base req)
              else ret None) ;;
  match verdict with
  | Some refusal => ret (Some refusal)
  | None => routes req
  end.

(** What the application does with a request that [cors()] and
    [express.json()] have passed on: the webhook is registered first,
    then the middleware, then the other routes. *)
Definition app (req : request) : M (option response) :=
  match method (base req) with
  | POST =>
      if at_route "/api/telegram-webhook" (path (base req))
      then a <- telegram_webhook env (update_of req) ;; ret (Some a)
      else guarded req
  | _ => guarded req
  end.

End Routes.

End TelegramServer.

(** ** A runtime for the examples: JSON texts

    A printer and a reader for JSON texts made of strings, integers,
    literals, arrays and objects, which is what the comment cell holds.
    The theorems below hold for any [JSON] instance; this one lets the
    examples run. *)

Module JsonText.

Import Server.

Definition quote_char (c : ascii) : string :=
  let n := nat_of_ascii c in
  if Nat.eqb n 34 then String "\"%char JS.dquote
  else if Nat.eqb n 92 then "\\"
  else if Nat.eqb n 10 then "\n"
  else if Nat.eqb n 13 then "\r"
  else if Nat.eqb n 9 then "\t"
  else String c EmptyString.

Fixpoint quote_body (s : string) : string :=
  match s with
  | String c s' => quote_char c ++ quote_body s'
  | EmptyString => EmptyString
  end.

Definition quote (s : string) : string :=
  JS.dquote ++ quote_body s ++ JS.dquote.

Fixpoint join (parts : list string) : string :=
  match parts with
  | [] => ""
  | [p] => p
  | p :: parts' => p ++ "," ++ join parts'
  end.

Fixpoint stringify (j : json) : string :=
  match j with
  | JNull => "null"
  | JBool true => "true"
  | JBool false => "false"
  | JNum n => NilZero.string_of_int (Z.to_int n)
  | JStr s => quote s
  | JArr items => "[" ++ join (map stringify items) ++ "]"
  | JObj fields =>
      "{" ++ join (map (fun kv =>
                          (quote (fst kv) ++ ":" ++ stringify (snd kv))%string)
                     fields) ++ "}"
  end.

Definition is_ws (c : ascii) : bool :=
  let n := nat_of_ascii c in
  Nat.eqb n 32 || Nat.eqb n 9 || Nat.eqb n 10 || Nat.eqb n 13.

Fixpoint skip_ws (s : string) : string :=
  match s with
  | String c s' => if is_ws c then skip_ws s' else s
  | EmptyString => EmptyString
  end.

Definition unescape (c : ascii) : option ascii :=
  let n := nat_of_ascii c in
  if Nat.eqb n 34 || Nat.eqb n 92 || Nat.eqb n 47 then Some c
  else if Nat.eqb n 110 then Some (ascii_of_nat 10)
  else if Nat.eqb n 114 then Some (ascii_of_nat 13)
  else if Nat.eqb n 116 then Some (ascii_of_nat 9)
  else None.

(** The characters of a string literal after its opening quote. *)
Fixpoint read_string (s acc : string) : option (string * string) :=
  match s with
  | EmptyString => None
  | String c s' =>
      if Nat.eqb (nat_of_ascii c) 34 then Some (String.rev acc, s')
      else if Nat.eqb (nat_of_ascii c) 92 then
        match s' with
        | String e s'' =>
            match unescape e with
            | Some d => read_string s'' (String d acc)
            | None => None
            end
        | EmptyString => None
        end
      else read_string s' (String c acc)
  end.

Definition is_digit (c : ascii) : bool :=
  Nat.leb 48 (nat_of_ascii c) && Nat.leb (nat_of_ascii c) 57.

Fixpoint read_digits (s : string) (acc : Z) : Z * string :=
  match s with
  | String c s' =>
      if is_digit c
      then read_digits s' (10 * acc + Z.of_nat (nat_of_ascii c - 48))%Z
      else (acc, s)
  | EmptyString => (acc, s)
  end.

Fixpoint read_value (fuel : nat) (s : string) : option (json * string) :=
  match fuel with
  | O => None
  | S fuel =>
      let s := skip_ws s in
      if String.prefix "null" s then Some (JNull, JS.substring_from 4 s)
      else if String.prefix "true" s
      then Some (JBool true, JS.substring_from 4 s)
      else if String.prefix "false" s
      then Some (JBool false, JS.substring_from 5 s)
      else
        match s with
        | EmptyString => None
        | String c s' =>
            let n := nat_of_ascii c in
            if Nat.eqb n 34 then
              match read_string s' "" with
              | Some (text, rest) => Some (JStr text, rest)
              | None => None
              end
            else if Nat.eqb n 91 then
              match skip_ws s' with
              | String c' rest =>
                  if Nat.eqb (nat_of_ascii c') 93 then Some (JArr [], rest)
                  else
                    match read_items fuel s' with
                    | Some (items, rest) => Some (JArr items, rest)
                    | None => None
                    end
              | EmptyString => None
              end
            else if Nat.eqb n 123 then
              match skip_ws s' with
              | String c' rest =>
                  if Nat.eqb (nat_of_ascii c') 125 then Some (JObj [], rest)
                  else
                    match read_members fuel s' with
                    | Some (fields, rest) => Some (JObj fields, rest)
                    | None => None
                    end
              | EmptyString => None
              end
            else if Nat.eqb n 45 then
              match s' with
              | String d _ =>
                  if is_digit d
                  then let (z, rest) := read_digits s' 0 in
                       Some (JNum (- z), rest)
                  else None
              | EmptyString => None
              end
            else if is_digit c then
              let (z, rest) := read_digits s 0 in Some (JNum z, rest)
            else None
        end
  end

with read_items (fuel : nat) (s : string) : option (list json * string) :=
  match fuel with
  | O => None
  | S fuel =>
      match read_value fuel s with
      | Some (item, rest) =>
          match skip_ws rest with
          | String c rest' =>
              if Nat.eqb (nat_of_ascii c) 93 then Some ([item], rest')
              else if Nat.eqb (nat_of_ascii c) 44 then
                match read_items fuel rest' with
                | Some (items, rest'') => Some (item :: items, rest'')
                | None => None
                end
              else None
          | EmptyString => None
          end
      | None => None
      end
  end

with read_members (fuel : nat) (s : string)
  : option (list (string * json) * string) :=
  match fuel with
  | O => None
  | S fuel =>
      match skip_ws s with
      | String q s' =>
          if Nat.eqb (nat_of_ascii q) 34 then
            match read_string s' "" with
            | Some (key, rest) =>
                match skip_ws rest with
                | String colon rest' =>
                    if Nat.eqb (nat_of_ascii colon) 58 then
                      match read_value fuel rest' with
                      | Some (v, rest'') =>
                          match skip_ws rest'' with
                          | String c rest3 =>
                              if Nat.eqb (nat_of_ascii c) 125
                              then Some ([(key, v)], rest3)
                              else if Nat.eqb (nat_of_ascii c) 44 then
                                match read_members fuel rest3 with
                                | Some (fields, rest4) =>
                                    Some ((key, v) :: fields, rest4)
                                | None => None
                                end
                              else None
                          | EmptyString => None
                          end
                      | None => None
                      end
                    else None
                | EmptyString => None
                end
            | None => None
            end
          else None
      | EmptyString => None
      end
  end.

Definition parse (s : string) : option json :=
  match read_value (2 * String.length s + 2) s with
  | Some (j, rest) =>
      match skip_ws rest with
      | EmptyString => Some j
      | _ => None
      end
  | None => None
  end.

#[export] Instance runtime : JSON :=
  {| JSON_parse := parse; JSON_stringify := stringify |}.

End JsonText.

(** ** Sample data for the examples *)

Module Samples.

Import Server TelegramServer.

Definition now : instant :=
  mkInstant 1768000000000%N (mkDate 2026 0 9 15 5 0) (mkDate 2026 0 9 22 5 0).

Definition header_rows : list (list string) :=
  [ ["FEEDBACK"];
    ["Deadline"; "Host"; "Shop"; "Link"; "Stage"; "Tags"; "Dev_note";
     "Image_note"; "Note"; "Time"; "Message"; "MessageID"; "ImageID"; "ID"] ].

(** A sheet laid out as [getAllData] reads it; row 4 is empty and row 6
    has neither host nor shop. *)
Definition board : list (list string) :=
  header_rows ++
  [ ["20/01/2026"; "Quốc"; "shop-a.example.vn"; ""; "Feedback"; "gap"];
    [];
    ["21/01/2026"; "Taiz"; "shop-b.example.vn"; ""; "Done"];
    [""; ""; ""; ""; "Feedback"];
    ["22/01/2026"; "Quốc"; ""; ""; "Feedback"] ].

(** A sheet, laid out as [getAllData] reads it, on which two feedbacks
    are hosted by a user called "constructor" and one by a user called
    "__proto__". *)
Definition namesakes : list (list string) :=
  header_rows ++
  [ ["20/01/2026"; "constructor"; "shop-a.example.vn"; ""; "Feedback"];
    ["21/01/2026"; "Quốc"; "shop-b.example.vn"; ""; "Done"];
    ["22/01/2026"; "constructor"; "shop-c.example.vn"; ""; "Feedback"];
    ["23/01/2026"; "__proto__"; "shop-d.example.vn"; ""; "Feedback"] ].

(** A sheet laid out as [server.js] writes it; cell H of row 3 holds two
    comments, cell H of row 4 holds a note typed by hand. *)
Definition notebook : list (list string) :=
  header_rows ++
  [ ["1767990000000"; "20/01/2026"; "Quốc"; "shop-a.example.vn"; "";
     "Feedback"; "gap";
     JsonText.stringify
       (JArr [comment "Đã báo khách" "09:15 08/01/2026" "User";
              comment "Khách đồng ý" "16:40 08/01/2026" "User"])];
    ["1767990000001"; "21/01/2026"; "Taiz"; "shop-b.example.vn"; "";
     "Feedback"; ""; "gọi lại sau"] ].

(** A world in which the remote services answer. *)
Definition world_of (data : list (list string)) : world :=
  mkWorld data [] [] [] now ["3f2b8c1e-0d4a-4c57-9a53-6f1e2d7b9c10"].

(** A world with a schedule of outcomes for the remote calls. *)
Definition world_with (data : list (list string))
    (outcomes : list (option string)) : world :=
  mkWorld data outcomes [] [] now [].

(** A world in which the spreadsheet service is down. *)
Definition outage (data : list (list string)) : world :=
  world_with data [Some "The service is currently unavailable."].

Definition empty_feedback : Feedback.t :=
  Feedback.mk None None None None None None None None.

Definition sample_feedback : Feedback.t :=
  Feedback.mk (Some "20/01/2026") (Some "Quốc") (Some "shop.example.vn")
    (Some "https://files.example.vn/fb.pdf") None (Some "gap") None
    (Some "Sửa banner").

(** The updates of one edit in the dashboard: a new stage and a note. *)
Definition sample_updates : updates :=
  mkUpdates None None None None (Some "Done") None None (Some "Đã sửa") None.

(** The guide tabs as [sheetsClient.js] serves them: the guide list is
    empty and the other methods are not there. *)
#[export] Instance guides : Guides :=
  {| getGuidesData :=
       remote_call ;;;
       ret (Data (JObj [("success", JBool true); ("guides", JArr []);
                        ("groupedGuides", JObj [])]));
     getHistory := throw "sheetsClient.getHistoryData is not a function";
     createGuide := fun _ =>
       throw "sheetsClient.appendGuideRow is not a function";
     updateGuide := fun _ _ =>
       throw "sheetsClient.updateGuideRow is not a function";
     deleteGuide := fun _ =>
       throw "sheetsClient.deleteGuideRow is not a function" |}.

#[export] Instance telegram : Telegram :=
  {| getFile := fun _ fileId =>
       remote_call ;;;
       ret (mkFileInfo true None
              (Some ("photos/" ++ fileId ++ ".jpg")%string)) |}.

#[export] Instance bot_admin : BotAdmin :=
  {| setWebhook := fun _ _ =>
       remote_call ;;;
       ret (mkBotReply true (Some "Webhook was set") (JBool true));
     getWebhookInfo := fun _ =>
       remote_call ;;; ret (JObj [("url", JStr "")]) |}.

(** The spreadsheet service as it answers an update wider than its
    range, and a service that would write every value it is sent. *)
#[export] Instance service : SheetsClient.Service :=
  {| SheetsClient.too_wide := fun rowNumber =>
       Some ("Requested writing within range [Feedback!A"
             ++ JS.toString rowNumber ++ ":N" ++ JS.toString rowNumber
             ++ "], but tried writing to column [O]")%string |}.

Definition lenient_service : SheetsClient.Service :=
  {| SheetsClient.too_wide := fun _ => None |}.

(** An environment with the shared secret, and one without. *)
Definition env : process_env :=
  mkEnv (Some "s3cret") (Some "123:abc") None None (Some "feedback ")
    (Some "https://cdn.example.vn").

Definition open_env : process_env :=
  mkEnv None (Some "123:abc") None None None None.

Definition body_of (action : string) : Body.t :=
  Body.mk (Some action) None 0 None "" None "" None None None.

(** A request that carries no API key. *)
Definition request_of (method : verb) (path action : string)
  : Server.request :=
  Server.mkRequest method path None (body_of action) (Some action) None.

(** A POST to the route of the actions, in another case of the letters
    and with a "/" at the end, without an API key. *)
Definition post_without_key : arrival :=
  mkArrival (request_of POST "/API/Exec/" "createFeedback") None.

(** A message of a registered user, in a private chat with the bot. *)
Definition message_of (text : option string) (original : option replied)
    (photo : option (list photo_size)) : message :=
  mkMessage (Some (mkChat "814408956" "private" None))
    (Some (mkUser "814408956" (Some "quoc") (Some "Quốc")))
    text original None None photo.

(** [//] sent by a registered user. *)
Definition list_command : update :=
  mkUpdate (Some (message_of (Some "//") None None)).

(** The message that the bot sent for the feedback in row 3 of
    [notebook_as_read], and two replies to it: one that closes the
    feedback with a remark, one that sends a photo. *)
Definition listed_message : replied :=
  mkReplied (Some ("• ID: #3" ++ JS.nl ++ "• Shop: [shop-a.example.vn]"
                   ++ "(https://shop-a.example.vn)" ++ JS.nl
                   ++ "• File: KHÔNG có file")%string).

Definition done_reply : update :=
  mkUpdate (Some (message_of (Some "Done: đã sửa banner")
                    (Some listed_message) None)).

Definition photo_reply : update :=
  mkUpdate (Some (message_of None (Some listed_message)
                    (Some [mkPhotoSize (Some "AgAD-small");
                           mkPhotoSize (Some "AgAD-large")]))).

(** Telegram's file server and the bucket, as they answer. *)
#[export] Instance storage : Storage :=
  {| download := fun _ => remote_call ;;; ret (Some "JFIF");
     putObject := fun _ _ _ _ => remote_call |}.

Definition telegram_request (method : verb) (path : string)
  : TelegramServer.request :=
  TelegramServer.mkRequest (request_of method path "") list_command None.

End Samples.

(** ** Vocabulary of the statements *)

Module Spec.

Import SheetsClient Server.

(** The fields of a returned row are the cells A to N of a sheet row, in
    this order; a cell that is absent or empty reads as the empty
    string. *)
Definition cells_of (raw : list string) (r : row) : Prop :=
  deadline r = default "" (raw !! 0) /\
  host r = default "" (raw !! 1) /\
  shop r = default "" (raw !! 2) /\
  link r = default "" (raw !! 3) /\
  stage r = default "" (raw !! 4) /\
  tags r = default "" (raw !! 5) /\
  devNote r = default "" (raw !! 6) /\
  imageNote r = default "" (raw !! 7) /\
  note r = default "" (raw !! 8) /\
  time r = default "" (raw !! 9) /\
  message r = default "" (raw !! 10) /\
  messageId r = default "" (raw !! 11) /\
  imageId r = default "" (raw !! 12) /\
  id r = default "" (raw !! 13).

(** How many rows carry the value [v] in the column [f]. *)
Definition occurrences (f : row -> string) (v : string) (rows : list row)
  : nat :=
  length (filter (fun r => f r = v) rows).

(** One counter after the loop: [f] is the field that is counted. *)
Definition counted (f : row -> string) (rows : list row) (stats : counter)
  : counter :=
  fold_left (fun c r => if JS.truthy (f r) then count (f r) c else c)
    rows stats.

(** A counter object never holds a zero. *)
Definition positive_counts (stats : gmap string nat) : Prop :=
  forall k n, stats !! k = Some n -> 0 < n.

(** The decimal digit of a number below ten. *)
Definition digit (n : nat) : ascii := ascii_of_nat (48 + n).

Definition two_digits (n : nat) : string :=
  String (digit (n / 10)) (String (digit (n mod 10)) EmptyString).

Definition four_digits (n : nat) : string :=
  String (digit (n / 1000)) (String (digit (n / 100 mod 10))
    (String (digit (n / 10 mod 10)) (String (digit (n mod 10)) EmptyString))).

(** The getters of a [Date] stay in these ranges; the year is taken to
    have four digits. *)
Definition wall_clock (t : date) : Prop :=
  getHours t < 24 /\ getMinutes t < 60 /\ getSeconds t < 60 /\
  1 <= getDate t <= 31 /\ getMonth t < 12 /\
  1000 <= getFullYear t /\ getFullYear t / 1000 < 10.

(** The format [HH:mm:ss dd/MM/yyyy], digit by digit. *)
Definition HH_mm_ss_dd_MM_yyyy (t : date) : string :=
  two_digits (getHours t) ++ ":" ++ two_digits (getMinutes t) ++ ":"
  ++ two_digits (getSeconds t) ++ " " ++ two_digits (getDate t) ++ "/"
  ++ two_digits (getMonth t + 1) ++ "/" ++ four_digits (getFullYear t).

(** The cell in row [r] (1-based) and column [c] (0-based), if it exists. *)
Definition cell_at (data : list (list string)) (r c : nat) : option string :=
  data !! (r - 1) ≫= (fun cells => cells !! c).

(** What reading that cell gives: absent cells read as empty. *)
Definition value_at (data : list (list string)) (r c : nat) : string :=
  default "" (cell_at data r c).

(** The world after the sheet was replaced. *)
Definition with_sheet (s : list (list string)) (w : world) : world :=
  mkWorld s (faults w) (console w) (outbox w) (clock w) (uuids w).

(** The world after one remote call took its scheduled outcome. *)
Definition after_call (w : world) : world :=
  mkWorld (sheet w) (tail (faults w)) (console w) (outbox w) (clock w)
    (uuids w).

(** The world after a line was written to the console. *)
Definition with_line (line : string) (w : world) : world :=
  mkWorld (sheet w) (faults w) (console w ++ [line]) (outbox w) (clock w)
    (uuids w).

(** The next remote call succeeds. *)
Definition next_succeeds (w : world) : Prop :=
  match faults w with
  | Some _ :: _ => False
  | _ => True
  end.

(** The next remote call fails with [e]. *)
Definition next_fails (e : string) (w : world) : Prop :=
  exists rest, faults w = Some e :: rest.

(** None of the next [n] remote calls fails. *)
Definition calm (n : nat) (w : world) : Prop :=
  Forall (fun o => o = None) (take n (faults w)).

(** The world after [n] remote calls took their outcomes. *)
Fixpoint after_calls (n : nat) (w : world) : world :=
  match n with
  | O => w
  | S n' => after_calls n' (after_call w)
  end.

(** The two writes of one round of the loop of [bulkUpdateStage], and of
    [updateStage]. *)
Definition stage_write (newStage timestamp : string) (data : list (list string))
    (rowNumber : nat) : list (list string) :=
  alter_row (set_nth 14 timestamp) rowNumber
    (alter_row (set_nth 5 newStage) rowNumber data).

(** A comment: an object with the fields [text], [time] and [author], in
    this order. *)
Definition comment_of (text time author : string) : json :=
  JObj [("text", JStr text); ("time", JStr time); ("author", JStr author)].

(** The comment list of a cell in the words of the specification of
    [addComment]: a bracketed content is parsed, with the empty list for
    a failed parse or a result that is not an array; any other non-empty
    content is one legacy comment. *)
Definition stored_comments `{JSON} (content : string) : list json :=
  let trimmed := JS.trim content in
  if JS.startsWith "[" trimmed && JS.endsWith "]" trimmed then
    match JSON_parse content with
    | Some (JArr items) => items
    | _ => []
    end
  else if String.eqb content "" then []
  else [comment_of content "Note cũ" "System"].

(** The parsed comment list of [deleteComment], in the same words: there
    is no legacy comment here. *)
Definition parsed_comments `{JSON} (content : string) : list json :=
  let trimmed := JS.trim content in
  if JS.startsWith "[" trimmed && JS.endsWith "]" trimmed then
    match JSON_parse content with
    | Some (JArr items) => items
    | _ => []
    end
  else [].

(** The values of a feedback object as [createFeedback] writes them, read
    back in a row of the dashboard. *)
Definition submitted (f : Feedback.t) (r : row) : Prop :=
  deadline r = JS.or_else (Feedback.deadline f) "" /\
  host r = JS.or_else (Feedback.host f) "" /\
  shop r = JS.or_else (Feedback.shop f) "" /\
  link r = JS.or_else (Feedback.link f) "" /\
  stage r = JS.or_else (Feedback.stage f) "Feedback" /\
  tags r = JS.or_else (Feedback.tags f) "" /\
  note r = JS.or_else (Feedback.note f) "".

(** Creating [f] and then reading the dashboard returns such a row. *)
Definition round_trip (create : option Feedback.t -> M reply)
    (f : Feedback.t) (w : world) : Prop :=
  exists created w1 d w2,
    create (Some f) w = (Returned created, w1) /\
    getDashboardData w1 = (Returned (DashboardData d), w2) /\
    exists r, r ∈ feedback d /\ submitted f r.




(** An action that always returns and leaves the sheet as it was. *)
Definition harmless {A} (m : M A) : Prop :=
  forall w, exists a w', m w = (Returned a, w') /\ sheet w' = sheet w.

(** An action that leaves the sheet as it was, whether it returns or
    throws. *)
Definition reads_only {A} (m : M A) : Prop :=
  forall w r w', m w = (r, w') -> sheet w' = sheet w.

(** A handler that leaves the sheet as it was and, when it returns,
    answers [{ ok: true }]. *)
Definition acknowledges (m : M response) : Prop :=
  forall w r w',
    m w = (r, w') ->
    sheet w' = sheet w /\ forall a, r = Returned a -> a = json_response Ack.

(** An update whose message, if it has one, is not a reply to another
    message. *)
Definition plain (u : TelegramServer.update) : Prop :=
  forall message,
    TelegramServer.update_message u = Some message ->
    TelegramServer.msg_reply_to_message message = None.

(** A handler that answers [{ ok: true }] when it returns, and that
    leaves the sheet as it was in the case [P]. *)
Definition acknowledges_and_reads_if (P : Prop) (m : M response) : Prop :=
  forall w r w',
    m w = (r, w') ->
    (P -> sheet w' = sheet w) /\
    forall a, r = Returned a -> a = json_response Ack.

(** The world after messages were handed to the bot API. *)
Definition with_messages (messages : list telegram_message) (w : world)
  : world :=
  mkWorld (sheet w) (faults w) (console w) (outbox w ++ messages) (clock w)
    (uuids w).

(** [JSON.stringify] prints the list as a bracketed text that
    [JSON.parse] reads back as the same list. *)
Definition reads_back `{JSON} (comments : list json) : Prop :=
  JSON_parse (JSON_stringify (JArr comments)) = Some (JArr comments) /\
  bracketed (JSON_stringify (JArr comments)) = true.

(** The format [HH:mm dd/MM/yyyy] of the time of a comment, digit by
    digit. *)
Definition HH_mm_dd_MM_yyyy (t : date) : string :=
  two_digits (getHours t) ++ ":" ++ two_digits (getMinutes t) ++ " "
  ++ two_digits (getDate t) ++ "/" ++ two_digits (getMonth t + 1) ++ "/"
  ++ four_digits (getFullYear t).

(** The property of [updates] that [updateFeedback] copies to column [c]
    (0-based), if there is one. *)
Definition named_update (u : updates) (c : nat) : option string :=
  match c with
  | 1 => u_deadline u
  | 2 => u_host u
  | 3 => u_shop u
  | 4 => u_link u
  | 5 => u_stage u
  | 6 => u_tags u
  | 7 => u_devNote u
  | 9 => u_note u
  | 11 => u_message u
  | _ => None
  end.

(** The rows of [data], the first of which is row [n] of the sheet, whose
    row numbers are not among [rowNumbers]. *)
Fixpoint rows_kept (n : nat) (rowNumbers : list nat)
    (data : list (list string)) : list (list string) :=
  match data with
  | [] => []
  | cells :: data' =>
      if decide (n ∈ rowNumbers) then rows_kept (S n) rowNumbers data'
      else cells :: rows_kept (S n) rowNumbers data'
  end.

(** A row of the dashboard with another stage. *)
Definition with_stage (newStage : string) (r : row) : row :=
  {| rowNumber := rowNumber r;
     deadline := deadline r;
     host := host r;
     shop := shop r;
     link := link r;
     stage := newStage;
     tags := tags r;
     devNote := devNote r;
     imageNote := imageNote r;
     note := note r;
     time := time r;
     message := message r;
     messageId := messageId r;
     imageId := imageId r;
     id := id r |}.

(** The rows of the dashboard after row [n] of the sheet got another
    stage. *)
Definition restaged (n : nat) (newStage : string) (rows : list row)
  : list row :=
  map (fun r => if Nat.eqb (rowNumber r) n then with_stage newStage r else r)
    rows.

(** A row of the dashboard under another row number. *)
Definition with_rowNumber (n : nat) (r : row) : row :=
  {| rowNumber := n;
     deadline := deadline r;
     host := host r;
     shop := shop r;
     link := link r;
     stage := stage r;
     tags := tags r;
     devNote := devNote r;
     imageNote := imageNote r;
     note := note r;
     time := time r;
     message := message r;
     messageId := messageId r;
     imageId := imageId r;
     id := id r |}.

(** The rows of the dashboard after row [n] of the sheet was deleted:
    the row is gone, and the rows below it have moved up by one. *)
Definition moved_up (n : nat) (rows : list row) : list row :=
  map (fun r => if Nat.ltb n (rowNumber r)
                then with_rowNumber (rowNumber r - 1) r else r)
    (filter (fun r => rowNumber r <> n) rows).

(** The rows that the [//] command lists for [host]. *)
Definition open_feedbacks (host : string) (data : list (list string))
  : list row :=
  filter (fun r => Is_true (String.eqb (SheetsClient.host r) host
                            && String.eqb (stage r) "Feedback"))
    (snd (all_data data)).

(** The requests to [/api/exec] that a helper function refuses before it
    calls the spreadsheet, with the message of the error. *)
Inductive rejected (b : Body.t) : string -> Prop :=
| rejected_feedback :
    Body.action b = Some "createFeedback" ->
    Body.feedback b = None ->
    rejected b "No feedback data"
| rejected_rowNumber action :
    Body.action b = Some action ->
    action ∈ ["updateFeedback"; "deleteFeedback"; "addComment";
              "getComments"; "deleteComment"] ->
    Body.rowNumber b = 0 ->
    rejected b "Missing rowNumber"
| rejected_rowNumbers action :
    Body.action b = Some action ->
    action ∈ ["bulkUpdateStage"; "bulkDelete"] ->
    Body.rowNumbers b = None \/ Body.rowNumbers b = Some [] ->
    rejected b "Missing or invalid rowNumbers"
| rejected_newStage rowNumber rowNumbers :
    Body.action b = Some "bulkUpdateStage" ->
    Body.rowNumbers b = Some (rowNumber :: rowNumbers) ->
    Body.newStage b = "" ->
    rejected b "Missing newStage"
| rejected_commentText :
    Body.action b = Some "addComment" ->
    Body.rowNumber b <> 0 ->
    JS.trim (Body.commentText b) = "" ->
    rejected b "Missing comment text"
| rejected_commentIndex :
    Body.action b = Some "deleteComment" ->
    Body.rowNumber b <> 0 ->
    Body.commentIndex b = None ->
    rejected b "Missing commentIndex".

End Spec.

Export Spec.

(** ** Proofs *)

Import SheetsClient Server.

(** *** Running the effects *)

Lemma bind_returned {A B} (m : M A) (k : A -> M B) w a w' :
  m w = (Returned a, w') -> (x <- m ;; k x) w = k a w'.
Proof. intros Hm. unfold bind. by rewrite Hm. Qed.

Lemma bind_thrown {A B} (m : M A) (k : A -> M B) w e w' :
  m w = (Thrown e, w') -> (x <- m ;; k x) w = (Thrown e, w').
Proof. intros Hm. unfold bind. by rewrite Hm. Qed.


Lemma for_of_app {A} (xs ys : list A) (body : A -> M unit) w :
  for_of (xs ++ ys) body w
  = (for_of xs body ;;; for_of ys body) w.
Proof.
  revert w. induction xs as [|x xs IH]; intros w; simpl; [done|].
  unfold bind in *. destruct (body x w) as [[[]|e] w1]; [|done].
  apply IH.
Qed.

Lemma remote_call_ok w :
  next_succeeds w -> remote_call w = (Returned tt, after_call w).
Proof.
  unfold next_succeeds, remote_call, after_call.
  destruct w as [s f c o k u]; simpl. destruct f as [|[e|] f]; simpl; try done.
Qed.

Lemma remote_call_fails e w :
  next_fails e w -> remote_call w = (Thrown e, after_call w).
Proof.
  intros [rest Hf]. unfold remote_call, after_call. by rewrite Hf.
Qed.

Lemma after_call_quiet w : faults w = [] -> after_call w = w.
Proof. destruct w as [s f c o k u]; simpl. by intros ->. Qed.

Lemma quiet_next w : faults w = [] -> next_succeeds w.
Proof. unfold next_succeeds. by intros ->. Qed.

Lemma remote_call_quiet w : faults w = [] -> remote_call w = (Returned tt, w).
Proof. intros Hf. unfold remote_call. by rewrite Hf. Qed.

Lemma calm_quiet n w : faults w = [] -> calm n w.
Proof. intros Hf. unfold calm. rewrite Hf. by rewrite take_nil. Qed.

Lemma calm_S n w : calm (S n) w -> next_succeeds w /\ calm n (after_call w).
Proof.
  unfold calm, next_succeeds, after_call. destruct w as [s f c o k u]; simpl.
  destruct f as [|x f]; simpl.
  - intros _. split; [done|]. by rewrite take_nil.
  - intros Hall. apply Forall_cons in Hall as [-> Hall]. done.
Qed.

Lemma after_calls_quiet n w : faults w = [] -> after_calls n w = w.
Proof.
  revert w. induction n as [|n IH]; intros w Hf; simpl; [done|].
  assert (after_call w = w) as ->.
  { destruct w as [s f c o k u]; simpl in *; subst. done. }
  by apply IH.
Qed.

Lemma after_calls_with_sheet n s s' w :
  with_sheet s (after_calls n (with_sheet s' w))
  = with_sheet s (after_calls n w).
Proof.
  revert w. induction n as [|n IH]; intros w; simpl; [done|].
  apply (IH (after_call w)).
Qed.

Lemma sheet_after_calls n w : sheet (after_calls n w) = sheet w.
Proof.
  revert w. induction n as [|n IH]; intros w; simpl; [done|].
  apply (IH (after_call w)).
Qed.

Lemma faults_after_calls n w : faults (after_calls n w) = drop n (faults w).
Proof.
  revert w. induction n as [|n IH]; intros w; simpl.
  - by rewrite drop_0.
  - rewrite (IH (after_call w)). simpl. destruct (faults w); simpl; [|done].
    by rewrite drop_nil.
Qed.

Lemma randomUUID_run w :
  exists u w', randomUUID w = (Returned u, w') /\
    sheet w' = sheet w /\ faults w' = faults w /\ clock w' = clock w.
Proof.
  unfold randomUUID. destruct (uuids w); simpl; eauto 10.
Qed.

(** *** JavaScript values *)

Lemma truthy_iff s : JS.truthy s = true <-> s <> "".
Proof.
  unfold JS.truthy. destruct (String.eqb_spec s ""); simpl; split; congruence.
Qed.

Lemma or_else_empty o : JS.or_else o "" = default "" o.
Proof.
  destruct o as [s|]; simpl; [|done].
  unfold JS.truthy. by destruct (String.eqb_spec s "").
Qed.

(** A cell that was written is read back as it is. *)
Lemma or_else_Some s : JS.or_else (Some s) "" = s.
Proof. apply or_else_empty. Qed.

Lemma trim_nonempty s : JS.trim s <> "" -> s <> "".
Proof. intros Ht ->. by apply Ht. Qed.

(** *** Cells of the sheet *)

Lemma alter_row_length f r data :
  length (alter_row f r data) = max r (length data).
Proof.
  unfold alter_row. rewrite length_alter, length_app, length_replicate. lia.
Qed.

Lemma alter_row_same f r data :
  1 <= r ->
  alter_row f r data !! (r - 1) = Some (f (default [] (data !! (r - 1)))).
Proof.
  intros Hr. unfold alter_row.
  rewrite list_lookup_alter_eq.
  destruct (decide (r - 1 < length data)) as [Hlt|Hge].
  - rewrite lookup_app_l by done.
    destruct (lookup_lt_is_Some_2 data (r - 1) Hlt) as [x ->]. done.
  - rewrite lookup_app_r by lia. rewrite lookup_replicate_2 by lia.
    rewrite lookup_ge_None_2 by lia. done.
Qed.

Lemma alter_row_other f r r' data :
  r' - 1 <> r - 1 ->
  default [] (alter_row f r data !! (r' - 1)) = default [] (data !! (r' - 1)).
Proof.
  intros Hne. unfold alter_row.
  rewrite list_lookup_alter_ne by done.
  destruct (decide (r' - 1 < length data)) as [Hlt|Hge].
  - by rewrite lookup_app_l.
  - rewrite lookup_app_r by lia. rewrite (lookup_ge_None_2 data) by lia.
    destruct (replicate _ _ !! _) eqn:E; [|done].
    by apply lookup_replicate in E as [-> _].
Qed.

Lemma alter_row_other_Some f r r' data cells :
  r' - 1 <> r - 1 ->
  data !! (r' - 1) = Some cells -> alter_row f r data !! (r' - 1) = Some cells.
Proof.
  intros Hne Hc. unfold alter_row.
  rewrite list_lookup_alter_ne by done.
  apply lookup_app_l_Some. done.
Qed.

Lemma set_nth_same c v cells : set_nth c v cells !! c = Some v.
Proof.
  unfold set_nth. apply list_lookup_insert_eq.
  rewrite length_app, length_replicate. lia.
Qed.

Lemma set_nth_other c c' v cells :
  c <> c' -> default "" (set_nth c v cells !! c') = default "" (cells !! c').
Proof.
  intros Hne. unfold set_nth. rewrite list_lookup_insert_ne by done.
  destruct (decide (c' < length cells)) as [Hlt|Hge].
  - by rewrite lookup_app_l.
  - rewrite lookup_app_r by lia. rewrite (lookup_ge_None_2 cells) by lia.
    destruct (replicate _ _ !! _) eqn:E; [|done].
    by apply lookup_replicate in E as [-> _].
Qed.

Lemma set_nth_other_Some c c' v cells x :
  c <> c' -> cells !! c' = Some x -> set_nth c v cells !! c' = Some x.
Proof.
  intros Hne Hx. unfold set_nth. rewrite list_lookup_insert_ne by done.
  by apply lookup_app_l_Some.
Qed.

(** Writing one cell: the cell holds the value afterwards. *)
Lemma write_cell_same r c v data :
  1 <= r -> cell_at (alter_row (set_nth c v) r data) r c = Some v.
Proof.
  intros Hr. unfold cell_at. rewrite alter_row_same by done. simpl.
  apply set_nth_same.
Qed.

(** Writing one cell: every other cell reads as before. *)
Lemma write_cell_other r c r' c' v data :
  1 <= r -> 1 <= r' -> (r', c') <> (r, c) ->
  value_at (alter_row (set_nth c v) r data) r' c' = value_at data r' c'.
Proof.
  intros Hr Hr' Hne. unfold value_at, cell_at.
  destruct (decide (r' = r)) as [->|Hrr].
  - rewrite alter_row_same by done. simpl.
    assert (c <> c') by congruence.
    rewrite set_nth_other by done.
    by destruct (data !! (r - 1)).
  - assert (r' - 1 <> r - 1) by lia.
    pose proof (alter_row_other (set_nth c v) r r' data H) as Ho.
    destruct (alter_row _ _ _ !! _) as [x|], (data !! (r' - 1)) as [y|];
      simpl in *; subst; done.
Qed.

(** Writing one cell: a cell that held a value keeps it, unless it is the
    one written. *)
Lemma write_cell_keeps r c r' c' v x data :
  1 <= r -> 1 <= r' -> (r', c') <> (r, c) ->
  cell_at data r' c' = Some x ->
  cell_at (alter_row (set_nth c v) r data) r' c' = Some x.
Proof.
  intros Hr Hr' Hne. unfold cell_at.
  destruct (data !! (r' - 1)) as [cells|] eqn:Hcells; simpl; [|done].
  intros Hx. destruct (decide (r' = r)) as [->|Hrr].
  - rewrite alter_row_same by done. rewrite Hcells. simpl.
    apply set_nth_other_Some; [congruence|done].
  - erewrite alter_row_other_Some; [|lia|done]. done.
Qed.

Lemma column_F : column "F" = 5. Proof. reflexivity. Qed.

Lemma column_H : column "H" = 7. Proof. reflexivity. Qed.

Lemma column_O : column "O" = 14. Proof. reflexivity. Qed.

(** *** The methods of the client when the service answers *)

Lemma getAllData_run w :
  faults w = [] -> getAllData w = (Returned (all_data (sheet w)), w).
Proof.
  intros Hf. unfold getAllData, logged, try_catch, bind.
  rewrite (remote_call_quiet w Hf). reflexivity.
Qed.

Lemma named_row_from_1 r e : 1 <= r -> named_row r e = ret tt.
Proof.
  intros Hr. unfold named_row. by destruct (Nat.eqb_spec r 0); [lia|].
Qed.

Lemma getRow_quiet r w :
  1 <= r -> faults w = [] ->
  getRow r w = (Returned (take 14 (default [] (sheet w !! (r - 1)))), w).
Proof.
  intros Hr Hf. unfold getRow, logged, try_catch, bind.
  by rewrite remote_call_quiet, named_row_from_1.
Qed.

Lemma appendRow_quiet rowArray w :
  faults w = [] ->
  appendRow rowArray w = (Returned true, with_sheet (sheet w ++ [rowArray]) w).
Proof.
  intros Hf. unfold appendRow, logged, try_catch, bind.
  by rewrite remote_call_quiet.
Qed.

Lemma updateRow_quiet `{Service} r rowArray w :
  1 <= r -> faults w = [] ->
  refusal r rowArray = None ->
  updateRow r rowArray w
  = (Returned true, with_sheet (alter_row (overwrite rowArray) r (sheet w)) w).
Proof.
  intros Hrow Hf Hr. unfold updateRow, logged, try_catch, bind.
  by rewrite remote_call_quiet, named_row_from_1, Hr.
Qed.

Lemma updateRow_refused `{Service} r rowArray e w :
  1 <= r -> faults w = [] ->
  refusal r rowArray = Some e ->
  updateRow r rowArray w
  = (Thrown e, with_line ("SheetsClient: updateRow Error: " ++ e) w).
Proof.
  intros Hrow Hf Hr. unfold updateRow, logged, try_catch, bind.
  by rewrite remote_call_quiet, named_row_from_1, Hr.
Qed.

Lemma updateCell_ok r col v w :
  1 <= r -> next_succeeds w ->
  updateCell r col v w
  = (Returned true,
     with_sheet (alter_row (set_nth (column col) v) r (sheet w))
       (after_call w)).
Proof.
  intros Hr Hok. unfold updateCell, logged, try_catch, bind.
  by rewrite remote_call_ok, named_row_from_1.
Qed.

Lemma updateCell_fails e r col v w :
  next_fails e w ->
  updateCell r col v w
  = (Thrown e,
     with_line ("SheetsClient: updateCell Error: " ++ e) (after_call w)).
Proof.
  intros Hf. unfold updateCell, logged, try_catch, bind.
  by rewrite (remote_call_fails e).
Qed.

Lemma updateCell_quiet r col v w :
  1 <= r -> faults w = [] ->
  updateCell r col v w
  = (Returned true,
     with_sheet (alter_row (set_nth (column col) v) r (sheet w)) w).
Proof.
  intros Hr Hf. rewrite updateCell_ok; [|done|by apply quiet_next].
  by rewrite after_call_quiet.
Qed.

(** [currentRow[7] || ''] is what cell H of the row reads as. *)
Lemma cell_H_of_getRow data rowNumber :
  cell (take 14 (default [] (data !! (rowNumber - 1)))) 7
  = value_at data rowNumber 7.
Proof.
  unfold cell, value_at, cell_at. rewrite or_else_empty.
  rewrite lookup_take_lt by lia. by destruct (data !! (rowNumber - 1)).
Qed.

(** *** Reading the sheet *)

Lemma kept_iff r : Is_true (kept r) <-> shop r <> "" \/ host r <> "".
Proof.
  unfold kept. rewrite orb_True, !Is_true_true, !truthy_iff. reflexivity.
Qed.

(** Rows numbered by an increasing function stay in increasing order of
    row number after the filter. *)
Lemma imap_to_row_sorted (f : nat -> nat) (raws : list (list string)) :
  (forall i j, i < j -> f i < f j) ->
  StronglySorted (fun a b => rowNumber a < rowNumber b)
    (filter (fun r => Is_true (kept r)) (imap (fun i => to_row (f i)) raws)).
Proof.
  revert f. induction raws as [|raw raws IH]; intros f Hf; simpl.
  - constructor.
  - assert (Htail : StronglySorted (fun a b => rowNumber a < rowNumber b)
      (filter (fun r => Is_true (kept r))
         (imap (fun i => to_row (f (S i))) raws))).
    { apply (IH (fun i => f (S i))). intros i j Hij. apply Hf. lia. }
    rewrite filter_cons. destruct (decide _); [|exact Htail].
    constructor; [exact Htail|].
    apply Forall_forall. intros r Hr.
    apply list_elem_of_filter in Hr as [_ Hr].
    apply elem_of_lookup_imap in Hr as (k & y & -> & _).
    simpl. assert (f 0 < f (S k)) by (apply Hf; lia). lia.
Qed.

(** A row is what [to_row] builds exactly when its fields are these
    cells. *)
Lemma to_row_cells index raw r :
  r = to_row index raw <-> rowNumber r = index + 3 /\ cells_of raw r.
Proof.
  unfold cells_of, to_row, cell. rewrite !or_else_empty. split.
  - intros ->. simpl. by repeat split.
  - destruct r. simpl.
    intros (-> & -> & -> & -> & -> & -> & -> & -> & -> & -> & -> & -> & ->
            & -> & ->).
    reflexivity.
Qed.

(** C6. [getAllData] treats the first two rows of the sheet as headers.
    With fewer than three rows it returns no headers and no rows.
    Otherwise the headers are row 1, and the rows returned are, in the
    order of the sheet, the data rows that have a shop or a host: a row
    at position [index] among the data rows (from 0) has [rowNumber]
    [index + 3], which is its row number in the sheet (from 1), its
    fields are the cells A to N of that sheet row (an absent cell reads
    as the empty string), and the rows with neither shop nor host are
    left out. *)
Theorem getAllData_rows (w : world) (Hquiet : faults w = []) :
  exists headers rows,
    getAllData w = (Returned (headers, rows), w) /\
    (length (sheet w) < 3 -> headers = [] /\ rows = []) /\
    (3 <= length (sheet w) ->
       sheet w !! 0 = Some headers /\
       StronglySorted (fun a b => rowNumber a < rowNumber b) rows /\
       forall r, r ∈ rows <->
         exists index raw,
           drop 2 (sheet w) !! index = Some raw /\
           rowNumber r = index + 3 /\
           sheet w !! (rowNumber r - 1) = Some raw /\
           cells_of raw r /\
           (default "" (raw !! 2) <> "" \/ default "" (raw !! 1) <> "")).
Proof.
  exists (fst (all_data (sheet w))), (snd (all_data (sheet w))).
  rewrite <- surjective_pairing. split; [by apply getAllData_run|].
  unfold all_data. split.
  - intros Hlt. apply Nat.ltb_lt in Hlt. by rewrite Hlt.
  - intros Hge. apply Nat.ltb_ge in Hge as Hnlt. rewrite Hnlt. simpl.
    split; [|split].
    + destruct (sheet w); simpl in *; [lia|done].
    + apply (imap_to_row_sorted (fun i => i)). auto.
    + intros r. rewrite list_elem_of_filter, elem_of_lookup_imap, kept_iff.
      split.
      * intros (Hk & i & raw & Hr & Hraw). exists i, raw.
        apply to_row_cells in Hr as [Hn Hcells].
        pose proof Hcells as (_ & Hhost & Hshop & _).
        rewrite <- Hshop, <- Hhost.
        split; [done|]. split; [done|]. split; [|by split].
        rewrite Hn. rewrite lookup_drop in Hraw.
        by replace (i + 3 - 1) with (2 + i) by lia.
      * intros (i & raw & Hraw & Hn & _ & Hcells & Hk).
        pose proof Hcells as (_ & Hhost & Hshop & _).
        rewrite <- Hshop, <- Hhost in Hk. split; [done|].
        exists i, raw. split; [|done]. apply to_row_cells. done.
Qed.

(** *** The dashboard *)

Lemma occurrences_cons f v r rows :
  occurrences f v (r :: rows)
  = (if decide (f r = v) then 1 else 0) + occurrences f v rows.
Proof.
  unfold occurrences. rewrite filter_cons. by destruct (decide (f r = v)).
Qed.

Lemma bump_lookup k stats h :
  default 0 (bump k stats !! h)
  = default 0 (stats !! h) + (if decide (k = h) then 1 else 0).
Proof.
  unfold bump. destruct (decide (k = h)) as [->|Hne].
  - by rewrite lookup_insert_eq.
  - rewrite lookup_insert_ne by done. lia.
Qed.

Lemma bump_positive k stats :
  positive_counts stats -> positive_counts (bump k stats).
Proof.
  intros Hpos h n. unfold bump. destruct (decide (k = h)) as [->|Hne].
  - rewrite lookup_insert_eq. intros [= <-]. lia.
  - rewrite lookup_insert_ne by done. apply Hpos.
Qed.

(** What [count] does to the two maps of a counter. *)
Lemma count_numbers k stats h :
  default 0 (numbers (count k stats) !! h)
  = default 0 (numbers stats !! h)
    + (if decide (k = h) then if JS.inherited k then 0 else 1 else 0).
Proof.
  unfold count. destruct (JS.inherited k); simpl.
  - destruct (String.eqb k "__proto__"), (decide (k = h)); simpl; lia.
  - rewrite bump_lookup. by destruct (decide (k = h)).
Qed.

Lemma count_texts k stats h :
  default 0 (texts (count k stats) !! h)
  = default 0 (texts stats !! h)
    + (if decide (k = h)
       then if JS.inherited k && negb (String.eqb k "__proto__") then 1 else 0
       else 0).
Proof.
  unfold count. destruct (JS.inherited k); simpl.
  - destruct (String.eqb k "__proto__"); simpl.
    + destruct (decide (k = h)); lia.
    + rewrite bump_lookup. by destruct (decide (k = h)).
  - destruct (decide (k = h)); lia.
Qed.

Lemma count_positive k stats :
  positive_counts (numbers stats) -> positive_counts (texts stats) ->
  positive_counts (numbers (count k stats)) /\
  positive_counts (texts (count k stats)).
Proof.
  intros Hn Ht. unfold count.
  destruct (JS.inherited k); [destruct (String.eqb k "__proto__")|]; simpl;
    split; try done; by apply bump_positive.
Qed.

Lemma counted_spec f rows stats :
  (positive_counts (numbers stats) -> positive_counts (texts stats) ->
   positive_counts (numbers (counted f rows stats)) /\
   positive_counts (texts (counted f rows stats))) /\
  (forall k,
     default 0 (numbers (counted f rows stats) !! k)
     = default 0 (numbers stats !! k)
       + (if JS.truthy k && negb (JS.inherited k) then occurrences f k rows
          else 0)) /\
  (forall k,
     default 0 (texts (counted f rows stats) !! k)
     = default 0 (texts stats !! k)
       + (if JS.inherited k && negb (String.eqb k "__proto__")
          then occurrences f k rows else 0)).
Proof.
  revert stats. induction rows as [|r rows IH]; intros stats.
  - unfold occurrences. simpl. split; [done|].
    split; intros k; destruct (_ && _); simpl; lia.
  - unfold counted in *. simpl.
    destruct (IH (if JS.truthy (f r) then count (f r) stats else stats))
      as (IHp & IHn & IHt).
    split; [|split].
    + intros Hn Ht. destruct (JS.truthy (f r)); [|by apply IHp].
      destruct (count_positive (f r) stats Hn Ht). by apply IHp.
    + intros k. rewrite IHn, occurrences_cons.
      destruct (JS.truthy (f r)) eqn:Hr.
      * rewrite count_numbers.
        destruct (decide (f r = k)) as [<-|Hne]; [|destruct (_ && _); lia].
        rewrite Hr. destruct (JS.inherited (f r)); simpl; lia.
      * assert (f r = "") as Hempty.
        { destruct (decide (f r = "")) as [|Hne]; [done|].
          apply truthy_iff in Hne. congruence. }
        destruct (decide (f r = k)) as [<-|Hne]; [|destruct (_ && _); lia].
        rewrite Hempty. simpl. lia.
    + intros k. rewrite IHt, occurrences_cons.
      destruct (JS.truthy (f r)) eqn:Hr.
      * rewrite count_texts.
        destruct (decide (f r = k)) as [<-|Hne]; [|destruct (_ && _); lia].
        destruct (JS.inherited (f r) && negb (String.eqb (f r) "__proto__"));
          lia.
      * assert (f r = "") as Hempty.
        { destruct (decide (f r = "")) as [|Hne]; [done|].
          apply truthy_iff in Hne. congruence. }
        destruct (decide (f r = k)) as [<-|Hne]; [|destruct (_ && _); lia].
        rewrite Hempty. simpl. lia.
Qed.

(** The state of the four accumulators after the loop. *)
Lemma fold_count_row rows t :
  let t' := fold_left count_row rows t in
  hostStats t' = counted host rows (hostStats t) /\
  stageStats t' = counted stage rows (stageStats t) /\
  pendingFeedback t' = pendingFeedback t + occurrences stage "Feedback" rows /\
  doneFeedback t' = doneFeedback t + occurrences stage "Done" rows.
Proof.
  revert t. induction rows as [|r rows IH]; intros t; simpl.
  - unfold occurrences; simpl. repeat split; lia.
  - specialize (IH (count_row t r)).
    destruct IH as (IH1 & IH2 & IH3 & IH4).
    split; [exact IH1|]. split; [exact IH2|]. split.
    + rewrite IH3, occurrences_cons. simpl.
      destruct (String.eqb_spec (stage r) "Feedback");
        destruct (decide (stage r = "Feedback")); try done; lia.
    + rewrite IH4, occurrences_cons. simpl.
      destruct (String.eqb_spec (stage r) "Done");
        destruct (decide (stage r = "Done")); try done; lia.
Qed.

(** [new Set]: members and absence of duplicates. *)
Lemma Set_of_from (xs seen : list string) :
  let out := fold_left
    (fun seen x => if decide (x ∈ seen) then seen else seen ++ [x]) xs seen in
  (NoDup seen -> NoDup out) /\ (forall x, x ∈ out <-> x ∈ seen \/ x ∈ xs).
Proof.
  revert seen. induction xs as [|a xs IH]; intros seen; simpl.
  - split; [done|]. intros x. rewrite elem_of_nil. tauto.
  - destruct (decide (a ∈ seen)) as [Hin|Hout].
    + destruct (IH seen) as [IHn IHm]. split; [done|].
      intros x. rewrite IHm, elem_of_cons. split; [tauto|].
      intros [?|[->|?]]; tauto.
    + destruct (IH (seen ++ [a])) as [IHn IHm]. split.
      * intros Hnd. apply IHn. apply NoDup_app.
        repeat split; [done| |apply NoDup_singleton].
        intros x Hx ->%list_elem_of_singleton. done.
      * intros x.
        rewrite IHm, elem_of_app, list_elem_of_singleton, elem_of_cons.
        tauto.
Qed.

(** The order of the code units is a total preorder. *)
Lemma units_le_total a b :
  JS.units_le a b = true \/ JS.units_le b a = true.
Proof.
  revert b. induction a as [|x a IH]; intros [|y b]; simpl; auto.
  destruct (N.ltb_spec x y), (N.ltb_spec y x); auto; lia.
Qed.

Lemma units_le_trans a b c :
  JS.units_le a b = true -> JS.units_le b c = true -> JS.units_le a c = true.
Proof.
  revert b c. induction a as [|x a IH]; intros [|y b] [|z c]; simpl;
    try done.
  destruct (N.ltb_spec x y), (N.ltb_spec y x), (N.ltb_spec y z),
    (N.ltb_spec z y), (N.ltb_spec x z), (N.ltb_spec z x);
    try done; try lia.
  apply IH.
Qed.

Lemma le_total : Total JS.le.
Proof.
  intros a b. unfold JS.le. rewrite !Is_true_true. apply units_le_total.
Qed.

Lemma le_transitive : Transitive JS.le.
Proof.
  intros a b c. unfold JS.le. rewrite !Is_true_true. apply units_le_trans.
Qed.

Lemma options_spec (f : row -> string) (rows : list row) :
  StronglySorted JS.le (options f rows) /\
  NoDup (options f rows) /\
  forall v, v ∈ options f rows <-> v <> "" /\ exists r, r ∈ rows /\ f r = v.
Proof.
  unfold options, sort.
  set (vals := filter (fun x => Is_true (JS.truthy x)) (map f rows)).
  destruct (Set_of_from vals []) as [Hnd Hmem]. fold (Set_of vals) in Hnd, Hmem.
  split; [|split].
  - apply StronglySorted_merge_sort; [apply le_transitive|apply le_total].
  - rewrite merge_sort_Permutation. apply Hnd. constructor.
  - intros v. rewrite merge_sort_Permutation, Hmem, elem_of_nil.
    unfold vals.
    rewrite list_elem_of_filter, Is_true_true, truthy_iff, list_elem_of_fmap.
    split.
    + intros [[]|(Hv & r & -> & Hr)]. eauto.
    + intros (Hv & r & Hr & <-). right. eauto.
Qed.

Lemma counter_lookup (stats : gmap string nat) (k : string) (total : nat) :
  positive_counts stats ->
  default 0 (stats !! k) = total ->
  forall n, stats !! k = Some n <-> n = total /\ 0 < n.
Proof.
  intros Hpos Hdef n. destruct (stats !! k) as [m|] eqn:Hm; simpl in Hdef.
  - apply Hpos in Hm as Hm'.
    split; [intros [= <-]; lia|intros [-> _]; congruence].
  - split; [done|]. lia.
Qed.

Lemma getDashboardData_run w :
  faults w = [] ->
  getDashboardData w
  = (Returned (DashboardData (dashboard_of (snd (all_data (sheet w))))), w).
Proof.
  intros Hf. unfold getDashboardData.
  erewrite bind_returned by by apply getAllData_run.
  reflexivity.
Qed.

Lemma inherited_iff k : JS.inherited k = true <-> k ∈ JS.Object_prototype.
Proof. unfold JS.inherited. apply bool_decide_eq_true. Qed.

(** The two maps of a counter that started empty. *)
Lemma counted_from_empty f rows :
  let stats := counted f rows (mkCounter ∅ ∅) in
  (forall k n, numbers stats !! k = Some n <->
     k <> "" /\ (k ∉ JS.Object_prototype) /\ n = occurrences f k rows /\ 0 < n) /\
  (forall k n, texts stats !! k = Some n <->
     k ∈ JS.Object_prototype /\ k <> "__proto__" /\
     n = occurrences f k rows /\ 0 < n).
Proof.
  assert (Hempty : positive_counts (∅ : gmap string nat)).
  { intros k n. by rewrite lookup_empty. }
  destruct (counted_spec f rows (mkCounter ∅ ∅)) as (Hpos & Hn & Ht).
  destruct (Hpos Hempty Hempty) as [Hpn Hpt]. simpl in *. split.
  - intros k n. specialize (Hn k). rewrite lookup_empty in Hn. simpl in Hn.
    rewrite (counter_lookup _ k _ Hpn Hn).
    destruct (JS.truthy k) eqn:Hk, (JS.inherited k) eqn:Hi; simpl.
    + apply inherited_iff in Hi. split; [lia|]. tauto.
    + apply truthy_iff in Hk.
      assert (k ∉ JS.Object_prototype).
      { intros Hin%inherited_iff. congruence. }
      tauto.
    + split; [lia|]. intros (Hne & _). apply truthy_iff in Hne. congruence.
    + split; [lia|]. intros (Hne & _). apply truthy_iff in Hne. congruence.
  - intros k n. specialize (Ht k). rewrite lookup_empty in Ht. simpl in Ht.
    rewrite (counter_lookup _ k _ Hpt Ht).
    destruct (JS.inherited k) eqn:Hi, (String.eqb_spec k "__proto__"); simpl.
    + split; [lia|]. tauto.
    + apply inherited_iff in Hi. tauto.
    + split; [lia|]. tauto.
    + split; [lia|]. intros (Hin%inherited_iff & _). congruence.
Qed.

(** C5. On a sheet where two feedbacks have the host "constructor", one
    the host "__proto__" and one the host "Quốc", [getDashboardData]
    returns the four rows, and [stats.byHost] holds the number 1 for
    "Quốc" but no number for the other two hosts: under "constructor" it
    holds a text that ends in "11", and under "__proto__" nothing, where
    the claim has the numbers 2 and 1. *)
Theorem getDashboardData_miscounts_inherited_names :
  exists d,
    getDashboardData (Samples.world_of Samples.namesakes)
    = (Returned (DashboardData d), Samples.world_of Samples.namesakes) /\
    map host (feedback d) = ["constructor"; "Quốc"; "constructor"; "__proto__"] /\
    byHost d !! "Quốc" = Some 1 /\
    occurrences host "constructor" (feedback d) = 2 /\
    byHost d !! "constructor" = None /\
    byHostText d !! "constructor" = Some 2 /\
    occurrences host "__proto__" (feedback d) = 1 /\
    byHost d !! "__proto__" = None /\
    byHostText d !! "__proto__" = None.
Proof.
  eexists. split; [reflexivity|]. by vm_compute.
Qed.

(** X19. In the answer of [getDashboardData], over the rows it returns:
    [stats.pending] is the number of rows whose stage is "Feedback",
    [stats.done] the number whose stage is "Done".  [stats.byHost] and
    [stats.byStage] hold a number exactly for the host and stage values
    that are not empty and are not a name that objects inherit, and that
    number is the number of rows that carry the value.  For a value that
    is such a name, other than [__proto__], they hold a text instead,
    which ends in as many "1"s as there are rows with the value; for
    [__proto__] they hold nothing.  [filterOptions.hosts] and
    [filterOptions.stages] are sorted by code units, without duplicates,
    and hold the non-empty host and stage values that occur. *)
Theorem getDashboardData_stats (w : world) (Hquiet : faults w = []) :
  exists d,
    getDashboardData w = (Returned (DashboardData d), w) /\
    feedback d = snd (all_data (sheet w)) /\
    pending d = occurrences stage "Feedback" (feedback d) /\
    done d = occurrences stage "Done" (feedback d) /\
    (forall h n, byHost d !! h = Some n <->
       h <> "" /\ (h ∉ JS.Object_prototype) /\
       n = occurrences host h (feedback d) /\ 0 < n) /\
    (forall s n, byStage d !! s = Some n <->
       s <> "" /\ (s ∉ JS.Object_prototype) /\
       n = occurrences stage s (feedback d) /\ 0 < n) /\
    (forall h n, byHostText d !! h = Some n <->
       h ∈ JS.Object_prototype /\ h <> "__proto__" /\
       n = occurrences host h (feedback d) /\ 0 < n) /\
    (forall s n, byStageText d !! s = Some n <->
       s ∈ JS.Object_prototype /\ s <> "__proto__" /\
       n = occurrences stage s (feedback d) /\ 0 < n) /\
    (StronglySorted JS.le (hosts d) /\ NoDup (hosts d) /\
     forall h, h ∈ hosts d <->
       h <> "" /\ exists r, r ∈ feedback d /\ host r = h) /\
    (StronglySorted JS.le (stages d) /\ NoDup (stages d) /\
     forall s, s ∈ stages d <->
       s <> "" /\ exists r, r ∈ feedback d /\ stage r = s).
Proof.
  set (rows := snd (all_data (sheet w))).
  exists (dashboard_of rows). split.
  { unfold getDashboardData, bind. by rewrite getAllData_run. }
  split; [done|].
  pose proof (fold_count_row rows
                (mkTally (mkCounter ∅ ∅) (mkCounter ∅ ∅) 0 0)) as Hfold.
  simpl in Hfold. destruct Hfold as (Hh & Hs & Hpend & Hdone).
  destruct (counted_from_empty host rows) as [Hhn Hht].
  destruct (counted_from_empty stage rows) as [Hsn Hst].
  unfold dashboard_of; simpl. rewrite Hh, Hs.
  split; [exact Hpend|]. split; [exact Hdone|].
  split; [exact Hhn|]. split; [exact Hsn|].
  split; [exact Hht|]. split; [exact Hst|].
  split; apply options_spec.
Qed.

(** *** Timestamps *)

(** A property checked on every number below a bound. *)
Lemma below_forallb (P : nat -> bool) (lo len : nat) :
  forallb P (seq lo len) = true -> forall n, lo <= n < lo + len -> P n = true.
Proof.
  intros Hall n Hn. rewrite forallb_forall in Hall. apply Hall.
  apply in_seq. lia.
Qed.

Lemma pad2_two_digits n : n < 100 -> pad2 n = two_digits n.
Proof.
  intros Hn.
  apply String.eqb_eq.
  apply (below_forallb (fun n => String.eqb (pad2 n) (two_digits n)) 0 100);
    [vm_compute; reflexivity|lia].
Qed.

Lemma toString_four_digits n :
  1000 <= n -> n / 1000 < 10 -> JS.toString n = four_digits n.
Proof.
  intros Hlo Hhi.
  assert (n < 1000 * 10).
  { pose proof (Nat.div_mod_eq n 1000).
    pose proof (Nat.mod_upper_bound n 1000). lia. }
  apply String.eqb_eq.
  apply (below_forallb (fun n => String.eqb (JS.toString n) (four_digits n))
           1000 (9 * 1000)); [vm_compute; reflexivity|lia].
Qed.

Lemma timestamp_format t :
  wall_clock t -> timestamp t = HH_mm_ss_dd_MM_yyyy t.
Proof.
  intros (Hh & Hm & Hs & Hd & HM & Hy1 & Hy2).
  unfold timestamp, HH_mm_ss_dd_MM_yyyy.
  rewrite !pad2_two_digits by lia.
  by rewrite toString_four_digits.
Qed.

Example timestamp_sample :
  timestamp (mkDate 2026 0 9 22 5 0) = "22:05:00 09/01/2026".
Proof. vm_compute. reflexivity. Qed.

(** *** Stage updates *)

(** One round of the loop when both writes go through. *)
Lemma stage_round_ok newStage timestamp rowNumber w :
  1 <= rowNumber -> calm 2 w ->
  (updateCell rowNumber "F" newStage ;;;
   updateCell rowNumber "O" timestamp ;;; ret tt) w
  = (Returned tt,
     with_sheet (stage_write newStage timestamp (sheet w) rowNumber)
       (after_calls 2 w)).
Proof.
  intros Hrow Hc.
  apply calm_S in Hc as [H1 Hc]. apply calm_S in Hc as [H2 _].
  unfold bind. rewrite updateCell_ok by done.
  rewrite updateCell_ok by done. reflexivity.
Qed.

(** One round in which the second write fails. *)
Lemma stage_round_torn newStage timestamp rowNumber e w :
  1 <= rowNumber -> next_succeeds w -> next_fails e (after_call w) ->
  (updateCell rowNumber "F" newStage ;;;
   updateCell rowNumber "O" timestamp ;;; ret tt) w
  = (Thrown e,
     with_line ("SheetsClient: updateCell Error: " ++ e)
       (with_sheet (alter_row (set_nth 5 newStage) rowNumber (sheet w))
          (after_calls 2 w))).
Proof.
  intros Hrow H1 H2. unfold bind. rewrite updateCell_ok by done.
  rewrite (updateCell_fails e) by done. reflexivity.
Qed.

(** The whole loop when every write goes through. *)
Lemma stage_loop_ok newStage timestamp rowNumbers w :
  Forall (fun n => 1 <= n) rowNumbers ->
  calm (2 * length rowNumbers) w ->
  for_of rowNumbers (fun rowNumber =>
    updateCell rowNumber "F" newStage ;;;
    updateCell rowNumber "O" timestamp ;;; ret tt) w
  = (Returned tt,
     with_sheet
       (fold_left (stage_write newStage timestamp) rowNumbers (sheet w))
       (after_calls (2 * length rowNumbers) w)).
Proof.
  intros Hrows. revert w.
  induction Hrows as [|r rs Hr Hrows IH]; intros w Hc.
  - simpl. unfold ret. by destruct w.
  - replace (2 * length (r :: rs)) with (S (S (2 * length rs))) in *
      by (simpl; lia).
    apply calm_S in Hc as [H1 Hc]. apply calm_S in Hc as [H2 Hc].
    cbn [for_of]. unfold bind at 1.
    rewrite stage_round_ok; [|done|].
    2:{ unfold calm. unfold next_succeeds, after_call in *.
        destruct w as [s f c o k u]; simpl in *.
        destruct f as [|[?|] [|[?|] f]]; simpl in *; try done;
          repeat constructor. }
    rewrite IH by exact Hc.
    simpl. f_equal. apply after_calls_with_sheet.
Qed.

(** What the rounds leave in the sheet. *)
Lemma stage_writes_done newStage timestamp rowNumbers data r :
  Forall (fun n => 1 <= n) rowNumbers -> 1 <= r ->
  (r ∈ rowNumbers \/
   (cell_at data r 5 = Some newStage /\ cell_at data r 14 = Some timestamp)) ->
  cell_at (fold_left (stage_write newStage timestamp) rowNumbers data) r 5
    = Some newStage /\
  cell_at (fold_left (stage_write newStage timestamp) rowNumbers data) r 14
    = Some timestamp.
Proof.
  intros Hall Hr. revert data.
  induction Hall as [|n rs Hn Hall IH]; intros data Hin; simpl.
  - destruct Hin as [Hin|Hin]; [by apply elem_of_nil in Hin|done].
  - apply IH. destruct (decide (r = n)) as [->|Hne].
    + right. unfold stage_write. split.
      * apply write_cell_keeps; [done..|congruence|]. by apply write_cell_same.
      * by apply write_cell_same.
    + destruct Hin as [Hin|[H5 H14]].
      * left. apply elem_of_cons in Hin as [?|?]; [done|done].
      * right. unfold stage_write.
        split; repeat (apply write_cell_keeps; [done..|congruence|]); done.
Qed.

Lemma stage_writes_elsewhere newStage timestamp rowNumbers data r c :
  Forall (fun n => 1 <= n) rowNumbers -> 1 <= r -> r ∉ rowNumbers ->
  value_at (fold_left (stage_write newStage timestamp) rowNumbers data) r c
  = value_at data r c.
Proof.
  intros Hall Hr. revert data.
  induction Hall as [|n rs Hn Hall IH]; intros data Hnin; simpl; [done|].
  apply not_elem_of_cons in Hnin as [Hne Hnin].
  rewrite IH by done. unfold stage_write.
  rewrite !write_cell_other; try done; congruence.
Qed.

(** Past its two guards, [bulkUpdateStage] is the loop and the reply. *)
Lemma bulkUpdateStage_guarded rowNumbers newStage :
  rowNumbers <> [] -> newStage <> "" ->
  bulkUpdateStage (Some rowNumbers) newStage
  = (now <- new_Date ;;
     for_of rowNumbers (fun rowNumber =>
       updateCell rowNumber "F" newStage ;;;
       updateCell rowNumber "O" (timestamp (vnTime now)) ;;;
       ret tt) ;;;
     ret (Status true
            ("Đã cập nhật " ++ JS.toString (length rowNumbers)
             ++ " mục thành " ++ JS.dquote ++ newStage ++ JS.dquote))).
Proof.
  intros Hne Hstage. apply truthy_iff in Hstage. unfold bulkUpdateStage.
  destruct rowNumbers; [done|]. by rewrite Hstage.
Qed.

(** C7. [updateStage] and [bulkUpdateStage] write the stage (column F)
    and the timestamp (column O) of a row as two updates of one cell
    each.  When the write of the stage succeeds and the write of the
    timestamp then fails, the call throws that error, the stage stays in
    column F and column O reads as before: nothing is rolled back.  In
    [bulkUpdateStage] this holds for the row whose timestamp fails, after
    the rows [before] it were written in full. *)
Theorem stage_write_survives_failed_timestamp
    (w : world) (rowNumber : nat) (newStage e : string)
    (rest : list (option string)) (before after : list nat)
    (Hrow : 1 <= rowNumber)
    (Hbefore : Forall (fun n => 1 <= n) before)
    (Hfresh : rowNumber ∉ before)
    (Hstage : newStage <> "") :
  (faults w = None :: Some e :: rest ->
   exists w',
     updateStage rowNumber newStage w = (Thrown e, w') /\
     sheet w' = alter_row (set_nth 5 newStage) rowNumber (sheet w) /\
     cell_at (sheet w') rowNumber 5 = Some newStage /\
     value_at (sheet w') rowNumber 14 = value_at (sheet w) rowNumber 14) /\
  (faults w = replicate (2 * length before) None ++ None :: Some e :: rest ->
   exists w',
     bulkUpdateStage (Some (before ++ rowNumber :: after)) newStage w
       = (Thrown e, w') /\
     cell_at (sheet w') rowNumber 5 = Some newStage /\
     value_at (sheet w') rowNumber 14 = value_at (sheet w) rowNumber 14 /\
     forall r, r ∈ before ->
       cell_at (sheet w') r 5 = Some newStage /\
       cell_at (sheet w') r 14
         = Some (timestamp (vnTime (clock w)))).
Proof.
  split.
  - intros Hf. eexists. split; [|split; [|split]].
    + unfold updateStage.
      erewrite bind_returned by reflexivity.
      erewrite bind_returned by (apply updateCell_ok; [done|];
                                 unfold next_succeeds; by rewrite Hf).
      erewrite bind_thrown; [reflexivity|].
      apply updateCell_fails. exists rest. simpl. by rewrite Hf.
    + reflexivity.
    + simpl. by apply write_cell_same.
    + simpl. apply write_cell_other; [done..|congruence].
  - intros Hf.
    set (ts := timestamp (vnTime (clock w))).
    set (w1 := with_sheet (fold_left (stage_write newStage ts) before (sheet w))
                 (after_calls (2 * length before) w)).
    assert (Hcalm : calm (2 * length before) w).
    { unfold calm. rewrite Hf. rewrite take_app_length'
        by (rewrite length_replicate; lia).
      apply Forall_replicate. done. }
    assert (Hf1 : faults w1 = None :: Some e :: rest).
    { unfold w1. simpl. rewrite faults_after_calls, Hf.
      rewrite drop_app_length' by (rewrite length_replicate; lia). done. }
    exists (with_line ("SheetsClient: updateCell Error: " ++ e)
              (with_sheet (alter_row (set_nth 5 newStage) rowNumber (sheet w1))
                 (after_calls 2 w1))).
    split; [|split; [|split]].
    + rewrite bulkUpdateStage_guarded by (done || by destruct before).
      erewrite bind_returned by reflexivity. fold ts.
      erewrite bind_thrown; [reflexivity|].
      rewrite for_of_app.
      erewrite bind_returned by (by apply stage_loop_ok).
      fold w1. cbn [for_of].
      erewrite bind_thrown; [reflexivity|].
      apply stage_round_torn; [done|..].
      * unfold next_succeeds. by rewrite Hf1.
      * exists rest. simpl. unfold w1 in Hf1. simpl in Hf1. by rewrite Hf1.
    + simpl. rewrite ?sheet_after_calls. by apply write_cell_same.
    + simpl. rewrite ?sheet_after_calls.
      rewrite write_cell_other by (done || congruence).
      unfold w1. simpl. by apply stage_writes_elsewhere.
    + intros r Hr. simpl. rewrite ?sheet_after_calls.
      assert (1 <= r) by (rewrite Forall_forall in Hbefore; by apply Hbefore).
      assert (r <> rowNumber) by (intros ->; done).
      destruct (stage_writes_done newStage ts before (sheet w) r) as [H5 H14];
        [done..|by left|].
      split; apply write_cell_keeps; try done; congruence.
Qed.

Lemma assign_length i u newRow : length (assign i u newRow) = length newRow.
Proof. unfold assign. destruct u; [apply length_insert|done]. Qed.

Lemma merged_row_stamp now currentRowRaw u :
  15 <= length (merged_row now currentRowRaw u) /\
  merged_row now currentRowRaw u !! 14 = Some (timestamp (vnTime now)).
Proof.
  unfold merged_row.
  assert (15 <= length (pad15 currentRowRaw)).
  { unfold pad15. rewrite length_app, length_replicate. lia. }
  rewrite length_insert, !assign_length. split; [done|].
  apply list_lookup_insert_eq. rewrite !assign_length. lia.
Qed.

(** [updateFeedback] sends fifteen values, one more than the range of
    [updateRow] has columns. *)
Lemma updateFeedback_run `{Service} w rowNumber u :
  1 <= rowNumber -> faults w = [] ->
  let newRow :=
    merged_row (clock w)
      (take 14 (default [] (sheet w !! (rowNumber - 1)))) u in
  updateFeedback rowNumber (Some u) w
  = match too_wide rowNumber with
    | Some e =>
        (Thrown e, with_line ("SheetsClient: updateRow Error: " ++ e) w)
    | None =>
        (Returned (Status true "Cập nhật thành công!"),
         with_sheet (alter_row (overwrite newRow) rowNumber (sheet w)) w)
    end.
Proof.
  intros Hrow Hquiet newRow. unfold updateFeedback.
  destruct (Nat.eqb_spec rowNumber 0); [lia|].
  erewrite bind_returned by by apply getRow_quiet.
  erewrite bind_returned by reflexivity.
  assert (Hwide : refusal rowNumber newRow = too_wide rowNumber).
  { unfold refusal, newRow.
    destruct (merged_row_stamp (clock w)
                (take 14 (default [] (sheet w !! (rowNumber - 1)))) u)
      as [Hlen _].
    by destruct (Nat.ltb_spec 14 (length (merged_row (clock w)
                (take 14 (default [] (sheet w !! (rowNumber - 1)))) u)));
      [|lia]. }
  fold newRow. destruct (too_wide rowNumber) as [e|] eqn:Hservice.
  - unfold bind. by rewrite (updateRow_refused _ _ e).
  - erewrite bind_returned by by apply updateRow_quiet. reflexivity.
Qed.

(** C8. The timestamp that [createFeedback] writes to the Time and
    UpdatedAt columns (K and O) of the new row, and that
    [updateFeedback], [updateStage] and [bulkUpdateStage] write to the
    UpdatedAt column of their rows, is the string [HH:mm:ss dd/MM/yyyy]
    of the wall-clock time of the call in Asia/Ho_Chi_Minh: two digits
    for hours, minutes, seconds, day and month, four for the year.
    [updateFeedback] sends its timestamp as the fifteenth value of an
    update of the range A to N: where the service writes the values it
    is sent, column O holds that string afterwards; where the service
    refuses the request, [updateFeedback] throws the error of the service
    and no cell of the sheet has changed, so that no other timestamp is
    written. *)
Theorem timestamps_written `{Service} (w : world)
    (Hclock : wall_clock (vnTime (clock w))) (Hquiet : faults w = []) :
  let stamp := HH_mm_ss_dd_MM_yyyy (vnTime (clock w)) in
  (forall f, exists reply w',
     createFeedback (Some f) w = (Returned reply, w') /\
     cell_at (sheet w') (length (sheet w) + 1) 10 = Some stamp /\
     cell_at (sheet w') (length (sheet w) + 1) 14 = Some stamp) /\
  (forall rowNumber u, 1 <= rowNumber ->
     match too_wide rowNumber with
     | None => exists reply w',
         updateFeedback rowNumber (Some u) w = (Returned reply, w') /\
         cell_at (sheet w') rowNumber 14 = Some stamp
     | Some e => exists w',
         updateFeedback rowNumber (Some u) w = (Thrown e, w') /\
         sheet w' = sheet w
     end) /\
  (forall rowNumber newStage, 1 <= rowNumber -> exists reply w',
     updateStage rowNumber newStage w = (Returned reply, w') /\
     cell_at (sheet w') rowNumber 14 = Some stamp) /\
  (forall rowNumbers newStage,
     rowNumbers <> [] -> newStage <> "" ->
     Forall (fun n => 1 <= n) rowNumbers -> exists reply w',
       bulkUpdateStage (Some rowNumbers) newStage w = (Returned reply, w') /\
       forall r, r ∈ rowNumbers -> cell_at (sheet w') r 14 = Some stamp).
Proof.
  intros stamp. unfold stamp. rewrite <- (timestamp_format _ Hclock).
  clear stamp. set (ts := timestamp (vnTime (clock w))).
  split; [|split; [|split]].
  - intros f. do 2 eexists. split.
    + unfold createFeedback.
      erewrite bind_returned by reflexivity.
      erewrite bind_returned by by apply appendRow_quiet.
      reflexivity.
    + simpl. unfold cell_at.
      replace (length (sheet w) + 1 - 1) with (length (sheet w) + 0) by lia.
      rewrite lookup_app_r by lia.
      replace (length (sheet w) + 0 - length (sheet w)) with 0 by lia.
      done.
  - intros rowNumber u Hrow.
    pose proof (updateFeedback_run w rowNumber u Hrow Hquiet) as Hrun.
    destruct (too_wide rowNumber) as [e|].
    + eexists. split; [exact Hrun|]. reflexivity.
    + do 2 eexists. split; [exact Hrun|].
      simpl. unfold cell_at. rewrite alter_row_same by done. simpl.
      unfold overwrite.
      destruct (merged_row_stamp (clock w)
                  (take 14 (default [] (sheet w !! (rowNumber - 1)))) u)
        as [Hlen Hts].
      by apply lookup_app_l_Some.
  - intros rowNumber newStage Hrow. do 2 eexists. split.
    + unfold updateStage.
      erewrite bind_returned by reflexivity.
      erewrite bind_returned by by apply updateCell_quiet.
      erewrite bind_returned by by apply updateCell_quiet.
      reflexivity.
    + simpl. by apply write_cell_same.
  - intros rowNumbers newStage Hne Hstage Hall. do 2 eexists. split.
    + rewrite bulkUpdateStage_guarded by done.
      erewrite bind_returned by reflexivity.
      erewrite bind_returned
        by (apply stage_loop_ok; [done|by apply calm_quiet]).
      reflexivity.
    + intros r Hr. simpl.
      assert (1 <= r) by (rewrite Forall_forall in Hall; by apply Hall).
      by apply (stage_writes_done newStage ts rowNumbers (sheet w) r);
        [..|left].
Qed.

(** *** Comments *)

Section CommentProofs.

Context `{JSON}.

Lemma parsed_match content :
  parsed content
  = match JSON_parse content with Some (JArr items) => items | _ => [] end.
Proof. unfold parsed. by destruct (JSON_parse content) as [[]|]. Qed.

Lemma comments_of_stored content :
  comments_of content = stored_comments content.
Proof.
  unfold comments_of, stored_comments, bracketed. rewrite parsed_match.
  unfold JS.truthy. destruct (String.eqb_spec content "") as [->|Hne]; simpl.
  - reflexivity.
  - reflexivity.
Qed.

Lemma json_comments_of_parsed content :
  json_comments_of content = parsed_comments content.
Proof.
  unfold json_comments_of, parsed_comments, bracketed. rewrite parsed_match.
  unfold JS.truthy. destruct (String.eqb_spec content "") as [->|Hne]; simpl.
  - reflexivity.
  - reflexivity.
Qed.

(** C4. [addComment rowNumber commentText] reads cell H of the row.  The
    comments it finds there are: the parsed array when the trimmed
    content starts with "[" and ends with "]" (none when parsing fails or
    gives something else than an array); otherwise one legacy comment
    with time "Note cũ" and author "System" for a non-empty content.  It
    appends the new comment (the trimmed text, author "User"), writes the
    serialized list to cell H of the same row and to no other cell, and
    returns success with the resulting list. *)
Theorem addComment_appends (w : world) (rowNumber : nat) (commentText : string)
    (Hrow : 1 <= rowNumber) (Htext : JS.trim commentText <> "")
    (Hquiet : faults w = []) :
  let comments :=
    stored_comments (value_at (sheet w) rowNumber 7)
    ++ [comment_of (JS.trim commentText)
          (comment_timestamp (vnTime (clock w))) "User"] in
  exists w',
    addComment rowNumber commentText w
    = (Returned (CommentList (Some "Đã thêm comment!") comments), w') /\
    cell_at (sheet w') rowNumber 7 = Some (JSON_stringify (JArr comments)) /\
    (forall r c, 1 <= r -> (r, c) <> (rowNumber, 7) ->
       value_at (sheet w') r c = value_at (sheet w) r c).
Proof.
  intros comments. eexists. split; [|split].
  - unfold addComment.
    destruct (Nat.eqb_spec rowNumber 0); [lia|].
    pose proof (trim_nonempty _ Htext) as Hne.
    apply truthy_iff in Htext, Hne. rewrite Htext, Hne. simpl.
    erewrite bind_returned by by apply getRow_quiet.
    erewrite bind_returned by reflexivity.
    erewrite bind_returned by by apply updateCell_quiet.
    rewrite cell_H_of_getRow, comments_of_stored. reflexivity.
  - simpl. by apply write_cell_same.
  - intros r c Hr Hne. simpl. by apply write_cell_other.
Qed.

(** C9. For an index outside [0, length of the parsed comment list),
    [deleteComment] answers [{success: false, message: 'Invalid comment
    index'}] and leaves the world, cell H included, as it was.  For an
    index inside the range it removes the comment at that index and no
    other, writes the remaining list to cell H of the row and to no other
    cell, and returns it. *)
Theorem deleteComment_by_index (w : world) (rowNumber : nat) (commentIndex : Z)
    (Hrow : 1 <= rowNumber) (Hquiet : faults w = []) :
  let comments := parsed_comments (value_at (sheet w) rowNumber 7) in
  ((commentIndex < 0 \/ Z.of_nat (length comments) <= commentIndex)%Z ->
   deleteComment rowNumber (Some commentIndex) w
   = (Returned (Status false "Invalid comment index"), w)) /\
  ((0 <= commentIndex < Z.of_nat (length comments))%Z ->
   exists remaining w',
     deleteComment rowNumber (Some commentIndex) w
     = (Returned (CommentList (Some "Deleted comment!") remaining), w') /\
     length remaining + 1 = length comments /\
     (forall j, j < Z.to_nat commentIndex -> remaining !! j = comments !! j) /\
     (forall j, Z.to_nat commentIndex <= j ->
        remaining !! j = comments !! (S j)) /\
     cell_at (sheet w') rowNumber 7 = Some (JSON_stringify (JArr remaining)) /\
     (forall r c, 1 <= r -> (r, c) <> (rowNumber, 7) ->
        value_at (sheet w') r c = value_at (sheet w) r c)).
Proof.
  intros comments. split.
  - intros Hout. unfold deleteComment.
    destruct (Nat.eqb_spec rowNumber 0); [lia|].
    erewrite bind_returned by by apply getRow_quiet.
    rewrite cell_H_of_getRow, json_comments_of_parsed. fold comments.
    destruct (Z.leb_spec 0 commentIndex), (Z.ltb_spec commentIndex
      (Z.of_nat (length comments))); simpl; try reflexivity; lia.
  - intros Hin. exists (delete (Z.to_nat commentIndex) comments). eexists.
    split; [|split; [|split; [|split; [|split]]]].
    + unfold deleteComment.
      destruct (Nat.eqb_spec rowNumber 0); [lia|].
      erewrite bind_returned by by apply getRow_quiet.
      rewrite cell_H_of_getRow, json_comments_of_parsed. fold comments.
      destruct (Z.leb_spec 0 commentIndex), (Z.ltb_spec commentIndex
        (Z.of_nat (length comments))); simpl; try lia.
      erewrite bind_returned by by apply updateCell_quiet.
      reflexivity.
    + rewrite length_delete; [lia|]. apply lookup_lt_is_Some_2. lia.
    + intros j Hj. by apply list_lookup_delete_lt.
    + intros j Hj. by apply list_lookup_delete_ge.
    + simpl. by apply write_cell_same.
    + intros r c Hr Hne. simpl. by apply write_cell_other.
Qed.

End CommentProofs.

(** *** Creating a feedback and reading it back *)

Lemma createFeedback_run f w :
  faults w = [] ->
  createFeedback (Some f) w
  = (Returned (Status true "Đã tạo feedback thành công!"),
     with_sheet (sheet w ++ [feedback_row (clock w) f]) w).
Proof.
  intros Hf. unfold createFeedback.
  erewrite bind_returned by reflexivity.
  erewrite bind_returned by by apply appendRow_quiet.
  reflexivity.
Qed.

(** A feedback object with neither host nor shop is appended to the
    sheet, and the row is then left out by the filter of [getAllData], so
    no row of the dashboard carries its values. *)
Lemma round_trip_drops_feedback_without_host_and_shop :
  let w := Samples.world_of Samples.header_rows in
  (exists w1 d,
     createFeedback (Some Samples.empty_feedback) w
     = (Returned (Status true "Đã tạo feedback thành công!"), w1) /\
     length (sheet w1) = 3 /\
     getDashboardData w1 = (Returned (DashboardData d), w1) /\
     feedback d = []) /\
  ~ round_trip createFeedback Samples.empty_feedback w.
Proof.
  intros w. split.
  { do 2 eexists. split; [by apply createFeedback_run|].
    split; [reflexivity|]. split; [by apply getDashboardData_run|].
    vm_compute. reflexivity. }
  intros (created & w1 & d & w2 & Hcreate & Hread & r & Hr & _).
  rewrite createFeedback_run in Hcreate by reflexivity.
  injection Hcreate as _ <-.
  rewrite getDashboardData_run in Hread by reflexivity.
  injection Hread as <- _.
  vm_compute in Hr. by apply elem_of_nil in Hr.
Qed.

(** C1. A feedback with a deadline, a host, a shop, a link, tags and a
    note, created on a sheet that holds its two header rows:
    [createFeedback] writes the columns A: ID, B: Deadline, C: Host,
    D: Shop, E: Link, F: Stage, G: Tags, and [getAllData] reads
    A: Deadline, B: Host, C: Shop, D: Link, E: Stage, F: Tags.  The
    dashboard then returns one row, in which every field holds the value
    of its left neighbour: the ID as deadline, the deadline as host, the
    host as shop, the shop as link, the link as stage, the stage as tags.
    No returned row carries the submitted values. *)
Theorem createFeedback_is_read_back_shifted :
  let w := Samples.world_of Samples.header_rows in
  let f :=
    Feedback.mk (Some "20/01/2026") (Some "Quốc") (Some "shop.example.vn")
      (Some "https://files.example.vn/fb.pdf") None (Some "gap") None
      (Some "Sửa banner") in
  (exists w1 d r,
     createFeedback (Some f) w
     = (Returned (Status true "Đã tạo feedback thành công!"), w1) /\
     getDashboardData w1 = (Returned (DashboardData d), w1) /\
     feedback d = [r] /\
     deadline r = "1768000000000" /\
     host r = "20/01/2026" /\
     shop r = "Quốc" /\
     link r = "shop.example.vn" /\
     stage r = "https://files.example.vn/fb.pdf" /\
     tags r = "Feedback" /\
     devNote r = "gap") /\
  ~ round_trip createFeedback f w.
Proof.
  intros w f. split.
  { do 3 eexists. split; [by apply createFeedback_run|].
    split; [by apply getDashboardData_run|].
    split; [vm_compute; reflexivity|]. by repeat split. }
  intros (created & w1 & d & w2 & Hcreate & Hread & r & Hr & Hsub).
  rewrite createFeedback_run in Hcreate by reflexivity.
  injection Hcreate as _ <-.
  rewrite getDashboardData_run in Hread by reflexivity.
  injection Hread as <- _.
  vm_compute in Hr. apply list_elem_of_singleton in Hr. subst r.
  destruct Hsub as (Hdeadline & _). vm_compute in Hdeadline.
  discriminate Hdeadline.
Qed.

Lemma read_back index now u f :
  let r := to_row index (ServerV2.feedback_row now u f) in
  deadline r = JS.or_else (Feedback.deadline f) "" /\
  host r = JS.or_else (Feedback.host f) "" /\
  shop r = JS.or_else (Feedback.shop f) "" /\
  link r = JS.or_else (Feedback.link f) "" /\
  stage r = JS.or_else (Feedback.stage f) "Feedback" /\
  tags r = JS.or_else (Feedback.tags f) "" /\
  note r = JS.or_else (Feedback.note f) "".
Proof.
  unfold to_row, cell, ServerV2.feedback_row.
  cbn [deadline host shop link stage tags note lookup list_lookup].
  by rewrite !or_else_Some.
Qed.

(** X20. With the [createFeedback] of the earlier server, which writes the
    columns in the order [getAllData] reads them (A: Deadline, B: Host,
    C: Shop, D: Link, E: Stage, F: Tags, I: Note, N: ID), the round trip
    holds: when the remote calls succeed, the sheet holds its two header
    rows and the feedback has a host or a shop, creating the feedback and
    then reading the dashboard returns a row whose deadline, host, shop,
    link, stage, tags and note are the submitted values, with "" for an
    absent value and "Feedback" for an absent stage. *)
Theorem earlier_createFeedback_round_trip (w : world) (f : Feedback.t)
    (Hquiet : faults w = [])
    (Hheaders : 2 <= length (sheet w))
    (Hkept : JS.or_else (Feedback.host f) "" <> ""
             \/ JS.or_else (Feedback.shop f) "" <> "") :
  round_trip ServerV2.createFeedback f w.
Proof.
  destruct (randomUUID_run w) as (u & wu & Hu & Hsheet & Hfaults & Hclock).
  set (row := ServerV2.feedback_row (clock w) u f).
  set (w1 := with_sheet (sheet w ++ [row]) wu).
  exists (Status true "Đã tạo feedback thành công!"), w1.
  exists (dashboard_of (snd (all_data (sheet w1)))), w1.
  split; [|split].
  - unfold ServerV2.createFeedback.
    erewrite bind_returned by reflexivity.
    erewrite bind_returned by exact Hu.
    erewrite bind_returned by (apply appendRow_quiet; congruence).
    rewrite Hsheet. reflexivity.
  - apply getDashboardData_run. simpl. congruence.
  - exists (to_row (length (sheet w) - 2) row). split.
    + simpl. unfold all_data.
      assert (Hlen : Nat.ltb (length (sheet w ++ [row])) 3 = false).
      { apply Nat.ltb_ge. rewrite length_app. simpl. lia. }
      rewrite Hlen. simpl.
      apply list_elem_of_filter. split.
      * apply kept_iff. unfold row.
        destruct (read_back (length (sheet w) - 2) (clock w) u f)
          as (_ & -> & -> & _). tauto.
      * apply elem_of_lookup_imap. exists (length (sheet w) - 2), row.
        split; [done|]. rewrite lookup_drop.
        replace (2 + (length (sheet w) - 2)) with (length (sheet w) + 0) by lia.
        rewrite lookup_app_r by lia.
        by replace (length (sheet w) + 0 - length (sheet w)) with 0 by lia.
    + apply read_back.
Qed.

(** *** Routes *)

Section RouteProofs.

Context `{JSON} `{Guides} `{Telegram} `{Storage}
  `{TelegramServer.BotAdmin} `{Service}.

(** C2, amended.  For a request to a path under [/api], in any case of
    its letters, that is not an OPTIONS request and whose body
    [express.json()] accepts: when [API_KEY] is set and the [x-api-key]
    header is not equal to it, the answer is status 403 with
    [{success: false, message: 'Forbidden: Invalid API Key'}] and the
    world is untouched, so no action ran; when [API_KEY] is not set, the
    request goes on to the routes (after a warning on the console), and
    so it does when the header is equal to the key.  An OPTIONS request
    is answered by [cors()] with status 204, and a request whose body is
    refused gets the status of that refusal; in both cases the key is not
    looked at and the sheet is untouched.  [API_KEY] is set when it is a
    non-empty string, as in the source. *)
Theorem api_key_guard (env : process_env) (a : arrival) (w : world)
    (Hpath : under_api (path (accepted a)) = true) :
  (method (accepted a) <> OPTIONS -> refused a = None ->
   (defined_truthy (API_KEY env) = true ->
    x_api_key (accepted a) <> API_KEY env ->
    server env a w
    = (Returned
         (Answered (mkResponse 403
                      (Status false "Forbidden: Invalid API Key"))), w)) /\
   (defined_truthy (API_KEY env) = true ->
    x_api_key (accepted a) = API_KEY env ->
    server env a w
    = (r <- routes env (accepted a) ;; ret (delivered r)) w) /\
   (defined_truthy (API_KEY env) = false ->
    server env a w
    = (r <- routes env (accepted a) ;; ret (delivered r))
        (with_line "API_KEY not set in .env! Securing is disabled." w))) /\
  (method (accepted a) = OPTIONS ->
   server env a w = (Returned Preflight, w)) /\
  (forall status e,
     method (accepted a) <> OPTIONS -> refused a = Some (status, e) ->
     server env a w = (Returned (Refused status), with_line e w)).
Proof.
  split; [|split].
  - intros Hmethod Hbody.
    assert (Hserver :
      server env a w
      = (r <- app env (accepted a) ;; ret (delivered r)) w).
    { unfold server. rewrite Hbody. by destruct (method (accepted a)). }
    rewrite Hserver. unfold app, bind at 1 2. rewrite Hpath.
    unfold api_key_middleware. split; [|split].
    + intros Hset Hkey. rewrite Hset. simpl.
      rewrite bool_decide_eq_false_2 by done. reflexivity.
    + intros Hset Hkey. rewrite Hset. simpl.
      rewrite bool_decide_eq_true_2 by done. reflexivity.
    + intros Hunset. rewrite Hunset. simpl. reflexivity.
  - intros Hmethod. unfold server. by rewrite Hmethod.
  - intros status e Hmethod Hbody. unfold server. rewrite Hbody.
    by destruct (method (accepted a)).
Qed.




(** C10. In the variant with the Telegram routes, the middleware calls
    [next()] for every request whose path below [/api] starts with
    [/telegram-], whatever the [x-api-key] header and [API_KEY] are; and
    [/api/telegram-setup], [/api/telegram-info] and
    [/api/telegram-webhook] reach their handlers for every request and
    environment, so also without the secret when [API_KEY] is set. *)
Theorem telegram_routes_skip_api_key (env : process_env)
    (req : TelegramServer.request) (w : world) :
  (JS.startsWith "/telegram-"
     (TelegramServer.mounted_path (path (TelegramServer.base req))) = true ->
   TelegramServer.api_key_middleware env (TelegramServer.base req) w
   = (Returned None, w)) /\
  (method (TelegramServer.base req) = GET ->
   path (TelegramServer.base req) = "/api/telegram-setup" ->
   TelegramServer.app env req w
   = (a <- TelegramServer.telegram_setup env req ;; ret (Some a)) w) /\
  (method (TelegramServer.base req) = GET ->
   path (TelegramServer.base req) = "/api/telegram-info" ->
   TelegramServer.app env req w
   = (a <- TelegramServer.telegram_info env req ;; ret (Some a)) w) /\
  (method (TelegramServer.base req) = POST ->
   path (TelegramServer.base req) = "/api/telegram-webhook" ->
   TelegramServer.app env req w
   = (a <- TelegramServer.telegram_webhook env (TelegramServer.update_of req) ;;
      ret (Some a)) w).
Proof.
  split; [|split; [|split]].
  - intros Hskip. unfold TelegramServer.api_key_middleware. by rewrite Hskip.
  - intros Hm Hp. unfold TelegramServer.app, TelegramServer.guarded.
    rewrite Hm, Hp.
    change (under_api "/api/telegram-setup") with true. cbv iota.
    erewrite bind_returned.
    2:{ unfold TelegramServer.api_key_middleware. rewrite Hp. reflexivity. }
    unfold TelegramServer.routes. rewrite Hm, Hp. reflexivity.
  - intros Hm Hp. unfold TelegramServer.app, TelegramServer.guarded.
    rewrite Hm, Hp.
    change (under_api "/api/telegram-info") with true. cbv iota.
    erewrite bind_returned.
    2:{ unfold TelegramServer.api_key_middleware. rewrite Hp. reflexivity. }
    unfold TelegramServer.routes. rewrite Hm, Hp. reflexivity.
  - intros Hm Hp. unfold TelegramServer.app. rewrite Hm, Hp. reflexivity.
Qed.

End RouteProofs.

(** ** Further properties

    What follows covers the parts of the code that the statements above
    leave out: how the comment actions, the row
    updates and the deletions compose with the reads, what the routes
    refuse and never do, and the Telegram bot. *)

(** *** The client, one call at a time *)

Lemma getRow_ok r w :
  1 <= r -> next_succeeds w ->
  getRow r w
  = (Returned (take 14 (default [] (sheet w !! (r - 1)))), after_call w).
Proof.
  intros Hr Hok. unfold getRow, logged, try_catch, bind.
  by rewrite remote_call_ok, named_row_from_1.
Qed.

Lemma deleteRow_quiet r w :
  1 <= r -> faults w = [] ->
  deleteRow r w
  = (Returned true, with_sheet (take (r - 1) (sheet w) ++ drop r (sheet w)) w).
Proof.
  intros Hr Hf. unfold deleteRow, logged, try_catch, bind.
  rewrite remote_call_quiet by done.
  by rewrite remote_call_quiet, named_row_from_1.
Qed.

(** *** Actions that only read *)

Lemma getAllData_reads_only : reads_only getAllData.
Proof.
  intros w r w'. unfold getAllData, logged, try_catch, bind, remote_call,
    get_sheet, console_log, throw, ret.
  destruct w as [s f c o k u]; simpl.
  destruct f as [|[e|] f]; simpl; intros Hrun; inversion Hrun; done.
Qed.

Lemma remote_call_reads_only : reads_only remote_call.
Proof.
  intros w r w'. unfold remote_call.
  destruct w as [s f c o k u]; simpl.
  destruct f as [|[e|] f]; simpl; intros Hrun; inversion Hrun; done.
Qed.

Lemma reads_only_ret {A} (a : A) : reads_only (ret a).
Proof. by intros w r w' [= <- <-]. Qed.

Lemma reads_only_throw {A} e : reads_only (@throw A e).
Proof. by intros w r w' [= <- <-]. Qed.

Lemma reads_only_bind {A B} (m : M A) (k : A -> M B) :
  reads_only m -> (forall a, reads_only (k a)) -> reads_only (x <- m ;; k x).
Proof.
  intros Hm Hk w r w' Hrun. unfold bind in Hrun.
  destruct (m w) as [[a|e] w1] eqn:Hfirst; apply Hm in Hfirst.
  - apply Hk in Hrun. congruence.
  - inversion Hrun; subst. done.
Qed.

Lemma harmless_reads_only {A} (m : M A) : harmless m -> reads_only m.
Proof.
  intros Hm w r w' Hrun. destruct (Hm w) as (a & w1 & Hrun' & Hs).
  congruence.
Qed.

Lemma harmless_ret {A} (a : A) : harmless (ret a).
Proof. intros w. by exists a, w. Qed.

Lemma harmless_bind {A B} (m : M A) (k : A -> M B) :
  harmless m -> (forall a, harmless (k a)) -> harmless (x <- m ;; k x).
Proof.
  intros Hm Hk w. destruct (Hm w) as (a & w1 & Hrun & Hs).
  destruct (Hk a w1) as (b & w2 & Hrun' & Hs').
  exists b, w2. split; [|congruence].
  by rewrite (bind_returned _ _ _ _ _ Hrun).
Qed.

Lemma harmless_console_log line : harmless (console_log line).
Proof. intros w. by eexists _, _. Qed.

Lemma harmless_for_of {A} (xs : list A) (body : A -> M unit) :
  (forall x, harmless (body x)) -> harmless (for_of xs body).
Proof.
  intros Hbody. induction xs as [|x xs IH]; simpl.
  - apply harmless_ret.
  - apply harmless_bind; [apply Hbody|]. intros _. apply IH.
Qed.

(** A [try] block that only reads, with a [catch] clause that always
    returns. *)
Lemma harmless_try_catch {A} (m : M A) (handler : string -> M A) :
  reads_only m -> (forall e, harmless (handler e)) ->
  harmless (try_catch m handler).
Proof.
  intros Hm Hh w. unfold try_catch.
  destruct (m w) as [[a|e] w1] eqn:Hrun; apply Hm in Hrun.
  - by exists a, w1.
  - destruct (Hh e w1) as (a & w2 & Hrun' & Hs'). exists a, w2.
    split; [done|congruence].
Qed.

Lemma getDashboardData_reads_only : reads_only getDashboardData.
Proof.
  apply reads_only_bind; [apply getAllData_reads_only|].
  intros data. apply reads_only_ret.
Qed.

(** *** Comments: what is stored is what is listed *)

Section CommentRuns.

Context `{JSON}.

Lemma comments_of_reads_back comments :
  reads_back comments ->
  comments_of (JSON_stringify (JArr comments)) = comments /\
  json_comments_of (JSON_stringify (JArr comments)) = comments.
Proof.
  intros [Hparse Hbr].
  assert (Hne : JS.truthy (JSON_stringify (JArr comments)) = true).
  { apply truthy_iff. intros Hempty. by rewrite Hempty in Hbr. }
  unfold comments_of, json_comments_of, parsed.
  by rewrite Hne, Hbr, Hparse.
Qed.

Lemma value_at_written r c v data :
  1 <= r -> value_at (alter_row (set_nth c v) r data) r c = v.
Proof. intros Hr. unfold value_at. by rewrite write_cell_same. Qed.

Lemma addComment_run w rowNumber commentText :
  1 <= rowNumber -> JS.trim commentText <> "" -> faults w = [] ->
  let comments :=
    comments_of (value_at (sheet w) rowNumber 7)
    ++ [comment_of (JS.trim commentText)
          (comment_timestamp (vnTime (clock w))) "User"] in
  addComment rowNumber commentText w
  = (Returned (CommentList (Some "Đã thêm comment!") comments),
     with_sheet
       (alter_row (set_nth 7 (JSON_stringify (JArr comments))) rowNumber
          (sheet w)) w).
Proof.
  intros Hrow Htext Hquiet comments. unfold addComment.
  destruct (Nat.eqb_spec rowNumber 0); [lia|].
  pose proof (trim_nonempty _ Htext) as Hne.
  apply truthy_iff in Htext, Hne. rewrite Htext, Hne. simpl.
  erewrite bind_returned by by apply getRow_quiet.
  erewrite bind_returned by reflexivity.
  erewrite bind_returned by by apply updateCell_quiet.
  rewrite cell_H_of_getRow. reflexivity.
Qed.

Lemma getComments_run w rowNumber :
  1 <= rowNumber -> faults w = [] ->
  getComments rowNumber w
  = (Returned
       (CommentList None (comments_of (value_at (sheet w) rowNumber 7))),
     w).
Proof.
  intros Hrow Hquiet. unfold getComments.
  destruct (Nat.eqb_spec rowNumber 0); [lia|].
  erewrite bind_returned by by apply getRow_quiet.
  by rewrite cell_H_of_getRow.
Qed.

Lemma deleteComment_run w rowNumber (commentIndex : Z) :
  1 <= rowNumber -> faults w = [] ->
  let comments := json_comments_of (value_at (sheet w) rowNumber 7) in
  deleteComment rowNumber (Some commentIndex) w
  = if (0 <=? commentIndex)%Z
       && (commentIndex <? Z.of_nat (length comments))%Z
    then
      (Returned (CommentList (Some "Deleted comment!")
                   (delete (Z.to_nat commentIndex) comments)),
       with_sheet
         (alter_row
            (set_nth 7 (JSON_stringify
                          (JArr (delete (Z.to_nat commentIndex) comments))))
            rowNumber (sheet w)) w)
    else (Returned (Status false "Invalid comment index"), w).
Proof.
  intros Hrow Hquiet comments. unfold deleteComment.
  destruct (Nat.eqb_spec rowNumber 0); [lia|].
  erewrite bind_returned by by apply getRow_quiet.
  rewrite cell_H_of_getRow. fold comments.
  destruct ((0 <=? commentIndex)%Z
            && (commentIndex <? Z.of_nat (length comments))%Z); [|done].
  erewrite bind_returned by by apply updateCell_quiet. reflexivity.
Qed.

(** X2. After [addComment rowNumber commentText] has returned,
    [getComments rowNumber] returns the list that [addComment] returned:
    the comments that the cell held, followed by the new one.  This holds
    when the service answers, the row number is at least 1, the trimmed
    text is not empty and [JSON.parse] reads back what [JSON.stringify]
    printed for that list.  [getComments] changes nothing. *)
Theorem getComments_after_addComment
    (w : world) (rowNumber : nat) (commentText : string)
    (Hrow : 1 <= rowNumber) (Htext : JS.trim commentText <> "")
    (Hquiet : faults w = []) :
  let comments :=
    comments_of (value_at (sheet w) rowNumber 7)
    ++ [comment_of (JS.trim commentText)
          (comment_timestamp (vnTime (clock w))) "User"] in
  reads_back comments ->
  exists w1,
    addComment rowNumber commentText w
    = (Returned (CommentList (Some "Đã thêm comment!") comments), w1) /\
    getComments rowNumber w1 = (Returned (CommentList None comments), w1).
Proof.
  intros comments Hback. eexists. split; [by apply addComment_run|].
  destruct (comments_of_reads_back comments Hback) as [Hread _].
  rewrite getComments_run by done. cbn [sheet with_sheet].
  rewrite value_at_written by done. fold comments. by rewrite Hread.
Qed.

(** X3. [deleteComment] undoes [addComment]: after a comment was added
    to a row that held the comments [before], deleting the comment at
    index [length before] returns [before], leaves the JSON text of
    [before] in cell H of the row, and every other cell of the sheet reads
    as it did before the comment was added.  The conditions are those of
    X2. *)
Theorem deleteComment_undoes_addComment
    (w : world) (rowNumber : nat) (commentText : string)
    (Hrow : 1 <= rowNumber) (Htext : JS.trim commentText <> "")
    (Hquiet : faults w = []) :
  let before := comments_of (value_at (sheet w) rowNumber 7) in
  let comments :=
    before ++ [comment_of (JS.trim commentText)
                 (comment_timestamp (vnTime (clock w))) "User"] in
  reads_back comments ->
  exists added w1 w2,
    addComment rowNumber commentText w = (Returned added, w1) /\
    deleteComment rowNumber (Some (Z.of_nat (length before))) w1
    = (Returned (CommentList (Some "Deleted comment!") before), w2) /\
    cell_at (sheet w2) rowNumber 7 = Some (JSON_stringify (JArr before)) /\
    (forall r c, 1 <= r -> (r, c) <> (rowNumber, 7) ->
       value_at (sheet w2) r c = value_at (sheet w) r c).
Proof.
  intros before comments Hback. do 3 eexists.
  split; [by apply addComment_run|].
  destruct (comments_of_reads_back comments Hback) as [_ Hread].
  assert (Hlen : length comments = S (length before)).
  { unfold comments. rewrite length_app. simpl. lia. }
  assert (Hdel : delete (length before) comments = before).
  { unfold comments. rewrite delete_take_drop.
    rewrite take_app_length. rewrite drop_app_ge by lia.
    replace (S (length before) - length before) with 1 by lia.
    simpl. by rewrite app_nil_r. }
  rewrite deleteComment_run by done. cbn [sheet with_sheet].
  rewrite value_at_written by done. fold before. fold comments.
  rewrite Hread, Hlen, Nat2Z.id, Hdel.
  destruct (Z.leb_spec 0 (Z.of_nat (length before))); [|lia].
  destruct (Z.ltb_spec (Z.of_nat (length before))
              (Z.of_nat (S (length before)))); [|lia].
  cbn [andb]. split; [reflexivity|]. cbn [sheet with_sheet]. split.
  - by apply write_cell_same.
  - intros r c Hr Hne. by rewrite !write_cell_other.
Qed.

(** X4. A note typed by hand is listed but cannot be deleted: when cell H
    of the row holds a non-empty text that is not bracketed,
    [getComments] returns it as one comment with time "Note cũ" and
    author "System", while [deleteComment] answers
    "Invalid comment index" for every index, 0 included, and changes
    nothing. *)
Theorem legacy_note_is_listed_but_cannot_be_deleted
    (w : world) (rowNumber : nat) (commentIndex : Z)
    (Hrow : 1 <= rowNumber) (Hquiet : faults w = []) :
  let note := value_at (sheet w) rowNumber 7 in
  note <> "" -> bracketed note = false ->
  getComments rowNumber w
  = (Returned (CommentList None [comment_of note "Note cũ" "System"]), w) /\
  deleteComment rowNumber (Some commentIndex) w
  = (Returned (Status false "Invalid comment index"), w).
Proof.
  intros note Hne Hplain. apply truthy_iff in Hne. split.
  - rewrite getComments_run by done. fold note.
    unfold comments_of. by rewrite Hne, Hplain.
  - rewrite deleteComment_run by done. fold note.
    unfold json_comments_of. rewrite Hne, Hplain.
    destruct (Z.leb_spec 0 commentIndex); [|done].
    destruct (Z.ltb_spec commentIndex (Z.of_nat (length (@nil json))));
      [simpl in *; lia|done].
Qed.

Lemma comment_timestamp_format t :
  wall_clock t -> comment_timestamp t = HH_mm_dd_MM_yyyy t.
Proof.
  intros (Hh & Hm & Hs & Hd & HM & Hy1 & Hy2).
  unfold comment_timestamp, HH_mm_dd_MM_yyyy.
  rewrite !pad2_two_digits by lia.
  by rewrite toString_four_digits.
Qed.

(** X5. The comment that [addComment] appends carries the trimmed text,
    the author "User" and, as its time, the string [HH:mm dd/MM/yyyy] of
    the wall-clock time of the call in Asia/Ho_Chi_Minh: two digits for
    hours, minutes, day and month, four for the year, and no seconds. *)
Theorem comments_are_stamped
    (w : world) (rowNumber : nat) (commentText : string)
    (Hrow : 1 <= rowNumber) (Htext : JS.trim commentText <> "")
    (Hquiet : faults w = []) (Hclock : wall_clock (vnTime (clock w))) :
  exists earlier w',
    addComment rowNumber commentText w
    = (Returned
         (CommentList (Some "Đã thêm comment!")
            (earlier ++ [comment_of (JS.trim commentText)
                           (HH_mm_dd_MM_yyyy (vnTime (clock w))) "User"])),
       w').
Proof.
  do 2 eexists. rewrite addComment_run by done.
  by rewrite comment_timestamp_format.
Qed.

End CommentRuns.

(** *** Rows: updates and deletions *)

Lemma lookup_assign i u newRow c :
  i < length newRow ->
  assign i u newRow !! c
  = if decide (c = i) then
      match u with Some v => Some v | None => newRow !! c end
    else newRow !! c.
Proof.
  intros Hi. unfold assign. destruct u as [v|].
  - destruct (decide (c = i)) as [->|Hne].
    + by apply list_lookup_insert_eq.
    + by apply list_lookup_insert_ne.
  - by destruct (decide (c = i)).
Qed.

Lemma pad15_length newRow : 15 <= length (pad15 newRow).
Proof. unfold pad15. rewrite length_app, length_replicate. lia. Qed.

Lemma pad15_lookup old c :
  c < 14 -> default "" (pad15 (take 14 old) !! c) = default "" (old !! c).
Proof.
  intros Hc. unfold pad15.
  destruct (decide (c < length old)) as [Hlt|Hge].
  - rewrite lookup_app_l by (rewrite length_take; lia).
    by rewrite lookup_take_lt.
  - rewrite lookup_app_r by (rewrite length_take; lia).
    rewrite (lookup_ge_None_2 old) by lia.
    destruct (replicate _ _ !! _) eqn:E; [|done].
    by apply lookup_replicate in E as [-> _].
Qed.

Lemma merged_row_length now old u :
  length (merged_row now (take 14 old) u) = 15.
Proof.
  unfold merged_row. rewrite length_insert, !assign_length.
  unfold pad15. rewrite length_app, length_replicate, length_take. lia.
Qed.

Lemma merged_row_lookup now old u c :
  c < 15 ->
  default "" (merged_row now (take 14 old) u !! c)
  = if decide (c = 14) then timestamp (vnTime now)
    else default (default "" (old !! c)) (named_update u c).
Proof.
  intros Hc. pose proof (pad15_length (take 14 old)) as Hlen.
  unfold merged_row. destruct (decide (c = 14)) as [->|Hne].
  - rewrite list_lookup_insert_eq by (rewrite !assign_length; lia). done.
  - rewrite list_lookup_insert_ne by done.
    rewrite !lookup_assign by (rewrite ?assign_length; lia).
    rewrite <- (pad15_lookup old c) by lia.
    destruct u as [u1 u2 u3 u4 u5 u6 u7 u9 u11]; cbn [u_deadline u_host
      u_shop u_link u_stage u_tags u_devNote u_note u_message].
    repeat (destruct (decide (c = _)) as [->|?];
            [simpl;
             match goal with
             | |- context [match ?o with Some _ => _ | None => _ end] =>
                 by destruct o
             end|]).
    do 15 (destruct c as [|c]; [first [done | lia]|]). lia.
Qed.

(** X6. [updateFeedback rowNumber updates] sends fifteen values for the
    range A to N of the row.  Where the service refuses that request,
    [updateFeedback] throws the error of the service, nothing of the
    sheet has changed and the console got the line of [updateRow].
    Where the service writes what it is sent, [updateFeedback] changes
    the columns it names and no other: afterwards column O of the row
    holds the timestamp of the call; each of the columns B to H, J and L
    holds the property of [updates] that goes there (deadline, host,
    shop, link, stage, tags, devNote, note, message) when that property
    is present, and reads as before when it is absent; every other column
    of the row, among them ID (A) and Time (K), and every other row read
    as before. *)
Theorem updateFeedback_changes_named_columns `{Service}
    (w : world) (rowNumber : nat) (u : updates)
    (Hrow : 1 <= rowNumber) (Hquiet : faults w = []) :
  match too_wide rowNumber with
  | Some e =>
      exists w',
        updateFeedback rowNumber (Some u) w = (Thrown e, w') /\
        sheet w' = sheet w /\
        console w'
        = console w ++ [("SheetsClient: updateRow Error: " ++ e)%string]
  | None =>
      exists w',
        updateFeedback rowNumber (Some u) w
        = (Returned (Status true "Cập nhật thành công!"), w') /\
        (forall c,
           value_at (sheet w') rowNumber c
           = if decide (c = 14) then timestamp (vnTime (clock w))
             else default (value_at (sheet w) rowNumber c)
                    (named_update u c)) /\
        (forall r c, 1 <= r -> r <> rowNumber ->
           value_at (sheet w') r c = value_at (sheet w) r c)
  end.
Proof.
  pose proof (updateFeedback_run w rowNumber u Hrow Hquiet) as Hrun.
  destruct (too_wide rowNumber) as [e|].
  { eexists. split; [exact Hrun|]. by split. }
  eexists. split; [exact Hrun|]. split.
  - intros c. cbn [sheet with_sheet]. unfold value_at, cell_at.
    rewrite alter_row_same by done.
    set (old := default [] (sheet w !! (rowNumber - 1))).
    assert (Hold : default "" (sheet w !! (rowNumber - 1)
                               ≫= (fun cells => cells !! c))
                   = default "" (old !! c)).
    { unfold old. by destruct (sheet w !! (rowNumber - 1)). }
    rewrite Hold. cbn [mbind option_bind]. unfold overwrite.
    pose proof (merged_row_length (clock w) old u) as Hlen.
    destruct (decide (c < 15)) as [Hlt|Hge].
    + rewrite lookup_app_l by lia. by apply merged_row_lookup.
    + rewrite lookup_app_r by lia. rewrite Hlen, lookup_drop.
      replace (15 + (c - 15)) with c by lia.
      destruct (decide (c = 14)); [lia|].
      do 15 (destruct c as [|c]; [lia|]). done.
  - intros r c Hr Hne. cbn [sheet with_sheet]. unfold value_at, cell_at.
    pose proof (alter_row_other
      (overwrite (merged_row (clock w)
                    (take 14 (default [] (sheet w !! (rowNumber - 1)))) u))
      rowNumber r (sheet w)) as Ho.
    assert (r - 1 <> rowNumber - 1) as Hidx by lia.
    specialize (Ho Hidx).
    destruct (alter_row _ _ _ !! _) as [x|], (sheet w !! (r - 1)) as [y|];
      simpl in *; subst; done.
Qed.

Lemma rows_kept_below n rowNumbers data :
  Forall (fun r => r < n) rowNumbers -> rows_kept n rowNumbers data = data.
Proof.
  revert n. induction data as [|cells data IH]; intros n Hlt; simpl; [done|].
  destruct (decide (n ∈ rowNumbers)) as [Hin|_].
  - rewrite Forall_forall in Hlt. apply Hlt in Hin. lia.
  - f_equal. apply IH. eapply Forall_impl; [exact Hlt|]. simpl. lia.
Qed.

(** Deleting the highest of the rows first leaves the others where they
    are. *)
Lemma rows_kept_highest n r rowNumbers data :
  n <= r -> Forall (fun x => x < r) rowNumbers ->
  rows_kept n (r :: rowNumbers) data
  = rows_kept n rowNumbers (delete (r - n) data).
Proof.
  revert n. induction data as [|cells data IH]; intros n Hn Hlt; [done|].
  destruct (decide (n = r)) as [->|Hne].
  - replace (r - r) with 0 by lia. simpl.
    destruct (decide (r ∈ r :: rowNumbers)) as [_|Hout];
      [|exfalso; apply Hout; left].
    rewrite (rows_kept_below r) by done.
    apply rows_kept_below. constructor; [lia|].
    eapply Forall_impl; [exact Hlt|]. simpl. lia.
  - replace (r - n) with (S (r - S n)) by lia. simpl.
    rewrite <- IH by (done || lia).
    destruct (decide (n ∈ r :: rowNumbers)) as [Hin|Hout],
             (decide (n ∈ rowNumbers)) as [Hin'|Hout']; try done.
    + apply elem_of_cons in Hin as [?|?]; done.
    + exfalso. apply Hout. by right.
Qed.

Lemma rows_kept_Permutation n l1 l2 data :
  l1 ≡ₚ l2 -> rows_kept n l1 data = rows_kept n l2 data.
Proof.
  intros Hp. revert n. induction data as [|cells data IH]; intros n; simpl;
    [done|].
  rewrite IH.
  destruct (decide (n ∈ l1)) as [H1|H1], (decide (n ∈ l2)) as [H2|H2];
    try done.
  - by rewrite Hp in H1.
  - by rewrite <- Hp in H2.
Qed.

Lemma delete_rows_descending rowNumbers w :
  faults w = [] ->
  Forall (fun r => 1 <= r) rowNumbers ->
  StronglySorted (fun a b => b < a) rowNumbers ->
  for_of rowNumbers (fun rowNumber => deleteRow rowNumber ;;; ret tt) w
  = (Returned tt, with_sheet (rows_kept 1 rowNumbers (sheet w)) w).
Proof.
  revert w. induction rowNumbers as [|r rowNumbers IH];
    intros w Hf Hpos Hsorted.
  - simpl. rewrite rows_kept_below by done. by destruct w.
  - apply Forall_cons in Hpos as [Hr Hpos].
    apply StronglySorted_inv in Hsorted as [Hsorted Hlt].
    assert (Hstep : (deleteRow r ;;; ret tt) w
      = (Returned tt,
         with_sheet (take (r - 1) (sheet w) ++ drop r (sheet w)) w)).
    { unfold bind. by rewrite deleteRow_quiet. }
    simpl. rewrite (bind_returned _ _ _ _ _ Hstep).
    rewrite IH by done. cbn [sheet with_sheet].
    rewrite rows_kept_highest by (done || lia).
    rewrite delete_take_drop. replace (S (r - 1)) with r by lia.
    reflexivity.
Qed.

Lemma sort_descending_strict rowNumbers :
  NoDup rowNumbers ->
  StronglySorted (fun a b => b < a) (sort_descending rowNumbers).
Proof.
  intros Hnd. unfold sort_descending.
  assert (Hs : StronglySorted (flip Nat.le)
                 (merge_sort (flip Nat.le) rowNumbers)).
  { apply StronglySorted_merge_sort.
    - intros x y z. unfold flip. lia.
    - intros x y. unfold flip. lia. }
  assert (Hnd' : NoDup (merge_sort (flip Nat.le) rowNumbers)).
  { by rewrite merge_sort_Permutation. }
  induction Hs as [|x l Hs IH Hall]; [constructor|].
  apply NoDup_cons in Hnd' as [Hx Hnd'].
  constructor; [by apply IH|].
  apply Forall_forall. intros y Hy.
  rewrite Forall_forall in Hall. specialize (Hall y Hy). unfold flip in Hall.
  assert (y <> x) by (intros ->; done). lia.
Qed.

(** X7. [bulkDelete rowNumbers] removes the rows with the given numbers
    and no others: when the service answers and the numbers are distinct
    and at least 1, the sheet afterwards holds, in their order, the rows
    whose number before the call was not in the list, whatever the order
    of the list; the answer counts the numbers given. *)
Theorem bulkDelete_removes_listed_rows
    (w : world) (rowNumbers : list nat)
    (Hquiet : faults w = []) (Hsome : rowNumbers <> [])
    (Hdistinct : NoDup rowNumbers)
    (Hrows : Forall (fun r => 1 <= r) rowNumbers) :
  bulkDelete (Some rowNumbers) w
  = (Returned
       (Status true ("Đã xóa " ++ JS.toString (length rowNumbers) ++ " mục")),
     with_sheet (rows_kept 1 rowNumbers (sheet w)) w).
Proof.
  unfold bulkDelete. destruct rowNumbers as [|r rest] eqn:Hl; [done|].
  rewrite <- Hl in *. clear Hl.
  erewrite bind_returned.
  2: { apply delete_rows_descending; [done| |by apply sort_descending_strict].
       unfold sort_descending. by rewrite merge_sort_Permutation. }
  unfold ret. do 2 f_equal. apply rows_kept_Permutation.
  unfold sort_descending. apply merge_sort_Permutation.
Qed.

(** A number given twice takes the row below with it. *)
Example bulkDelete_repeated_row_number :
  exists w',
    bulkDelete (Some [3; 3]) (Samples.world_of Samples.board)
    = (Returned (Status true "Đã xóa 2 mục"), w') /\
    sheet w' <> rows_kept 1 [3; 3] Samples.board.
Proof.
  eexists. split; [vm_compute; reflexivity|]. vm_compute. discriminate.
Qed.

Lemma rows_of_all_data data :
  snd (all_data data)
  = filter (fun r => Is_true (kept r)) (imap to_row (drop 2 data)).
Proof.
  unfold all_data. destruct (Nat.ltb_spec (length data) 3) as [Hlt|Hge];
    [|done].
  simpl. rewrite drop_ge by lia. done.
Qed.

Lemma cell_set_nth c v cells i :
  cell (set_nth c v cells) i = if decide (i = c) then v else cell cells i.
Proof.
  unfold cell. rewrite !or_else_empty.
  destruct (decide (i = c)) as [->|Hne].
  - by rewrite set_nth_same.
  - by apply set_nth_other.
Qed.

Lemma filter_none {A} (P : A -> Prop) `{forall x, Decision (P x)}
    (l : list A) :
  (forall x, x ∈ l -> ~ P x) -> filter P l = [].
Proof.
  induction l as [|x l IH]; intros Hnone; [done|].
  rewrite filter_cons. destruct (decide (P x)) as [HP|_].
  - exfalso. apply (Hnone x); [left|done].
  - apply IH. intros y Hy. apply Hnone. by right.
Qed.

Lemma filter_kept_fmap (h : row -> row) (rows : list row) :
  (forall x, kept (h x) = kept x) ->
  filter (fun x => Is_true (kept x)) (map h rows)
  = map h (filter (fun x => Is_true (kept x)) rows).
Proof.
  intros Hh. induction rows as [|x rows IH]; [done|]. simpl.
  rewrite !filter_cons, IH, Hh. by destruct (decide _).
Qed.

(** What the rows read when one row of the sheet is rewritten by [f],
    which [to_row] sees as [h]. *)
Lemma rows_after_alter (f : list string -> list string) (h : row -> row)
    (r : nat) (data : list (list string)) :
  1 <= r ->
  (forall index cells, to_row index (f cells) = h (to_row index cells)) ->
  (forall x, kept (h x) = kept x) ->
  snd (all_data (alter_row f r data))
  = map (fun x => if Nat.eqb (rowNumber x) r then h x else x)
      (snd (all_data data)).
Proof.
  intros Hr Hf Hkept. rewrite !rows_of_all_data.
  set (g := fun x => if Nat.eqb (rowNumber x) r then h x else x).
  assert (Hg : forall x, kept (g x) = kept x).
  { intros x. unfold g. by destruct (Nat.eqb _ _). }
  rewrite <- (filter_kept_fmap g) by done.
  unfold alter_row.
  set (padded := data ++ replicate (r - length data) []).
  assert (Hpadded :
    filter (fun x => Is_true (kept x)) (map g (imap to_row (drop 2 data)))
    = filter (fun x => Is_true (kept x))
        (map g (imap to_row (drop 2 padded)))).
  { unfold padded. rewrite drop_app, imap_app, fmap_app, filter_app.
    rewrite <- (app_nil_r (filter _ (map g (imap to_row (drop 2 data))))) at 1.
    f_equal. symmetry. apply filter_none. intros x Hx.
    apply list_elem_of_fmap in Hx as (y & -> & Hy).
    apply elem_of_lookup_imap in Hy as (j & cells & -> & Hcells).
    rewrite drop_replicate in Hcells.
    apply lookup_replicate in Hcells as [-> _].
    rewrite Hg. by vm_compute. }
  rewrite Hpadded. f_equal.
  apply list_eq. intros i.
  rewrite list_lookup_fmap, !list_lookup_imap, !lookup_drop.
  destruct (decide (2 + i = r - 1)) as [Heq|Hne].
  - rewrite Heq, list_lookup_alter_eq.
    destruct (padded !! (r - 1)) as [cells|]; simpl; [|done].
    rewrite Hf. unfold g. simpl.
    replace (i + 3 =? r)%nat with true by (symmetry; apply Nat.eqb_eq; lia).
    done.
  - rewrite list_lookup_alter_ne by done.
    destruct (padded !! (2 + i)) as [cells|]; simpl; [|done].
    unfold g. simpl.
    replace (i + 3 =? r)%nat with false by (symmetry; apply Nat.eqb_neq; lia).
    done.
Qed.

Lemma to_row_stage_written index newStage cells :
  to_row index (set_nth 4 newStage cells)
  = with_stage newStage (to_row index cells).
Proof. unfold to_row, with_stage. simpl. by rewrite !cell_set_nth. Qed.

Lemma to_row_unread_written index c v cells :
  14 <= c -> to_row index (set_nth c v cells) = to_row index cells.
Proof.
  intros Hc. unfold to_row. rewrite !cell_set_nth.
  repeat (destruct (decide (_ = c)); [lia|]). done.
Qed.

Lemma moved_up_app n rows1 rows2 :
  moved_up n (rows1 ++ rows2) = moved_up n rows1 ++ moved_up n rows2.
Proof. unfold moved_up. by rewrite filter_app, fmap_app. Qed.

(** Rows above the deleted one stay as they are. *)
Lemma moved_up_above n rows :
  Forall (fun r => rowNumber r < n) rows -> moved_up n rows = rows.
Proof.
  induction rows as [|r rows IH]; intros Hall; [done|].
  apply Forall_cons in Hall as [Hr Hall]. unfold moved_up in *.
  rewrite filter_cons. destruct (decide (rowNumber r <> n)) as [_|Heq]; [|lia].
  simpl. rewrite IH by done.
  destruct (Nat.ltb_spec n (rowNumber r)); [lia|done].
Qed.

(** Rows below the deleted one move up. *)
Lemma moved_up_below n rows :
  Forall (fun r => n < rowNumber r) rows ->
  moved_up n rows = map (fun r => with_rowNumber (rowNumber r - 1) r) rows.
Proof.
  induction rows as [|r rows IH]; intros Hall; [done|].
  apply Forall_cons in Hall as [Hr Hall]. unfold moved_up in *.
  rewrite filter_cons. destruct (decide (rowNumber r <> n)) as [_|Heq]; [|lia].
  simpl. rewrite IH by done.
  destruct (Nat.ltb_spec n (rowNumber r)); [done|lia].
Qed.

Lemma kept_rows_bounded (raws : list (list string)) :
  Forall (fun r => rowNumber r < 3 + length raws)
    (filter (fun r => Is_true (kept r)) (imap to_row raws)).
Proof.
  apply Forall_forall. intros r Hr.
  apply list_elem_of_filter in Hr as [_ Hr].
  apply elem_of_lookup_imap in Hr as (i & cells & -> & Hi).
  apply lookup_lt_Some in Hi. simpl. lia.
Qed.

Lemma rows_shift (k : nat) (raws : list (list string)) :
  moved_up (k + 3)
    (filter (fun r => Is_true (kept r))
       (imap (fun n => to_row (k + S n)) raws))
  = filter (fun r => Is_true (kept r)) (imap (fun n => to_row (k + n)) raws).
Proof.
  rewrite moved_up_below.
  - rewrite <- filter_kept_fmap by done. rewrite fmap_imap. f_equal.
    apply imap_ext. intros n cells _. unfold with_rowNumber, to_row. simpl.
    f_equal. lia.
  - apply Forall_forall. intros r Hr.
    apply list_elem_of_filter in Hr as [_ Hr].
    apply elem_of_lookup_imap in Hr as (n & cells & -> & _). simpl. lia.
Qed.

Lemma rows_after_delete (k : nat) (raws : list (list string)) :
  filter (fun r => Is_true (kept r)) (imap to_row (delete k raws))
  = moved_up (k + 3) (filter (fun r => Is_true (kept r)) (imap to_row raws)).
Proof.
  destruct (decide (k < length raws)) as [Hlt|Hge].
  - destruct (lookup_lt_is_Some_2 raws k Hlt) as [cells Hcells].
    rewrite <- (take_drop_middle raws k cells Hcells) at 2.
    rewrite delete_take_drop.
    assert (Hlen : length (take k raws) = k) by (rewrite length_take; lia).
    rewrite !imap_app, !filter_app, !moved_up_app, Hlen. simpl.
    rewrite filter_cons. f_equal.
    + symmetry. apply moved_up_above.
      eapply Forall_impl; [apply (kept_rows_bounded (take k raws))|].
      simpl. intros r. lia.
    + assert (Hgone : moved_up (k + 3)
        (if decide (Is_true (kept (to_row (k + 0) cells)))
         then [to_row (k + 0) cells] else []) = []).
      { destruct (decide _); [|done]. unfold moved_up.
        rewrite filter_cons. simpl.
        destruct (decide (k + 0 + 3 <> k + 3)); [lia|done]. }
      destruct (decide (Is_true (kept (to_row (k + 0) cells)))).
      * change (?x :: ?l) with ([x] ++ l). rewrite moved_up_app, Hgone. simpl.
        symmetry. apply (rows_shift k).
      * symmetry. apply (rows_shift k).
  - rewrite delete_take_drop, take_ge, drop_ge, app_nil_r by lia. symmetry.
    apply moved_up_above.
    eapply Forall_impl; [apply (kept_rows_bounded raws)|].
    simpl. intros r. lia.
Qed.

Lemma drop_delete {A} (n k : nat) (l : list A) :
  drop n (delete (n + k) l) = delete k (drop n l).
Proof.
  revert l. induction n as [|n IH]; intros l; [done|].
  destruct l as [|x l]; simpl; [by destruct k|]. apply IH.
Qed.

(** X8. Deleting a row renumbers the rows below it: when [getAllData]
    returned [rows], then after [deleteFeedback rowNumber] on a data row
    (row 3 or below) it returns [rows] without the row of that number,
    the rows that had a greater number now carrying that number minus
    one, the others as they were. *)
Theorem deleteFeedback_moves_rows_up
    (w : world) (rowNumber : nat)
    (headers : list string) (rows : list row)
    (Hrow : 3 <= rowNumber) (Hquiet : faults w = [])
    (Hbefore : getAllData w = (Returned (headers, rows), w)) :
  exists w1 headers1,
    deleteFeedback rowNumber w
    = (Returned (Status true "Đã xóa feedback!"), w1) /\
    getAllData w1 = (Returned (headers1, moved_up rowNumber rows), w1).
Proof.
  rewrite getAllData_run in Hbefore by done.
  assert (Hrows : rows = snd (all_data (sheet w))).
  { inversion Hbefore as [Hdata]. by rewrite Hdata. }
  do 2 eexists. split.
  - unfold deleteFeedback.
    destruct (Nat.eqb_spec rowNumber 0); [lia|].
    erewrite bind_returned by (apply deleteRow_quiet; [lia|done]).
    reflexivity.
  - rewrite getAllData_run by done. cbn [sheet with_sheet].
    rewrite (surjective_pairing (all_data _)).
    apply (f_equal (fun data => (Returned data, _))).
    apply (f_equal (pair _)).
    rewrite Hrows, !rows_of_all_data.
    replace (take (rowNumber - 1) (sheet w) ++ drop rowNumber (sheet w))
      with (delete (2 + (rowNumber - 3)) (sheet w)).
    2: { rewrite delete_take_drop. do 2 f_equal; lia. }
    rewrite drop_delete, rows_after_delete. f_equal. lia.
Qed.

(** X9. In the variant that lays the sheet out as [getAllData] reads it,
    the stage that [updateStage] writes is the stage that is read back:
    when [getAllData] returned [rows], then after
    [updateStage rowNumber newStage] it returns the same rows in the same
    order, except that the row of that number, if there is one, has the
    stage [newStage]; nothing else that [getAllData] returns of a row
    changes. *)
Theorem updateStage_is_read_back
    (w : world) (rowNumber : nat) (newStage : string)
    (headers : list string) (rows : list row)
    (Hrow : 1 <= rowNumber) (Hquiet : faults w = [])
    (Hbefore : getAllData w = (Returned (headers, rows), w)) :
  exists w1 headers1,
    ServerV2.updateStage rowNumber newStage w
    = (Returned (Status true
                   ("Đã cập nhật Stage thành " ++ JS.dquote ++ newStage
                    ++ JS.dquote)), w1) /\
    getAllData w1
    = (Returned (headers1, restaged rowNumber newStage rows), w1).
Proof.
  rewrite getAllData_run in Hbefore by done.
  assert (Hrows : rows = snd (all_data (sheet w))).
  { inversion Hbefore as [Hdata]. by rewrite Hdata. }
  do 2 eexists. split.
  - unfold ServerV2.updateStage.
    erewrite bind_returned by reflexivity.
    erewrite bind_returned by by apply updateCell_quiet.
    erewrite bind_returned by by apply updateCell_quiet.
    reflexivity.
  - rewrite getAllData_run by done. cbn [sheet with_sheet].
    rewrite (surjective_pairing (all_data _)). do 2 f_equal.
    change (column "O") with 14. change (column "E") with 4.
    rewrite (rows_after_alter _ (fun x => x)); [| done | | done].
    2: { intros index cells. by apply to_row_unread_written. }
    rewrite (rows_after_alter _ (with_stage newStage)); [| done | | done].
    2: { intros index cells. apply to_row_stage_written. }
    rewrite <- Hrows. unfold restaged. rewrite <- list_fmap_compose.
    apply (f_equal (pair _)).
    apply list_fmap_ext. intros i x _. simpl.
    by destruct (Nat.eqb _ _).
Qed.

(** *** The dashboard *)

Lemma occurrences_disjoint (f : row -> string) (a b : string) rows :
  a <> b -> occurrences f a rows + occurrences f b rows <= length rows.
Proof.
  intros Hab. unfold occurrences.
  induction rows as [|r rows IH]; simpl; [done|].
  rewrite !filter_cons.
  destruct (decide (f r = a)), (decide (f r = b)); simpl; try lia.
  congruence.
Qed.

(** X10. The cards of the dashboard agree with its chart by stage: in
    the answer of [getDashboardData], [stats.pending] is the count that
    [stats.byStage] holds for "Feedback" and [stats.done] the count it
    holds for "Done", 0 when the stage is not a key; together they do
    not exceed the number of rows returned. *)
Theorem dashboard_cards_match_stages (w : world) (Hquiet : faults w = []) :
  exists d,
    getDashboardData w = (Returned (DashboardData d), w) /\
    pending d = default 0 (byStage d !! "Feedback") /\
    done d = default 0 (byStage d !! "Done") /\
    pending d + done d <= length (feedback d).
Proof.
  eexists. split; [by apply getDashboardData_run|].
  set (rows := snd (all_data (sheet w))).
  pose proof (fold_count_row rows
                (mkTally (mkCounter ∅ ∅) (mkCounter ∅ ∅) 0 0)) as Hfold.
  simpl in Hfold. destruct Hfold as (_ & Hs & Hpend & Hdone).
  destruct (counted_spec stage rows (mkCounter ∅ ∅)) as (_ & Hn & _).
  unfold dashboard_of. simpl. fold rows.
  rewrite Hpend, Hdone, Hs, !Hn. simpl. rewrite !lookup_empty. simpl.
  split; [done|]. split; [done|].
  by apply occurrences_disjoint.
Qed.

(** *** Requests *)

Section RouteRuns.

Context `{JSON} `{Guides} `{Telegram} `{Service}.

Lemma post_switch_rejects b e w :
  rejected b e -> post_switch b w = (Thrown e, w).
Proof.
  unfold post_switch.
  destruct 1 as [Ha Hf|a Ha Hin Hr|a Ha Hin Hr|r rs Ha Hr Hs|Ha Hr Ht|Ha Hr Hi];
    rewrite Ha.
  - simpl. by rewrite Hf.
  - repeat (apply elem_of_cons in Hin as [->|Hin]);
      [..|by apply elem_of_nil in Hin]; simpl.
    + unfold updateFeedback. by rewrite Hr.
    + unfold deleteFeedback. by rewrite Hr.
    + unfold addComment. by rewrite Hr.
    + unfold getComments. by rewrite Hr.
    + unfold deleteComment. by rewrite Hr.
  - repeat (apply elem_of_cons in Hin as [->|Hin]);
      [..|by apply elem_of_nil in Hin]; simpl.
    + unfold bulkUpdateStage. by destruct Hr as [->| ->].
    + unfold bulkDelete. by destruct Hr as [->| ->].
  - simpl. unfold bulkUpdateStage. by rewrite Hr, Hs.
  - simpl. unfold addComment.
    destruct (Nat.eqb_spec (Body.rowNumber b) 0); [done|].
    rewrite Ht. simpl. by rewrite orb_true_r.
  - simpl. unfold deleteComment.
    destruct (Nat.eqb_spec (Body.rowNumber b) 0); [done|].
    by rewrite Hi.
Qed.

(** X11. A request to [POST /api/exec] that lacks what its action needs
    is refused before the spreadsheet is called: no feedback for
    [createFeedback]; no row number for [updateFeedback],
    [deleteFeedback], [addComment], [getComments] and [deleteComment];
    no or an empty list of row numbers for [bulkUpdateStage] and
    [bulkDelete]; no new stage for [bulkUpdateStage]; a blank text for
    [addComment]; no index for [deleteComment].  The answer is status 200
    with [{ success: false, message }], the message being that of the
    error; the console gets "API Error: <message>"; no remote call is
    made and the sheet is not touched. *)
Theorem invalid_requests_are_refused_unsent
    (req : request) (w : world) (e : string)
    (Hinvalid : rejected (body req) e) :
  post_exec req w
  = (Returned (json_response (Status false e)),
     with_line ("API Error: " ++ e) w).
Proof.
  unfold post_exec, try_catch, post_try.
  by rewrite (bind_thrown _ _ _ _ _ (post_switch_rejects _ _ w Hinvalid)).
Qed.

Lemma harmless_api_catch e : harmless (api_catch e).
Proof.
  apply harmless_bind; [apply harmless_console_log|].
  intros _. apply harmless_ret.
Qed.

Lemma harmless_api_key_middleware env req :
  harmless (api_key_middleware env req).
Proof.
  unfold api_key_middleware. destruct (negb _).
  - apply harmless_bind; [apply harmless_console_log|].
    intros _. apply harmless_ret.
  - destruct (negb _); apply harmless_ret.
Qed.

Section Get.

Hypothesis getGuidesData_reads_only : reads_only getGuidesData.
Hypothesis getHistory_reads_only : reads_only getHistory.
Hypothesis getFile_reads_only :
  forall botToken fileId, reads_only (getFile botToken fileId).

Lemma harmless_get_exec req : harmless (get_exec req).
Proof.
  apply harmless_try_catch; [|apply harmless_api_catch].
  apply reads_only_bind; [|intros a; apply reads_only_ret].
  unfold get_switch.
  repeat (destruct (is_case _ _);
          [first [apply getDashboardData_reads_only
                 | apply getGuidesData_reads_only
                 | apply getHistory_reads_only]|]).
  apply reads_only_ret.
Qed.

Lemma harmless_telegram_image botToken req :
  harmless (telegram_image botToken req).
Proof.
  unfold telegram_image.
  destruct (negb _); [apply harmless_ret|].
  destruct (negb _); [apply harmless_ret|].
  apply harmless_try_catch.
  - apply reads_only_bind; [apply getFile_reads_only|].
    intros data. destruct (negb _); [apply reads_only_ret|].
    destruct (file_path data); [apply reads_only_ret|apply reads_only_throw].
  - intros e. apply harmless_bind; [apply harmless_console_log|].
    intros _. apply harmless_ret.
Qed.

(** X12. A GET request never writes and is always answered: whatever
    the path, the query, the API key and the outcome of the remote
    calls, the application returns (it does not throw) and the sheet is
    as it was, provided that reading the guides, reading the history and
    asking Telegram for a file leave the sheet alone.  In particular the
    actions that write are not served on GET. *)
Theorem get_requests_only_read
    (env : process_env) (req : request) (w : world)
    (Hget : method req = GET) :
  exists answer w',
    app env req w = (Returned answer, w') /\ sheet w' = sheet w.
Proof.
  assert (Happ : harmless (app env req)); [|apply Happ].
  unfold app. apply harmless_bind.
  - destruct (under_api _);
      [apply harmless_api_key_middleware|apply harmless_ret].
  - intros [refusal|]; [apply harmless_ret|].
    unfold routes. rewrite Hget.
    destruct (at_route _ _).
    { apply harmless_bind; [apply harmless_get_exec|].
      intros a. apply harmless_ret. }
    destruct (at_route _ _); [|apply harmless_ret].
    apply harmless_bind; [apply harmless_telegram_image|].
    intros a. apply harmless_ret.
Qed.

End Get.

End RouteRuns.

(** *** The Telegram bot *)

Lemma addCommentToFeedback_run `{JSON} w rowNumber commentText :
  1 <= rowNumber -> faults w = [] ->
  let comments :=
    comments_of (value_at (sheet w) rowNumber 7)
    ++ [comment_of commentText (comment_timestamp (vnTime (clock w)))
          "Telegram"] in
  TelegramReply.addCommentToFeedback rowNumber commentText w
  = (Returned tt,
     with_sheet
       (alter_row (set_nth 7 (JSON_stringify (JArr comments))) rowNumber
          (sheet w)) w).
Proof.
  intros Hrow Hquiet comments. unfold TelegramReply.addCommentToFeedback.
  erewrite bind_returned by by apply getRow_quiet.
  erewrite bind_returned by reflexivity.
  erewrite bind_returned by by apply updateCell_quiet.
  rewrite cell_H_of_getRow. reflexivity.
Qed.

Section BotRuns.

Context `{JSON} `{Telegram} `{Storage}.

Variable env : process_env.

Lemma harmless_sendTelegramMessage chatId text :
  harmless (TelegramServer.sendTelegramMessage env chatId text).
Proof.
  unfold TelegramServer.sendTelegramMessage.
  destruct (negb _); [apply harmless_console_log|].
  intros w. unfold try_catch, bind, remote_call, deliver, console_log.
  destruct w as [s f c o k u]; simpl.
  destruct f as [|[e|] f]; simpl; eauto 10.
Qed.

Lemma harmless_notifyHostFeedbackCount host :
  harmless (TelegramServer.notifyHostFeedbackCount env host).
Proof.
  unfold TelegramServer.notifyHostFeedbackCount.
  destruct (negb _); [apply harmless_console_log|].
  apply harmless_try_catch; [|intros e; apply harmless_console_log].
  apply reads_only_bind; [apply getAllData_reads_only|].
  intros data. apply harmless_reads_only. destruct (Nat.ltb _ _).
  - apply harmless_sendTelegramMessage.
  - apply harmless_ret.
Qed.

Lemma send_then_ack chatId text :
  acknowledges
    (TelegramServer.sendTelegramMessage env chatId text ;;;
     ret (json_response Ack)).
Proof.
  intros w r w' Hrun.
  destruct (harmless_sendTelegramMessage chatId text w)
    as ([] & w2 & Hsend & Hs).
  rewrite (bind_returned _ _ _ _ _ Hsend) in Hrun.
  inversion Hrun; subst. split; [done|]. by intros a [= <-].
Qed.

Lemma list_feedbacks_acknowledges chatId userId text :
  acknowledges (TelegramServer.list_feedbacks env chatId userId text).
Proof.
  unfold TelegramServer.list_feedbacks.
  destruct (TelegramServer.lookup_host userId _) as [currentUserHost|];
    [|apply send_then_ack].
  intros w r w' Hrun. unfold bind at 1 in Hrun.
  destruct (getAllData w) as [[data|e] w1] eqn:Hread;
    apply getAllData_reads_only in Hread.
  - destruct (Nat.eqb _ _).
    + apply send_then_ack in Hrun as [Hs Hack]. split; [congruence|done].
    + match type of Hrun with
      | context [for_of ?xs ?body] =>
          destruct (harmless_for_of xs body
                      (fun fb => harmless_sendTelegramMessage chatId
                         (TelegramServer.feedback_message fb)) w1)
            as ([] & w2 & Hloop & Hs')
      end.
      rewrite (bind_returned _ _ _ _ _ Hloop) in Hrun.
      inversion Hrun; subst. split; [congruence|]. by intros a [= <-].
  - inversion Hrun; subst. split; [done|]. intros a. discriminate.
Qed.

(** The branch for a reply always answers: what its [try] block throws
    is caught, and sending the error does not throw. *)
Lemma reply_branch_returns chatId userId firstName text message rowNumber w :
  exists w',
    TelegramServer.reply_branch env chatId userId firstName text message
      rowNumber w
    = (Returned (json_response Ack), w').
Proof.
  unfold TelegramServer.reply_branch, bind, try_catch.
  destruct (TelegramServer.reply_try _ _ _ _ _ _ _ w) as [[[]|e] w1].
  - by eexists.
  - destruct (harmless_sendTelegramMessage chatId ("❌ Lỗi: " ++ e) w1)
      as ([] & w2 & Hsend & _).
    rewrite Hsend. by eexists.
Qed.

Lemma acknowledges_in_any_case P m :
  acknowledges m -> acknowledges_and_reads_if P m.
Proof.
  intros Hm w r w' Hrun. destruct (Hm w r w' Hrun). by split.
Qed.

Lemma replied_to_reply message rowNumber :
  TelegramServer.replied_to message = Some rowNumber ->
  TelegramServer.msg_reply_to_message message <> None.
Proof.
  unfold TelegramServer.replied_to.
  by destruct (TelegramServer.msg_reply_to_message message).
Qed.

Lemma webhook_try_acknowledges u :
  acknowledges_and_reads_if (plain u) (TelegramServer.webhook_try env u).
Proof.
  assert (Hack : acknowledges (ret (json_response Ack))).
  { intros w r w' [= <- <-]. split; [done|]. by intros a [= <-]. }
  assert (Hthrow : forall e, acknowledges (throw e)).
  { intros e w r w' [= <- <-]. split; [done|]. intros a. discriminate. }
  unfold TelegramServer.webhook_try.
  destruct (TelegramServer.update_message u) as [message|] eqn:Hmessage;
    [|by apply acknowledges_in_any_case].
  destruct (TelegramServer.msg_chat message) as [chat|],
           (TelegramServer.msg_from message) as [from|];
    try by apply acknowledges_in_any_case.
  repeat (match goal with
          | |- acknowledges_and_reads_if _ (if ?b then _ else _) =>
              destruct b
          end;
          [apply acknowledges_in_any_case;
           first [apply send_then_ack | apply list_feedbacks_acknowledges]|]).
  destruct (TelegramServer.replied_to message) as [rowNumber|] eqn:Hreply.
  - intros w r w' Hrun.
    match type of Hrun with
    | TelegramServer.reply_branch _ ?c ?i ?f ?t ?m ?n _ = _ =>
        destruct (reply_branch_returns c i f t m n w) as (w2 & Hreturns)
    end.
    rewrite Hreturns in Hrun. injection Hrun as <- <-. split.
    + intros Hplain. apply replied_to_reply in Hreply.
      by specialize (Hplain message Hmessage).
    + by intros a [= <-].
  - apply acknowledges_in_any_case.
    repeat (match goal with
            | |- acknowledges (if ?b then _ else _) => destruct b
            end; [apply send_then_ack|]).
    done.
Qed.

(** X13. The webhook always acknowledges: for every update, whatever
    the message, the environment and the outcome of the remote calls,
    the handler returns status 200 with [{ ok: true }] (it never throws,
    and never answers anything else); and for every update whose message
    is not a reply to another message it leaves the sheet as it was. *)
Theorem telegram_webhook_always_acknowledges
    (u : TelegramServer.update) (w : world) :
  exists w',
    TelegramServer.telegram_webhook env u w
    = (Returned (json_response Ack), w') /\
    (plain u -> sheet w' = sheet w).
Proof.
  unfold TelegramServer.telegram_webhook, try_catch.
  destruct (TelegramServer.webhook_try env u w) as [[a|e] w1] eqn:Hrun;
    apply webhook_try_acknowledges in Hrun as [Hs Hack].
  - exists w1. by rewrite (Hack a eq_refl).
  - eexists. split; [reflexivity|]. exact Hs.
Qed.

(** X14. A notification that fails does not fail the update: in the
    variant with the bot, when the first three remote calls of
    [updateStage] (reading the row, writing the stage, writing the
    timestamp) go through, it returns its success answer and the sheet
    holds the new stage and the timestamp in columns F and O of the row,
    whatever happens to the remote calls that the notification of the
    host makes afterwards. *)
Theorem updateStage_succeeds_without_notification
    (w : world) (rowNumber : nat) (newStage : string)
    (Hrow : 1 <= rowNumber) (Hcalm : calm 3 w) :
  exists w',
    TelegramServer.updateStage env rowNumber newStage w
    = (Returned (Status true
                   ("Đã cập nhật Stage thành " ++ JS.dquote ++ newStage
                    ++ JS.dquote)), w') /\
    sheet w'
    = stage_write newStage (timestamp (vnTime (clock w))) (sheet w) rowNumber.
Proof.
  apply calm_S in Hcalm as [Hok1 Hcalm].
  apply calm_S in Hcalm as [Hok2 Hcalm].
  apply calm_S in Hcalm as [Hok3 _].
  unfold TelegramServer.updateStage.
  erewrite bind_returned by by apply getRow_ok.
  erewrite bind_returned by reflexivity.
  erewrite bind_returned by by apply updateCell_ok.
  erewrite bind_returned by by apply updateCell_ok.
  match goal with
  | |- context [bind ?m ?k ?w1] =>
      assert (Hn : harmless m);
      [|destruct (Hn w1) as ([] & w2 & Hrun & Hs);
        rewrite (bind_returned m k _ _ _ Hrun)]
  end.
  { destruct (_ && _); [|apply harmless_ret].
    apply harmless_bind; [apply harmless_console_log|].
    intros _. apply harmless_notifyHostFeedbackCount. }
  exists w2. split; [reflexivity|]. rewrite Hs. reflexivity.
Qed.

Lemma sendTelegramMessage_quiet chatId text w :
  defined_truthy (TELEGRAM_BOT_TOKEN env) = true -> faults w = [] ->
  TelegramServer.sendTelegramMessage env chatId text w
  = (Returned tt, with_messages [mkTelegramMessage chatId text] w).
Proof.
  intros Htoken Hf. unfold TelegramServer.sendTelegramMessage.
  rewrite Htoken. simpl. unfold try_catch, bind.
  by rewrite remote_call_quiet.
Qed.

Lemma send_each_quiet {A} chatId (text : A -> string) xs w :
  defined_truthy (TELEGRAM_BOT_TOKEN env) = true -> faults w = [] ->
  for_of xs (fun x => TelegramServer.sendTelegramMessage env chatId (text x)) w
  = (Returned tt,
     with_messages (map (fun x => mkTelegramMessage chatId (text x)) xs) w).
Proof.
  intros Htoken. revert w. induction xs as [|x xs IH]; intros w Hf; simpl.
  - unfold ret, with_messages. rewrite app_nil_r. by destruct w.
  - erewrite bind_returned by by apply sendTelegramMessage_quiet.
    rewrite IH by done. unfold with_messages. simpl.
    by rewrite <- app_assoc.
Qed.

(** X15. The [//] command lists the open feedbacks of the sender: when
    the bot token is configured, the services answer and the sender is a
    registered user, whatever else the message carries (it may be a
    reply, with a caption, a document or photos), the webhook sends to
    the chat one message for each
    row that [getAllData] returns with the host of the sender and the
    stage "Feedback", in the order of the sheet, each the text of
    [feedback_message]; when there is no such row it sends the one
    message "✅ Không có feedback nào cho <host>".  It sends nothing
    else, answers [{ ok: true }] and changes nothing but the outbox. *)
Theorem list_command_sends_open_feedbacks
    (w : world) (chat : TelegramServer.chat) (from : TelegramServer.user)
    (text : option string) (host : string)
    (original : option TelegramServer.replied) (caption : option string)
    (document : option TelegramServer.document)
    (photo : option (list TelegramServer.photo_size))
    (Htoken : defined_truthy (TELEGRAM_BOT_TOKEN env) = true)
    (Hquiet : faults w = [])
    (Htext : JS.trim (JS.or_else text "") = "//")
    (Huser : TelegramServer.property (TelegramServer.user_id from)
               TelegramServer.TELEGRAM_ID_TO_HOST = Some host) :
  let chatId := TelegramServer.chat_id chat in
  let listed := open_feedbacks host (sheet w) in
  TelegramServer.telegram_webhook env
    (TelegramServer.mkUpdate
       (Some (TelegramServer.mkMessage (Some chat) (Some from) text
                original caption document photo))) w
  = (Returned (json_response Ack),
     with_messages
       (if Nat.eqb (length listed) 0 then
          [mkTelegramMessage chatId ("✅ Không có feedback nào cho " ++ host)]
        else
          map (fun fb => mkTelegramMessage chatId
                           (TelegramServer.feedback_message fb)) listed) w).
Proof.
  intros chatId listed.
  unfold TelegramServer.telegram_webhook, try_catch,
    TelegramServer.webhook_try.
  cbn [TelegramServer.update_message TelegramServer.msg_chat
       TelegramServer.msg_from TelegramServer.msg_text].
  rewrite Htext.
  change (String.eqb "//" "/myid") with false.
  change (String.eqb "//" "/groupid") with false.
  change (String.eqb "//" "//") with true.
  cbv iota. cbn [orb].
  unfold TelegramServer.list_feedbacks, TelegramServer.lookup_host.
  rewrite Huser.
  change (JS.startsWith "// " "//") with false. cbv iota.
  cbn [TelegramServer.is_host TelegramServer.host_text].
  erewrite bind_returned by by apply getAllData_run.
  fold (open_feedbacks host (sheet w)). fold listed. fold chatId.
  destruct (Nat.eqb (length listed) 0).
  - erewrite bind_returned by by apply sendTelegramMessage_quiet.
    reflexivity.
  - erewrite bind_returned
      by by apply (send_each_quiet chatId TelegramServer.feedback_message).
    reflexivity.
Qed.




Lemma try_catch_returned {A} (m : M A) handler w a w' :
  m w = (Returned a, w') -> try_catch m handler w = (Returned a, w').
Proof. intros Hm. unfold try_catch. by rewrite Hm. Qed.


(** X21. A reply that does not say "done" is stored as a comment: when
    the message replies to a message that names row [rowNumber], its
    text (or, without a text, its caption) is not one of the commands
    and does not start with "done", it has no document and no photo, and
    the services answer, the webhook adds to the comments of cell H of
    that row the comment with the text "[Telegram] <first name>: <text>",
    the time of the call and the author "Telegram", writes no other
    cell, sends nothing, writes nothing to the console and answers
    [{ ok: true }]. *)
Theorem comment_reply_is_stored
    (w : world) (chat : TelegramServer.chat) (from : TelegramServer.user)
    (text caption : option string) (original : TelegramServer.replied)
    (rowNumber : nat)
    (Hquiet : faults w = [])
    (Hrow : TelegramReply.replied_row
              (JS.or_else (TelegramServer.replied_text original) "")
            = Some rowNumber)
    (Hfirst : 1 <= rowNumber) :
  let trimmed := JS.trim (JS.or_else text "") in
  let replyText :=
    if JS.truthy trimmed then trimmed else JS.or_else caption "" in
  let firstName := JS.or_else (TelegramServer.first_name from) "User" in
  let comments :=
    comments_of (value_at (sheet w) rowNumber 7)
    ++ [comment_of ("[Telegram] " ++ firstName ++ ": " ++ replyText)
          (comment_timestamp (vnTime (clock w))) "Telegram"] in
  trimmed <> "/myid" -> trimmed <> "/groupid" -> trimmed <> "//" ->
  JS.startsWith "// " trimmed = false ->
  TelegramReply.says_done replyText = false ->
  exists w',
    TelegramServer.telegram_webhook env
      (TelegramServer.mkUpdate
         (Some (TelegramServer.mkMessage (Some chat) (Some from) text
                  (Some original) caption None None))) w
    = (Returned (json_response Ack), w') /\
    cell_at (sheet w') rowNumber 7 = Some (JSON_stringify (JArr comments)) /\
    (forall r c, 1 <= r -> (r, c) <> (rowNumber, 7) ->
       value_at (sheet w') r c = value_at (sheet w) r c) /\
    outbox w' = outbox w /\ console w' = console w.
Proof.
  intros trimmed replyText firstName comments Hmyid Hgroupid Hlist Hhost
    Hplain.
  apply String.eqb_neq in Hmyid, Hgroupid, Hlist.
  eexists. split; [|split; [|split]].
  - unfold TelegramServer.telegram_webhook, TelegramServer.webhook_try.
    cbn [TelegramServer.update_message TelegramServer.msg_chat
         TelegramServer.msg_from TelegramServer.msg_text].
    fold trimmed. rewrite Hmyid, Hgroupid, Hlist, Hhost. cbn [orb].
    unfold TelegramServer.replied_to.
    cbn [TelegramServer.msg_reply_to_message]. rewrite Hrow.
    apply try_catch_returned.
    unfold TelegramServer.reply_branch.
    erewrite bind_returned; [reflexivity|].
    apply try_catch_returned.
    unfold TelegramServer.reply_try.
    cbn [TelegramServer.msg_caption].
    fold replyText. rewrite Hplain.
    unfold TelegramServer.picture.
    cbn [TelegramServer.msg_document TelegramServer.msg_photo].
    erewrite bind_returned by reflexivity.
    fold firstName.
    by apply addCommentToFeedback_run.
  - simpl. by apply write_cell_same.
  - intros r c Hr Hne. simpl. by apply write_cell_other.
  - by split.
Qed.

End BotRuns.

Lemma append_assoc (a b c : string) :
  ((a ++ b) ++ c = a ++ b ++ c)%string.
Proof.
  induction a as [|x a IH]; [done|].
  change (String x ((a ++ b) ++ c) = String x (a ++ b ++ c))%string.
  by rewrite IH.
Qed.

Lemma digits_of_string_of_uint d rest :
  TelegramReply.digits_of (NilEmpty.string_of_uint d ++ JS.nl ++ rest)
  = NilEmpty.string_of_uint d.
Proof. induction d; simpl; by rewrite ?IHd. Qed.

Lemma toString_digits n :
  JS.toString n = NilEmpty.string_of_uint (Nat.to_uint n) /\
  JS.toString n <> "".
Proof.
  unfold JS.toString, NilZero.string_of_uint.
  assert (Hnil : Nat.to_uint n <> Decimal.Nil).
  { rewrite <- (DecimalNat.Unsigned.of_to n) at 1.
    rewrite DecimalNat.Unsigned.to_of. apply DecimalFacts.unorm_nonnil. }
  destruct (Nat.to_uint n); done.
Qed.

Lemma parseInt_toString n : TelegramReply.parseInt (JS.toString n) = n.
Proof.
  destruct (toString_digits n) as [-> _]. unfold TelegramReply.parseInt.
  rewrite NilEmpty.usu. apply DecimalNat.Unsigned.of_to.
Qed.

(** X16. A reply finds the row it is about: every message that the [//]
    command sends for a feedback starts with the line
    "• ID: #<rowNumber>", and from any text that starts with that line
    the webhook reads that row number back ([match(/#(\d+)/)] and
    [parseInt]), whatever the shop, the link and the note that
    follow. *)
Theorem replied_row_of_listed_feedback (fb : row) :
  (exists rest,
     TelegramServer.feedback_message fb
     = ("• ID: #" ++ JS.toString (rowNumber fb) ++ JS.nl ++ rest)%string) /\
  (forall rest,
     TelegramReply.replied_row
       ("• ID: #" ++ JS.toString (rowNumber fb) ++ JS.nl ++ rest)%string
     = Some (rowNumber fb)).
Proof.
  split.
  - unfold TelegramServer.feedback_message.
    destruct (JS.truthy (JS.or_else _ _)); eexists; simpl;
      rewrite ?append_assoc; simpl; reflexivity.
  - intros rest. unfold TelegramReply.replied_row. simpl.
    change (String.append EmptyString ?s) with s.
    destruct (toString_digits (rowNumber fb)) as [Hd Hne].
    rewrite Hd at 1. rewrite digits_of_string_of_uint, <- Hd.
    destruct (JS.toString (rowNumber fb)) eqn:Hs; [done|].
    simpl. rewrite <- Hs. by rewrite parseInt_toString.
Qed.

Section ReplyRuns.

Context `{JSON}.

(** X17. A comment stored for a reply sent through Telegram is listed by
    the dashboard: after [addCommentToFeedback rowNumber commentText] has
    returned, [getComments rowNumber] returns the comments that the cell
    held followed by one with the text as it was given (not trimmed, and
    possibly empty), the time of the call and the author "Telegram".
    The conditions are those of X2, without the one on the text. *)
Theorem getComments_after_addCommentToFeedback
    (w : world) (rowNumber : nat) (commentText : string)
    (Hrow : 1 <= rowNumber) (Hquiet : faults w = []) :
  let comments :=
    comments_of (value_at (sheet w) rowNumber 7)
    ++ [comment_of commentText (comment_timestamp (vnTime (clock w)))
          "Telegram"] in
  reads_back comments ->
  exists w1,
    TelegramReply.addCommentToFeedback rowNumber commentText w
    = (Returned tt, w1) /\
    getComments rowNumber w1 = (Returned (CommentList None comments), w1).
Proof.
  intros comments Hback. eexists. split.
  - unfold TelegramReply.addCommentToFeedback.
    erewrite bind_returned by by apply getRow_quiet.
    erewrite bind_returned by reflexivity.
    erewrite bind_returned by by apply updateCell_quiet.
    rewrite cell_H_of_getRow. reflexivity.
  - destruct (comments_of_reads_back comments Hback) as [Hread _].
    rewrite getComments_run by done. cbn [sheet with_sheet].
    rewrite value_at_written by done.
    change (comment ?t ?ti ?a) with (comment_of t ti a).
    fold comments. by rewrite Hread.
Qed.

End ReplyRuns.

(** ** Examples: the theorems at sample inputs *)

#[local] Existing Instance JsonText.runtime.
#[local] Existing Instance Samples.guides.
#[local] Existing Instance Samples.telegram.
#[local] Existing Instance Samples.bot_admin.
#[local] Existing Instance Samples.service.
#[local] Existing Instance Samples.storage.

Lemma getAllData_rows_witness :
  faults (Samples.world_of Samples.board) = [] /\
  exists headers rows,
    getAllData (Samples.world_of Samples.board)
    = (Returned (headers, rows), Samples.world_of Samples.board) /\
    headers = ["FEEDBACK"] /\
    (exists r, r ∈ rows /\ rowNumber r = 5 /\ host r = "Taiz" /\
       shop r = "shop-b.example.vn" /\ stage r = "Done" /\ tags r = "") /\
    (forall r, r ∈ rows -> rowNumber r <> 4 /\ rowNumber r <> 6).
Proof.
  split; [reflexivity|].
  destruct (getAllData_rows (Samples.world_of Samples.board) eq_refl)
    as (headers & rows & Hrun & _ & Hrows).
  destruct Hrows as (Hheaders & _ & Hmem); [simpl; lia|].
  exists headers, rows. split; [exact Hrun|]. split; [|split].
  - simpl in Hheaders. congruence.
  - assert (Hin : to_row 2 ["21/01/2026"; "Taiz"; "shop-b.example.vn"; "";
                            "Done"] ∈ rows).
    { apply Hmem. exists 2, ["21/01/2026"; "Taiz"; "shop-b.example.vn"; "";
                             "Done"].
      repeat split; try reflexivity. left. discriminate. }
    eexists. split; [exact Hin|]. repeat split.
  - intros r Hr. apply Hmem in Hr as (index & raw & Hraw & Hn & _ & _ & Hk).
    split; intros Hrow; rewrite Hrow in Hn.
    + assert (index = 1) as -> by lia. simpl in Hraw.
      injection Hraw as <-. destruct Hk as [Hk|Hk]; by apply Hk.
    + assert (index = 3) as -> by lia. simpl in Hraw.
      injection Hraw as <-. destruct Hk as [Hk|Hk]; by apply Hk.
Defined.

Lemma getDashboardData_stats_witness :
  faults (Samples.world_of Samples.namesakes) = [] /\
  exists d,
    getDashboardData (Samples.world_of Samples.namesakes)
    = (Returned (DashboardData d), Samples.world_of Samples.namesakes) /\
    pending d = 3 /\
    byHost d !! "Quốc" = Some 1 /\
    byHostText d !! "constructor" = Some 2 /\
    StronglySorted JS.le (hosts d).
Proof.
  split; [reflexivity|].
  destruct (getDashboardData_stats (Samples.world_of Samples.namesakes)
              eq_refl)
    as (d & Hrun & Hrows & Hpending & _ & Hhost & _ & Htext & _ & Hhosts & _).
  exists d. split; [exact Hrun|]. split; [|split; [|split]].
  - rewrite Hpending, Hrows. vm_compute. reflexivity.
  - apply Hhost. rewrite Hrows. split; [discriminate|]. split.
    + intros Hin%inherited_iff. vm_compute in Hin. discriminate Hin.
    + vm_compute. split; [reflexivity|lia].
  - apply Htext. rewrite Hrows. split.
    + apply inherited_iff. vm_compute. reflexivity.
    + split; [discriminate|]. vm_compute. split; [reflexivity|lia].
  - apply Hhosts.
Defined.

Lemma stage_write_survives_failed_timestamp_witness :
  (exists w',
     updateStage 3 "Done"
       (Samples.world_with Samples.notebook [None; Some "Quota exceeded"])
     = (Thrown "Quota exceeded", w') /\
     cell_at (sheet w') 3 5 = Some "Done") /\
  (exists w',
     bulkUpdateStage (Some [4; 3]) "Done"
       (Samples.world_with Samples.notebook
          [None; None; None; Some "Quota exceeded"])
     = (Thrown "Quota exceeded", w') /\
     cell_at (sheet w') 3 5 = Some "Done").
Proof.
  split.
  - destruct (stage_write_survives_failed_timestamp
                (Samples.world_with Samples.notebook
                   [None; Some "Quota exceeded"])
                3 "Done" "Quota exceeded" [] [] []) as [Hone _].
    + lia.
    + constructor.
    + apply not_elem_of_nil.
    + discriminate.
    + destruct (Hone eq_refl) as (w' & Hrun & _ & Hcell & _).
      exists w'. split; [exact Hrun|exact Hcell].
  - destruct (stage_write_survives_failed_timestamp
                (Samples.world_with Samples.notebook
                   [None; None; None; Some "Quota exceeded"])
                3 "Done" "Quota exceeded" [] [4] []) as [_ Hbulk].
    + lia.
    + repeat constructor; lia.
    + intros Hin. apply list_elem_of_singleton in Hin. discriminate Hin.
    + discriminate.
    + destruct (Hbulk eq_refl) as (w' & Hrun & Hcell & _).
      exists w'. split; [exact Hrun|exact Hcell].
Defined.

Lemma timestamps_written_witness :
  wall_clock (vnTime (clock (Samples.world_of Samples.notebook))) /\
  faults (Samples.world_of Samples.notebook) = [] /\
  (exists reply w',
     updateStage 3 "Done" (Samples.world_of Samples.notebook)
     = (Returned reply, w') /\
     cell_at (sheet w') 3 14 = Some "22:05:00 09/01/2026") /\
  (exists w',
     updateFeedback 3 (Some Samples.sample_updates)
       (Samples.world_of Samples.notebook)
     = (Thrown
          ("Requested writing within range [Feedback!A3:N3], "
           ++ "but tried writing to column [O]"), w') /\
     sheet w' = Samples.notebook) /\
  (exists reply w',
     @updateFeedback Samples.lenient_service 3 (Some Samples.sample_updates)
       (Samples.world_of Samples.notebook)
     = (Returned reply, w') /\
     cell_at (sheet w') 3 14 = Some "22:05:00 09/01/2026").
Proof.
  assert (Hclock :
    wall_clock (vnTime (clock (Samples.world_of Samples.notebook)))).
  { unfold wall_clock. simpl. repeat split; lia. }
  split; [exact Hclock|]. split; [reflexivity|].
  destruct (timestamps_written (Samples.world_of Samples.notebook) Hclock
              eq_refl) as (_ & Hrefused & Hstage & _).
  destruct (@timestamps_written Samples.lenient_service
              (Samples.world_of Samples.notebook) Hclock eq_refl)
    as (_ & Hwritten & _).
  split; [|split].
  - destruct (Hstage 3 "Done") as (reply & w' & Hrun & Hcell); [lia|].
    exists reply, w'. split; [exact Hrun|exact Hcell].
  - apply (Hrefused 3 Samples.sample_updates). lia.
  - apply (Hwritten 3 Samples.sample_updates). lia.
Defined.

Example comments_of_sample :
  stored_comments (value_at Samples.notebook 3 7)
  = [comment_of "Đã báo khách" "09:15 08/01/2026" "User";
     comment_of "Khách đồng ý" "16:40 08/01/2026" "User"] /\
  stored_comments (value_at Samples.notebook 4 7)
  = [comment_of "gọi lại sau" "Note cũ" "System"].
Proof. split; vm_compute; reflexivity. Qed.

Lemma addComment_appends_witness :
  JS.trim "  Đã xử lý " <> "" /\
  faults (Samples.world_of Samples.notebook) = [] /\
  exists w',
    addComment 4 "  Đã xử lý " (Samples.world_of Samples.notebook)
    = (Returned
         (CommentList (Some "Đã thêm comment!")
            [comment_of "gọi lại sau" "Note cũ" "System";
             comment_of "Đã xử lý" "22:05 09/01/2026" "User"]), w').
Proof.
  assert (Htext : JS.trim "  Đã xử lý " <> "").
  { vm_compute. discriminate. }
  split; [exact Htext|]. split; [reflexivity|].
  destruct (addComment_appends (Samples.world_of Samples.notebook) 4
              "  Đã xử lý ") as (w' & Hrun & _);
    [lia|exact Htext|reflexivity|].
  exists w'. exact Hrun.
Defined.

Lemma deleteComment_by_index_witness :
  deleteComment 3 (Some 2%Z) (Samples.world_of Samples.notebook)
  = (Returned (Status false "Invalid comment index"),
     Samples.world_of Samples.notebook) /\
  exists remaining w',
    deleteComment 3 (Some 0%Z) (Samples.world_of Samples.notebook)
    = (Returned (CommentList (Some "Deleted comment!") remaining), w') /\
    remaining !! 0
    = Some (comment_of "Khách đồng ý" "16:40 08/01/2026" "User").
Proof.
  destruct (deleteComment_by_index (Samples.world_of Samples.notebook) 3 2%Z)
    as [Hout _]; [lia|reflexivity|].
  destruct (deleteComment_by_index (Samples.world_of Samples.notebook) 3 0%Z)
    as [_ Hin]; [lia|reflexivity|].
  split.
  - apply Hout. right. vm_compute. discriminate.
  - destruct Hin as (remaining & w' & Hrun & _ & _ & Hlater & _).
    + vm_compute. split; [discriminate|reflexivity].
    + exists remaining, w'. split; [exact Hrun|].
      rewrite (Hlater 0) by (simpl; lia). vm_compute. reflexivity.
Defined.

Lemma earlier_createFeedback_round_trip_witness :
  faults (Samples.world_of Samples.header_rows) = [] /\
  2 <= length (sheet (Samples.world_of Samples.header_rows)) /\
  round_trip ServerV2.createFeedback Samples.sample_feedback
    (Samples.world_of Samples.header_rows).
Proof.
  split; [reflexivity|]. split; [simpl; lia|].
  apply (earlier_createFeedback_round_trip
           (Samples.world_of Samples.header_rows) Samples.sample_feedback).
  - reflexivity.
  - simpl. lia.
  - left. vm_compute. discriminate.
Defined.

Lemma api_key_guard_witness :
  under_api (path (accepted Samples.post_without_key)) = true /\
  server Samples.env Samples.post_without_key
    (Samples.world_of Samples.board)
  = (Returned
       (Answered (mkResponse 403
                    (Status false "Forbidden: Invalid API Key"))),
     Samples.world_of Samples.board) /\
  server Samples.open_env Samples.post_without_key
    (Samples.world_of Samples.board)
  = (Returned
       (Answered (json_response (Status false "No feedback data"))),
     with_line "API Error: No feedback data"
       (with_line "API_KEY not set in .env! Securing is disabled."
          (Samples.world_of Samples.board))) /\
  server Samples.env
    (mkArrival (Samples.request_of POST "/api/exec" "createFeedback")
       (Some (400, "SyntaxError: Unexpected end of JSON input")))
    (Samples.world_of Samples.board)
  = (Returned (Refused 400),
     with_line "SyntaxError: Unexpected end of JSON input"
       (Samples.world_of Samples.board)).
Proof.
  split; [reflexivity|]. split; [|split].
  - apply (api_key_guard Samples.env Samples.post_without_key
             (Samples.world_of Samples.board));
      [reflexivity|discriminate|reflexivity|reflexivity|discriminate].
  - destruct (api_key_guard Samples.open_env Samples.post_without_key
                (Samples.world_of Samples.board)) as [Hkey _];
      [reflexivity|].
    destruct Hkey as (_ & _ & Hopen); [discriminate|reflexivity|].
    rewrite Hopen by reflexivity. vm_compute. reflexivity.
  - apply (api_key_guard Samples.env
             (mkArrival (Samples.request_of POST "/api/exec" "createFeedback")
                (Some (400, "SyntaxError: Unexpected end of JSON input")))
             (Samples.world_of Samples.board));
      [reflexivity|discriminate|reflexivity].
Defined.

(** C2 as stated fails for an OPTIONS request and for a request whose
    body is refused: [cors()] answers the first with status 204 and the
    error handler of Express answers the second with status 400, both
    before the key is looked at, so that a request to [/api/exec]
    without the key is not answered with status 403. *)
Lemma preflight_is_answered_without_the_key :
  let forbidden :=
    Answered (mkResponse 403 (Status false "Forbidden: Invalid API Key")) in
  let preflight := mkArrival (Samples.request_of OPTIONS "/api/exec" "") None in
  let truncated :=
    mkArrival (Samples.request_of POST "/api/exec" "createFeedback")
      (Some (400, "SyntaxError: Unexpected end of JSON input")) in
  let w := Samples.world_of Samples.board in
  defined_truthy (API_KEY Samples.env) = true /\
  (under_api (path (accepted preflight)) = true /\
   x_api_key (accepted preflight) <> API_KEY Samples.env /\
   server Samples.env preflight w = (Returned Preflight, w) /\
   server Samples.env preflight w <> (Returned forbidden, w)) /\
  (under_api (path (accepted truncated)) = true /\
   x_api_key (accepted truncated) <> API_KEY Samples.env /\
   server Samples.env truncated w
   = (Returned (Refused 400),
      with_line "SyntaxError: Unexpected end of JSON input" w) /\
   server Samples.env truncated w <> (Returned forbidden, w)).
Proof.
  intros forbidden preflight truncated w. split; [reflexivity|].
  split; (split; [reflexivity|]; split; [discriminate|];
          split; [reflexivity|discriminate]).
Qed.



Lemma telegram_routes_skip_api_key_witness :
  TelegramServer.api_key_middleware Samples.env
    (Samples.request_of GET "/api/telegram-setup" "")
    (Samples.world_of Samples.board)
  = (Returned None, Samples.world_of Samples.board) /\
  TelegramServer.app Samples.env
    (Samples.telegram_request POST "/api/telegram-webhook")
    (Samples.world_of Samples.board)
  = (a <- TelegramServer.telegram_webhook Samples.env Samples.list_command ;;
     ret (Some a)) (Samples.world_of Samples.board).
Proof.
  destruct (telegram_routes_skip_api_key Samples.env
              (Samples.telegram_request GET "/api/telegram-setup")
              (Samples.world_of Samples.board)) as (Hskip & _).
  destruct (telegram_routes_skip_api_key Samples.env
              (Samples.telegram_request POST "/api/telegram-webhook")
              (Samples.world_of Samples.board)) as (_ & _ & _ & Hhook).
  split.
  - apply Hskip. reflexivity.
  - apply Hhook; reflexivity.
Defined.

Lemma getComments_after_addComment_witness :
  JS.trim "  Đã xử lý " <> "" /\
  faults (Samples.world_of Samples.notebook) = [] /\
  exists w1,
    addComment 4 "  Đã xử lý " (Samples.world_of Samples.notebook)
    = (Returned
         (CommentList (Some "Đã thêm comment!")
            [comment_of "gọi lại sau" "Note cũ" "System";
             comment_of "Đã xử lý" "22:05 09/01/2026" "User"]), w1) /\
    getComments 4 w1
    = (Returned
         (CommentList None
            [comment_of "gọi lại sau" "Note cũ" "System";
             comment_of "Đã xử lý" "22:05 09/01/2026" "User"]), w1).
Proof.
  assert (Htext : JS.trim "  Đã xử lý " <> "").
  { vm_compute. discriminate. }
  split; [exact Htext|]. split; [reflexivity|].
  apply (getComments_after_addComment (Samples.world_of Samples.notebook) 4
           "  Đã xử lý "); [lia|exact Htext|reflexivity|].
  split; vm_compute; reflexivity.
Defined.

Lemma deleteComment_undoes_addComment_witness :
  exists added w1 w2,
    addComment 3 "Xong" (Samples.world_of Samples.notebook)
    = (Returned added, w1) /\
    deleteComment 3 (Some 2%Z) w1
    = (Returned
         (CommentList (Some "Deleted comment!")
            [comment_of "Đã báo khách" "09:15 08/01/2026" "User";
             comment_of "Khách đồng ý" "16:40 08/01/2026" "User"]), w2) /\
    value_at (sheet w2) 4 7 = "gọi lại sau".
Proof.
  destruct (deleteComment_undoes_addComment
              (Samples.world_of Samples.notebook) 3 "Xong")
    as (added & w1 & w2 & Hadd & Hdelete & _ & Hothers).
  - lia.
  - vm_compute. discriminate.
  - reflexivity.
  - split; vm_compute; reflexivity.
  - exists added, w1, w2. split; [exact Hadd|]. split; [exact Hdelete|].
    rewrite Hothers; [reflexivity|lia|discriminate].
Defined.

Lemma legacy_note_is_listed_but_cannot_be_deleted_witness :
  getComments 4 (Samples.world_of Samples.notebook)
  = (Returned (CommentList None [comment_of "gọi lại sau" "Note cũ" "System"]),
     Samples.world_of Samples.notebook) /\
  deleteComment 4 (Some 0%Z) (Samples.world_of Samples.notebook)
  = (Returned (Status false "Invalid comment index"),
     Samples.world_of Samples.notebook).
Proof.
  apply (legacy_note_is_listed_but_cannot_be_deleted
           (Samples.world_of Samples.notebook) 4 0%Z).
  - lia.
  - reflexivity.
  - vm_compute. discriminate.
  - vm_compute. reflexivity.
Defined.

Lemma comments_are_stamped_witness :
  wall_clock (vnTime (clock (Samples.world_of Samples.notebook))) /\
  exists earlier w',
    addComment 4 "  Đã xử lý " (Samples.world_of Samples.notebook)
    = (Returned
         (CommentList (Some "Đã thêm comment!")
            (earlier ++ [comment_of "Đã xử lý" "22:05 09/01/2026" "User"])),
       w').
Proof.
  assert (Hclock :
    wall_clock (vnTime (clock (Samples.world_of Samples.notebook)))).
  { unfold wall_clock. simpl. repeat split; lia. }
  split; [exact Hclock|].
  apply (comments_are_stamped (Samples.world_of Samples.notebook) 4
           "  Đã xử lý "); [lia| |reflexivity|exact Hclock].
  vm_compute. discriminate.
Defined.

Lemma updateFeedback_changes_named_columns_witness :
  (exists w',
     updateFeedback 3 (Some Samples.sample_updates)
       (Samples.world_of Samples.notebook)
     = (Thrown
          ("Requested writing within range [Feedback!A3:N3], "
           ++ "but tried writing to column [O]"), w') /\
     sheet w' = Samples.notebook /\
     console w'
     = ["SheetsClient: updateRow Error: "
        ++ "Requested writing within range [Feedback!A3:N3], "
        ++ "but tried writing to column [O]"]%string) /\
  (exists w',
     @updateFeedback Samples.lenient_service 3 (Some Samples.sample_updates)
       (Samples.world_of Samples.notebook)
     = (Returned (Status true "Cập nhật thành công!"), w') /\
     value_at (sheet w') 3 5 = "Done" /\
     value_at (sheet w') 3 9 = "Đã sửa" /\
     value_at (sheet w') 3 0 = "1767990000000" /\
     value_at (sheet w') 3 14 = "22:05:00 09/01/2026" /\
     value_at (sheet w') 4 5 = "Feedback").
Proof.
  split.
  - assert (Hrow : 1 <= 3) by lia.
    exact (updateFeedback_changes_named_columns
             (Samples.world_of Samples.notebook) 3 Samples.sample_updates
             Hrow eq_refl).
  - destruct (@updateFeedback_changes_named_columns Samples.lenient_service
                (Samples.world_of Samples.notebook) 3 Samples.sample_updates)
      as (w' & Hrun & Hrow & Hrest); [lia|reflexivity|].
    exists w'. split; [exact Hrun|].
    rewrite !Hrow, Hrest by lia. repeat split; vm_compute; reflexivity.
Defined.

Lemma bulkDelete_removes_listed_rows_witness :
  bulkDelete (Some [3; 5]) (Samples.world_of Samples.board)
  = (Returned (Status true "Đã xóa 2 mục"),
     with_sheet
       (Samples.header_rows ++
        [ [];
          [""; ""; ""; ""; "Feedback"];
          ["22/01/2026"; "Quốc"; ""; ""; "Feedback"] ])
       (Samples.world_of Samples.board)).
Proof.
  rewrite (bulkDelete_removes_listed_rows (Samples.world_of Samples.board)
             [3; 5]).
  - vm_compute. reflexivity.
  - reflexivity.
  - discriminate.
  - apply NoDup_cons. split; [|apply NoDup_singleton].
    intros Hin. apply list_elem_of_singleton in Hin. discriminate Hin.
  - repeat constructor; lia.
Defined.

Lemma deleteFeedback_moves_rows_up_witness :
  exists w1 headers1,
    deleteFeedback 3 (Samples.world_of Samples.board)
    = (Returned (Status true "Đã xóa feedback!"), w1) /\
    getAllData w1
    = (Returned (headers1,
                 [to_row 1 ["21/01/2026"; "Taiz"; "shop-b.example.vn"; "";
                            "Done"];
                  to_row 3 ["22/01/2026"; "Quốc"; ""; ""; "Feedback"]]),
       w1).
Proof.
  destruct (deleteFeedback_moves_rows_up (Samples.world_of Samples.board) 3
              (fst (all_data Samples.board)) (snd (all_data Samples.board)))
    as (w1 & headers1 & Hrun & Hread).
  - lia.
  - reflexivity.
  - vm_compute. reflexivity.
  - exists w1, headers1. split; [exact Hrun|].
    rewrite Hread. vm_compute. reflexivity.
Defined.

Lemma updateStage_is_read_back_witness :
  exists w1 headers1,
    ServerV2.updateStage 5 "Feedback" (Samples.world_of Samples.board)
    = (Returned (Status true
                 ("Đã cập nhật Stage thành " ++ JS.dquote ++ "Feedback"
                  ++ JS.dquote)), w1) /\
    getAllData w1
    = (Returned (headers1,
                 [to_row 0 ["20/01/2026"; "Quốc"; "shop-a.example.vn"; "";
                            "Feedback"; "gap"];
                  to_row 2 ["21/01/2026"; "Taiz"; "shop-b.example.vn"; "";
                            "Feedback"];
                  to_row 4 ["22/01/2026"; "Quốc"; ""; ""; "Feedback"]]),
       w1).
Proof.
  destruct (updateStage_is_read_back (Samples.world_of Samples.board) 5
              "Feedback"
              (fst (all_data Samples.board)) (snd (all_data Samples.board)))
    as (w1 & headers1 & Hrun & Hread).
  - lia.
  - reflexivity.
  - vm_compute. reflexivity.
  - exists w1, headers1. split; [exact Hrun|].
    rewrite Hread. vm_compute. reflexivity.
Defined.

Lemma dashboard_cards_match_stages_witness :
  faults (Samples.world_of Samples.board) = [] /\
  exists d,
    getDashboardData (Samples.world_of Samples.board)
    = (Returned (DashboardData d), Samples.world_of Samples.board) /\
    pending d = default 0 (byStage d !! "Feedback").
Proof.
  split; [reflexivity|].
  destruct (dashboard_cards_match_stages (Samples.world_of Samples.board)
              eq_refl) as (d & Hrun & Hpending & _).
  exists d. split; [exact Hrun|exact Hpending].
Defined.

Lemma invalid_requests_are_refused_unsent_witness :
  post_exec (Samples.request_of POST "/api/exec" "deleteFeedback")
    (Samples.outage Samples.board)
  = (Returned (json_response (Status false "Missing rowNumber")),
     with_line "API Error: Missing rowNumber" (Samples.outage Samples.board)).
Proof.
  apply (invalid_requests_are_refused_unsent
           (Samples.request_of POST "/api/exec" "deleteFeedback")
           (Samples.outage Samples.board)).
  apply (rejected_rowNumber _ "deleteFeedback"); [reflexivity| |reflexivity].
  right. left.
Defined.

Lemma get_requests_only_read_witness :
  exists answer w',
    app Samples.open_env (Samples.request_of GET "/api/exec" "deleteFeedback")
      (Samples.world_of Samples.board)
    = (Returned answer, w') /\
    sheet w' = Samples.board.
Proof.
  apply (get_requests_only_read
           (H0 := Samples.guides) (H1 := Samples.telegram)).
  - apply reads_only_bind; [apply remote_call_reads_only|].
    intros []. apply reads_only_ret.
  - apply reads_only_throw.
  - intros botToken fileId.
    apply reads_only_bind; [apply remote_call_reads_only|].
    intros []. apply reads_only_ret.
  - reflexivity.
Defined.

Lemma updateStage_succeeds_without_notification_witness :
  calm 3 (Samples.world_with Samples.notebook
            [None; None; None; Some "Quota exceeded"]) /\
  exists w',
    TelegramServer.updateStage
      (mkEnv None (Some "123:abc") None (Some "-1001234567890") None None)
      3 "Feedback"
      (Samples.world_with Samples.notebook
         [None; None; None; Some "Quota exceeded"])
    = (Returned (Status true
                 ("Đã cập nhật Stage thành " ++ JS.dquote ++ "Feedback"
                  ++ JS.dquote)), w') /\
    cell_at (sheet w') 3 5 = Some "Feedback" /\
    cell_at (sheet w') 3 14 = Some "22:05:00 09/01/2026".
Proof.
  assert (Hcalm : calm 3 (Samples.world_with Samples.notebook
                            [None; None; None; Some "Quota exceeded"])).
  { unfold calm. simpl. repeat constructor. }
  split; [exact Hcalm|].
  destruct (updateStage_succeeds_without_notification
              (mkEnv None (Some "123:abc") None (Some "-1001234567890") None None)
              (Samples.world_with Samples.notebook
                 [None; None; None; Some "Quota exceeded"])
              3 "Feedback") as (w' & Hrun & Hsheet); [lia|exact Hcalm|].
  exists w'. split; [exact Hrun|]. rewrite Hsheet.
  split; vm_compute; reflexivity.
Defined.

Lemma telegram_webhook_always_acknowledges_witness :
  plain Samples.list_command /\
  (exists w',
     TelegramServer.telegram_webhook Samples.env Samples.list_command
       (Samples.outage Samples.board)
     = (Returned (json_response Ack), w') /\
     sheet w' = Samples.board) /\
  (exists w',
     TelegramServer.telegram_webhook Samples.env Samples.photo_reply
       (Samples.outage Samples.notebook)
     = (Returned (json_response Ack), w')).
Proof.
  assert (Hplain : plain Samples.list_command).
  { intros message [= <-]. reflexivity. }
  split; [exact Hplain|]. split.
  - destruct (telegram_webhook_always_acknowledges Samples.env
                Samples.list_command (Samples.outage Samples.board))
      as (w' & Hrun & Hsheet).
    exists w'. split; [exact Hrun|]. by apply Hsheet.
  - destruct (telegram_webhook_always_acknowledges Samples.env
                Samples.photo_reply (Samples.outage Samples.notebook))
      as (w' & Hrun & _).
    by exists w'.
Defined.


Lemma comment_reply_is_stored_witness :
  exists w',
    TelegramServer.telegram_webhook Samples.env
      (TelegramServer.mkUpdate
         (Some (Samples.message_of (Some "đã gọi khách")
                  (Some Samples.listed_message) None)))
      (Samples.world_of Samples.notebook)
    = (Returned (json_response Ack), w') /\
    stored_comments (value_at (sheet w') 3 7)
    = [comment_of "Đã báo khách" "09:15 08/01/2026" "User";
       comment_of "Khách đồng ý" "16:40 08/01/2026" "User";
       comment_of "[Telegram] Quốc: đã gọi khách" "22:05 09/01/2026"
         "Telegram"] /\
    value_at (sheet w') 3 5 = "Feedback" /\
    outbox w' = [].
Proof.
  destruct (comment_reply_is_stored Samples.env
              (Samples.world_of Samples.notebook)
              (TelegramServer.mkChat "814408956" "private" None)
              (TelegramServer.mkUser "814408956" (Some "quoc") (Some "Quốc"))
              (Some "đã gọi khách") None Samples.listed_message 3)
    as (w' & Hrun & Hcell & Hrest & Hout & _);
    [reflexivity|reflexivity|lia|discriminate|discriminate|discriminate
    |reflexivity|reflexivity|].
  exists w'. split; [exact Hrun|]. split; [|split].
  - unfold value_at. rewrite Hcell. vm_compute. reflexivity.
  - rewrite Hrest by (lia || congruence). reflexivity.
  - exact Hout.
Defined.

(** The two sample replies to the message of row 3: the first closes the
    feedback and leaves a remark, the second stores the photo that was
    sent, which is copied to the bucket under a fresh name. *)
Example done_reply_with_a_remark :
  exists w',
    TelegramServer.telegram_webhook Samples.env Samples.done_reply
      (Samples.world_of Samples.notebook)
    = (Returned (json_response Ack), w') /\
    value_at (sheet w') 3 5 = "Done" /\
    value_at (sheet w') 3 14 = "22:05:00 09/01/2026" /\
    stored_comments (value_at (sheet w') 3 7)
    = [comment_of "Đã báo khách" "09:15 08/01/2026" "User";
       comment_of "Khách đồng ý" "16:40 08/01/2026" "User";
       comment_of "[Telegram] Quốc: đã sửa banner" "22:05 09/01/2026"
         "Telegram"] /\
    map tg_text (outbox w')
    = ["✅ #3 → Done!"; "🎉 Không còn feedback nào!"].
Proof. eexists. split; [reflexivity|]. repeat split. Qed.

Example photo_reply_is_stored :
  exists w',
    TelegramServer.telegram_webhook Samples.env Samples.photo_reply
      (Samples.world_of Samples.notebook)
    = (Returned (json_response Ack), w') /\
    stored_comments (value_at (sheet w') 3 7) !! 2
    = Some (comment_of
              ("[Telegram] Quốc: " ++ JS.nl
               ++ "https://cdn.example.vn/telegram/1768000000000-"
               ++ "3f2b8c1e-0d4a-4c57-9a53-6f1e2d7b9c10.jpg")
              "22:05 09/01/2026" "Telegram") /\
    value_at (sheet w') 3 5 = "Feedback" /\
    outbox w' = [].
Proof. eexists. split; [reflexivity|]. repeat split. Qed.

Lemma list_command_sends_open_feedbacks_witness :
  exists w',
    TelegramServer.telegram_webhook Samples.env Samples.list_command
      (Samples.world_of Samples.board)
    = (Returned (json_response Ack), w') /\
    map tg_chat (outbox w') = ["814408956"; "814408956"] /\
    sheet w' = Samples.board.
Proof.
  eexists. split.
  - apply (list_command_sends_open_feedbacks Samples.env
             (Samples.world_of Samples.board)
             (TelegramServer.mkChat "814408956" "private" None)
             (TelegramServer.mkUser "814408956" (Some "quoc") (Some "Quốc"))
             (Some "//") "Quốc"); reflexivity.
  - split; vm_compute; reflexivity.
Defined.

Lemma getComments_after_addCommentToFeedback_witness :
  exists w1,
    TelegramReply.addCommentToFeedback 4 "[Telegram] Quốc: đã gọi"
      (Samples.world_of Samples.notebook)
    = (Returned tt, w1) /\
    getComments 4 w1
    = (Returned
         (CommentList None
            [comment_of "gọi lại sau" "Note cũ" "System";
             comment_of "[Telegram] Quốc: đã gọi" "22:05 09/01/2026"
               "Telegram"]), w1).
Proof.
  apply (getComments_after_addCommentToFeedback
           (Samples.world_of Samples.notebook) 4 "[Telegram] Quốc: đã gọi");
    [lia|reflexivity|].
  split; vm_compute; reflexivity.
Defined.
